(** * Kanban board backend ([backend/server.py]): model and verification

    The FastAPI handlers of [server.py] are embedded as programs over the
    calls they await on the MongoDB collections [db.boards] and [db.tasks].
    Documents are Python dictionaries (finite maps from field names to
    values), a collection is the list of its documents in natural order,
    and the pydantic models [Board], [Task], ... are records. *)

From stdpp Require Import base option list gmap fin_maps strings.
From Stdlib Require Import ZArith NArith Lia Ascii.

Local Open Scope string_scope.

(** ** The [datetime] type of the Python standard library

    [server.py] uses [datetime] through [datetime.now(timezone.utc)],
    [isoformat], [fromisoformat] and comparison; pydantic coerces strings
    to [datetime] with a parser of its own.  The library is taken as an
    interface: the development holds for every implementation in which
    [fromisoformat] reads back what [isoformat] wrote, which is what the
    library documents.  [Iso8601] further down is such an implementation. *)
Class DatetimeLib := {
  datetime : Type;
  datetime_eq_dec :: EqDecision datetime;
  (** [d.isoformat()] *)
  isoformat : datetime → string;
  (** [datetime.fromisoformat(s)]; [None] stands for [ValueError] *)
  fromisoformat : string → option datetime;
  (** pydantic's validation of a string given for a [datetime] field *)
  parse_datetime : string → option datetime;
  (** [d1 <= d2] *)
  datetime_le : datetime → datetime → Prop;
  fromisoformat_isoformat d : fromisoformat (isoformat d) = Some d;
}.

(** ** A reference implementation of the interface

    Datetimes as the library holds them (calendar fields and an optional
    UTC offset, always in range) with the text that [isoformat] emits:
    [YYYY-MM-DDTHH:MM:SS], then [.ffffff] when the microsecond is not
    zero, then the offset [+HH:MM] of an aware datetime.  Offsets are
    whole minutes, as those of [timezone.utc] and of the datetimes pydantic
    parses are.  [fromisoformat] here reads this format only. *)
Module Iso8601.
Local Open Scope N_scope.

Record fields := {
  year : N; month : N; day : N;
  hour : N; minute : N; second : N; microsecond : N;
  (** [utcoffset()] in minutes, [None] for a naive datetime *)
  utcoffset : option Z;
}.

#[global] Instance fields_eq_dec : EqDecision fields.
Proof. solve_decision. Defined.

Definition is_leap (y : N) : bool :=
  (y mod 4 =? 0) && (negb (y mod 100 =? 0) || (y mod 400 =? 0)).

Definition days_in_month (y m : N) : N :=
  if m =? 2 then (if is_leap y then 29 else 28)
  else if (m =? 4) || (m =? 6) || (m =? 9) || (m =? 11) then 30
  else 31.

Definition valid (f : fields) : bool :=
  (1 <=? year f) && (year f <=? 9999) &&
  (1 <=? month f) && (month f <=? 12) &&
  (1 <=? day f) && (day f <=? days_in_month (year f) (month f)) &&
  (hour f <? 24) && (minute f <? 60) && (second f <? 60) &&
  (microsecond f <? 1000000) &&
  match utcoffset f with
  | None => true
  | Some o => (-1440 <? o)%Z && (o <? 1440)%Z
  end.

Record t := mk { fields_of : fields; valid_fields : valid fields_of = true }.

(** The character of a decimal digit (code 48 is the character 0) and
    the digit of a character. *)
Definition digit_char (d : N) : ascii := ascii_of_N (48 + d).

Definition digit_of_char (c : ascii) : option N := N.of_nat <$> Ascii.is_nat c.

Fixpoint digits (w : nat) (n : N) : string :=
  match w with
  | O => ""
  | S w' => String (digit_char ((n / 10 ^ N.of_nat w') mod 10)) (digits w' n)
  end.

Fixpoint parse_digits (w : nat) (s : string) : option (N * string) :=
  match w with
  | O => Some (0, s)
  | S w' =>
      match s with
      | String c s' =>
          d ← digit_of_char c;
          '(n, rest) ← parse_digits w' s';
          Some (d * 10 ^ N.of_nat w' + n, rest)
      | EmptyString => None
      end
  end.

Definition expect (c : ascii) (s : string) : option string :=
  match s with
  | String c' s' => if decide (c = c') then Some s' else None
  | EmptyString => None
  end.

Definition format_offset (o : option Z) : string :=
  match o with
  | None => ""
  | Some o =>
      let m := Z.to_N (Z.abs o) in
      (if (o <? 0)%Z then "-" else "+") ++ digits 2 (m / 60) ++ ":" ++ digits 2 (m mod 60)
  end.

Definition format (f : fields) : string :=
  digits 4 (year f) ++ "-" ++ digits 2 (month f) ++ "-" ++ digits 2 (day f)
  ++ "T" ++ digits 2 (hour f) ++ ":" ++ digits 2 (minute f) ++ ":" ++ digits 2 (second f)
  ++ (if microsecond f =? 0 then "" else "." ++ digits 6 (microsecond f))
  ++ format_offset (utcoffset f).

Definition parse_offset (s : string) : option (option Z) :=
  match s with
  | EmptyString => Some None
  | String sign s =>
      sg ← (if decide (sign = "+"%char) then Some 1%Z
            else if decide (sign = "-"%char) then Some (-1)%Z else None);
      '(h, s) ← parse_digits 2 s;
      s ← expect ":" s;
      '(m, s) ← parse_digits 2 s;
      if decide (s = "") then Some (Some (sg * Z.of_N (h * 60 + m))%Z) else None
  end.

Definition parse_fraction (s : string) : option (N * string) :=
  match s with
  | String "." s' => parse_digits 6 s'
  | _ => Some (0, s)
  end.

Definition parse (s : string) : option fields :=
  '(y, s) ← parse_digits 4 s;
  s ← expect "-" s;
  '(mo, s) ← parse_digits 2 s;
  s ← expect "-" s;
  '(d, s) ← parse_digits 2 s;
  s ← expect "T" s;
  '(h, s) ← parse_digits 2 s;
  s ← expect ":" s;
  '(mi, s) ← parse_digits 2 s;
  s ← expect ":" s;
  '(se, s) ← parse_digits 2 s;
  '(us, s) ← parse_fraction s;
  tz ← parse_offset s;
  Some {| year := y; month := mo; day := d; hour := h; minute := mi;
          second := se; microsecond := us; utcoffset := tz |}.

Definition isoformat (d : t) : string := format (fields_of d).

Definition of_fields (f : fields) : option t :=
  match decide (valid f = true) with
  | left H => Some (mk f H)
  | right _ => None
  end.

Definition fromisoformat (s : string) : option t :=
  f ← parse s; of_fields f.

(** Days before the first of month [m] of year [y], and the proleptic
    Gregorian ordinal of a date. *)
Definition days_before_month (y m : N) : N :=
  match m with
  | 1 => 0 | 2 => 31 | 3 => 59 | 4 => 90 | 5 => 120 | 6 => 151 | 7 => 181
  | 8 => 212 | 9 => 243 | 10 => 273 | 11 => 304 | _ => 334
  end + (if (2 <? m) && is_leap y then 1 else 0).
Definition days_before_year (y : N) : N :=
  let y := y - 1 in y * 365 + y / 4 - y / 100 + y / 400.
Definition toordinal (f : fields) : N :=
  days_before_year (year f) + days_before_month (year f) (month f) + day f.

(** Microseconds since the start of ordinal day 0, in UTC for an aware
    datetime. *)
Definition micros (f : fields) : Z :=
  (Z.of_N ((((toordinal f * 24 + hour f) * 60 + minute f) * 60 + second f)
           * 1000000 + microsecond f)
   - default 0 (utcoffset f) * 60000000)%Z.

(** [d1 <= d2]: by instant between aware datetimes, by fields between
    naive ones; Python raises [TypeError] on a mixed pair. *)
Definition le (d1 d2 : t) : Prop :=
  match utcoffset (fields_of d1), utcoffset (fields_of d2) with
  | Some _, Some _ | None, None =>
      (micros (fields_of d1) ≤ micros (fields_of d2))%Z
  | _, _ => False
  end.

End Iso8601.

(** ** Enums *)

Module TaskPriority.
Inductive t := low | medium | high.
#[global] Instance eq_dec : EqDecision t.
Proof. solve_decision. Defined.
(** [class TaskPriority(str, Enum)]: the member is the string. *)
Definition value (p : t) : string :=
  match p with low => "low" | medium => "medium" | high => "high" end.
(** [TaskPriority(s)]: lookup by value. *)
Definition of_value (s : string) : option t :=
  if decide (s = "low") then Some low
  else if decide (s = "medium") then Some medium
  else if decide (s = "high") then Some high
  else None.
End TaskPriority.

Module TaskColumn.
Inductive t := todo | in_progress | done.
#[global] Instance eq_dec : EqDecision t.
Proof. solve_decision. Defined.
Definition value (c : t) : string :=
  match c with todo => "todo" | in_progress => "in_progress" | done => "done" end.
Definition of_value (s : string) : option t :=
  if decide (s = "todo") then Some todo
  else if decide (s = "in_progress") then Some in_progress
  else if decide (s = "done") then Some done
  else None.
End TaskColumn.

(** Truth value of a [str] (and so of a member of a [str] enum): a string
    is false exactly when it is empty. *)
Definition str_truthy (s : string) : bool :=
  match s with EmptyString => false | String _ _ => true end.

Section Kanban.
Context `{DL : DatetimeLib}.

(** ** Values and documents *)

(** The values that occur in the dictionaries of [server.py]: [None],
    strings (enum members included, they are [str]) and datetimes. *)
Inductive value :=
  | VNone
  | VStr (s : string)
  | VDatetime (d : datetime).

#[global] Instance value_eq_dec : EqDecision value.
Proof. solve_decision. Defined.

(** A Python [dict] with string keys, and a MongoDB document. *)
Abbreviation Document := (gmap string value).

(** [o], an optional string, as a dictionary value. *)
Definition of_opt_str (o : option string) : value :=
  match o with Some s => VStr s | None => VNone end.
Definition of_opt_datetime (o : option datetime) : value :=
  match o with Some d => VDatetime d | None => VNone end.

(** ** Helper functions for MongoDB serialization *)

(** [prepare_for_mongo(data)]: every [datetime] value becomes its ISO
    string; [data] is a dict at every call site.  [prepare_value] is the
    loop body. *)
Definition prepare_value (v : value) : value :=
  match v with
  | VDatetime d => VStr (isoformat d)
  | _ => v
  end.
Definition prepare_for_mongo (data : Document) : Document :=
  prepare_value <$> data.

Definition timestamp_keys : list string := ["created_at"; "updated_at"; "due_date"].

(** The loop body of [parse_from_mongo] at one item of the dict. *)
Definition parse_item (key : string) (v : value) : value :=
  match v with
  | VStr s =>
      if bool_decide (key ∈ timestamp_keys) then
        match fromisoformat s with
        | Some d => VDatetime d
        | None => v (* except ValueError: pass *)
        end
      else v
  | _ => v
  end.

(** The loop of [parse_from_mongo] over a dict. *)
Definition parse_dict (item : Document) : Document :=
  map_imap (λ key v, Some (parse_item key v)) item.

(** [parse_from_mongo(item)]: [item] is a dict or [None] (what [find_one]
    returns); [None] is returned as it is. *)
Definition parse_from_mongo (item : option Document) : option Document :=
  match item with
  | Some item => Some (parse_dict item)
  | None => None
  end.

(** ** The document store

    A collection is the list of its documents in natural (insertion)
    order; the store does not constrain the field [id].  The [_id] that
    MongoDB adds to an inserted document is left out: no handler reads or
    queries it and the models ignore it. *)
Abbreviation Collection := (list (gmap string value)).

(** A query document [{k1: v1, ...}] selects the documents that hold [vi]
    at every [ki]. *)
Definition matches (query doc : Document) : bool :=
  bool_decide (map_Forall (λ k v, doc !! k = Some v) query).

(** [find(query).to_list(length=None)] *)
Definition find_all (c : Collection) (query : Document) : Collection :=
  filter (λ doc, matches query doc = true) c.
(** [find_one(query)]: the first match, [None] without one. *)
Fixpoint find_one (c : Collection) (query : Document) : option Document :=
  match c with
  | [] => None
  | doc :: c' => if matches query doc then Some doc else find_one c' query
  end.
(** [insert_one(doc)] *)
Definition insert_one (c : Collection) (doc : Document) : Collection :=
  c ++ [doc].
(** [update_one(query, {"$set": fields})]: the first match takes the
    fields of [fields], keeping its other fields. *)
Fixpoint update_one (c : Collection) (query fields : Document) : Collection :=
  match c with
  | [] => []
  | doc :: c' =>
      if matches query doc then (fields ∪ doc) :: c'
      else doc :: update_one c' query fields
  end.
(** [delete_one(query)]: the first match goes. *)
Fixpoint delete_one (c : Collection) (query : Document) : Collection :=
  match c with
  | [] => []
  | doc :: c' => if matches query doc then c' else doc :: delete_one c' query
  end.
(** [delete_many(query)]: every match goes. *)
Definition delete_many (c : Collection) (query : Document) : Collection :=
  filter (λ doc, matches query doc ≠ true) c.

(** The database [db] with its two collections. *)
Record Db := { boards : Collection; tasks : Collection }.

Inductive collection_name := Boards | Tasks.

Definition get_collection (n : collection_name) (db : Db) : Collection :=
  match n with Boards => boards db | Tasks => tasks db end.
Definition set_collection (n : collection_name) (c : Collection) (db : Db) : Db :=
  match n with
  | Boards => {| boards := c; tasks := tasks db |}
  | Tasks => {| boards := boards db; tasks := c |}
  end.

(** ** Handlers as programs

    What a handler awaits or draws from its environment, indexed by the
    type of the reply: the calls on a collection of [db], the clock
    ([datetime.now(timezone.utc)]) and [str(uuid.uuid4())]. *)
Inductive Req : Type → Type :=
  | FindOne (n : collection_name) (query : Document) : Req (option Document)
  | Find (n : collection_name) (query : Document) : Req Collection
  | InsertOne (n : collection_name) (doc : Document) : Req unit
  | UpdateOne (n : collection_name) (query fields : Document) : Req unit
  | DeleteOne (n : collection_name) (query : Document) : Req unit
  | DeleteMany (n : collection_name) (query : Document) : Req unit
  | Now : Req datetime
  | Uuid4 : Req string.

(** What a handler raises. *)
Inductive exn :=
  | HTTPException (status_code : nat) (detail : string)
  (** pydantic's [ValidationError], raised by a model constructor *)
  | ValidationError
  (** FastAPI's answer (422) to a request body that fails validation *)
  | RequestValidationError
  (** a model constructor applied to the keywords of [None] *)
  | TypeError.

#[global] Instance exn_eq_dec : EqDecision exn.
Proof. solve_decision. Defined.

(** A handler returns, raises, or awaits the reply to a request and goes
    on with it. *)
Inductive Prog (A : Type) : Type :=
  | Ret (a : A)
  | Raise (e : exn)
  | Await {R : Type} (r : Req R) (k : R → Prog A).
#[global] Arguments Ret {A} a.
#[global] Arguments Raise {A} e.
#[global] Arguments Await {A R} r k.

Fixpoint bind {A B} (p : Prog A) (f : A → Prog B) : Prog B :=
  match p with
  | Ret a => f a
  | Raise e => Raise e
  | Await r k => Await r (λ x, bind (k x) f)
  end.

(** [await r] / a call [r] of the environment *)
Definition call {R} (r : Req R) : Prog R := Await r Ret.

#[global] Instance Prog_ret : MRet Prog := @Ret.
#[global] Instance Prog_bind : MBind Prog := λ A B f p, bind p f.

(** The list comprehension [[f(x) for x in l]] of an effectful [f]. *)
Fixpoint for_each {A B} (f : A → Prog B) (l : list A) : Prog (list B) :=
  match l with
  | [] => Ret []
  | x :: l' => y ← f x; ys ← for_each f l'; Ret (y :: ys)
  end.

(** ** Models *)

Record Board := {
  Board_id : string;
  Board_name : string;
  Board_description : option string;
  Board_created_at : datetime;
  Board_updated_at : datetime;
}.

Record BoardCreate := {
  BoardCreate_name : string;
  BoardCreate_description : option string;
}.

Record BoardUpdate := {
  BoardUpdate_name : option string;
  BoardUpdate_description : option string;
}.

Record Task := {
  Task_id : string;
  Task_board_id : string;
  Task_title : string;
  Task_description : option string;
  Task_priority : TaskPriority.t;
  Task_column : TaskColumn.t;
  Task_due_date : option datetime;
  Task_created_at : datetime;
  Task_updated_at : datetime;
}.

Record TaskCreate := {
  TaskCreate_title : string;
  TaskCreate_description : option string;
  TaskCreate_priority : TaskPriority.t;
  TaskCreate_due_date : option datetime;
}.

Record TaskUpdate := {
  TaskUpdate_title : option string;
  TaskUpdate_description : option string;
  TaskUpdate_priority : option TaskPriority.t;
  TaskUpdate_column : option TaskColumn.t;
  TaskUpdate_due_date : option datetime;
}.

Record TaskMove := { TaskMove_column : TaskColumn.t }.

#[global] Instance Board_eq_dec : EqDecision Board.
Proof. solve_decision. Defined.
#[global] Instance Task_eq_dec : EqDecision Task.
Proof. solve_decision. Defined.

(** *** [model.dict()] *)

Definition Board_dict (b : Board) : Document :=
  {[ "id" := VStr (Board_id b);
     "name" := VStr (Board_name b);
     "description" := of_opt_str (Board_description b);
     "created_at" := VDatetime (Board_created_at b);
     "updated_at" := VDatetime (Board_updated_at b) ]}.

Definition BoardCreate_dict (b : BoardCreate) : Document :=
  {[ "name" := VStr (BoardCreate_name b);
     "description" := of_opt_str (BoardCreate_description b) ]}.

Definition BoardUpdate_dict (b : BoardUpdate) : Document :=
  {[ "name" := of_opt_str (BoardUpdate_name b);
     "description" := of_opt_str (BoardUpdate_description b) ]}.

Definition Task_dict (t : Task) : Document :=
  {[ "id" := VStr (Task_id t);
     "board_id" := VStr (Task_board_id t);
     "title" := VStr (Task_title t);
     "description" := of_opt_str (Task_description t);
     "priority" := VStr (TaskPriority.value (Task_priority t));
     "column" := VStr (TaskColumn.value (Task_column t));
     "due_date" := of_opt_datetime (Task_due_date t);
     "created_at" := VDatetime (Task_created_at t);
     "updated_at" := VDatetime (Task_updated_at t) ]}.

Definition TaskCreate_dict (t : TaskCreate) : Document :=
  {[ "title" := VStr (TaskCreate_title t);
     "description" := of_opt_str (TaskCreate_description t);
     "priority" := VStr (TaskPriority.value (TaskCreate_priority t));
     "due_date" := of_opt_datetime (TaskCreate_due_date t) ]}.

Definition TaskUpdate_dict (t : TaskUpdate) : Document :=
  {[ "title" := of_opt_str (TaskUpdate_title t);
     "description" := of_opt_str (TaskUpdate_description t);
     "priority" := of_opt_str (TaskPriority.value <$> TaskUpdate_priority t);
     "column" := of_opt_str (TaskColumn.value <$> TaskUpdate_column t);
     "due_date" := of_opt_datetime (TaskUpdate_due_date t) ]}.

(** *** Field validation

    What pydantic accepts for a field of each annotated type. *)

(** [str] *)
Definition validate_str (v : value) : option string :=
  match v with VStr s => Some s | _ => None end.
(** [Optional[str]] *)
Definition validate_optional_str (v : value) : option (option string) :=
  match v with
  | VNone => Some None
  | VStr s => Some (Some s)
  | VDatetime _ => None
  end.
(** [datetime] *)
Definition validate_datetime (v : value) : option datetime :=
  match v with
  | VDatetime d => Some d
  | VStr s => parse_datetime s
  | VNone => None
  end.
(** [Optional[datetime]] *)
Definition validate_optional_datetime (v : value) : option (option datetime) :=
  match v with
  | VNone => Some None
  | VDatetime d => Some (Some d)
  | VStr s => Some <$> parse_datetime s
  end.
(** [TaskPriority], [TaskColumn] and their [Optional]s *)
Definition validate_priority (v : value) : option TaskPriority.t :=
  match v with VStr s => TaskPriority.of_value s | _ => None end.
Definition validate_column (v : value) : option TaskColumn.t :=
  match v with VStr s => TaskColumn.of_value s | _ => None end.
Definition validate_optional_priority (v : value) : option (option TaskPriority.t) :=
  match v with
  | VNone => Some None
  | VStr s => Some <$> TaskPriority.of_value s
  | VDatetime _ => None
  end.
Definition validate_optional_column (v : value) : option (option TaskColumn.t) :=
  match v with
  | VNone => Some None
  | VStr s => Some <$> TaskColumn.of_value s
  | VDatetime _ => None
  end.

(** The field [key] of a model built from the keywords [kwargs]: the
    given value validated, or the field's default when the keyword is
    missing. *)
Definition field {A} (kwargs : Document) (key : string)
    (validate : value → option A) (default : Prog A) : Prog A :=
  match kwargs !! key with
  | Some v =>
      match validate v with
      | Some a => Ret a
      | None => Raise ValidationError
      end
  | None => default
  end.

(** A field without default. *)
Definition required {A} : Prog A := Raise ValidationError.

(** *** Model constructors, applied to a dictionary of keywords

    Fields are taken in the order of their declaration, a missing field
    with a [default_factory] draws from the environment, and keywords
    that name no field are ignored.  pydantic validates every field and
    raises one [ValidationError] for all those it refused: a refused
    field does not stop the construction, and the default factories of
    the fields after it still run.  [attempt p] is [p] with its refusal
    turned into the result [None]; [Board] and [Task], the models with
    default factories, are built from attempted fields.  The models of
    the request bodies draw nothing from the environment, so that there
    the first refusal decides. *)
Fixpoint attempt {A} (p : Prog A) : Prog (option A) :=
  match p with
  | Ret a => Ret (Some a)
  | Raise ValidationError => Ret None
  | Raise e => Raise e
  | Await r k => Await r (λ x, attempt (k x))
  end.


Definition Board_init (kwargs : option Document) : Prog Board :=
  match kwargs with
  | None => Raise TypeError
  | Some kw =>
      id ← attempt (field kw "id" validate_str (call Uuid4));
      name ← attempt (field kw "name" validate_str required);
      description ←
        attempt (field kw "description" validate_optional_str (Ret (Some "")));
      created_at ← attempt (field kw "created_at" validate_datetime (call Now));
      updated_at ← attempt (field kw "updated_at" validate_datetime (call Now));
      match id, name, description, created_at, updated_at with
      | Some id, Some name, Some description, Some created_at, Some updated_at =>
          Ret {| Board_id := id; Board_name := name;
                 Board_description := description;
                 Board_created_at := created_at;
                 Board_updated_at := updated_at |}
      | _, _, _, _, _ => Raise ValidationError
      end
  end.

Definition BoardCreate_init (kw : Document) : Prog BoardCreate :=
  name ← field kw "name" validate_str required;
  description ← field kw "description" validate_optional_str (Ret (Some ""));
  Ret {| BoardCreate_name := name; BoardCreate_description := description |}.

Definition BoardUpdate_init (kw : Document) : Prog BoardUpdate :=
  name ← field kw "name" validate_optional_str (Ret None);
  description ← field kw "description" validate_optional_str (Ret None);
  Ret {| BoardUpdate_name := name; BoardUpdate_description := description |}.

Definition Task_init (kwargs : option Document) : Prog Task :=
  match kwargs with
  | None => Raise TypeError
  | Some kw =>
      id ← attempt (field kw "id" validate_str (call Uuid4));
      board_id ← attempt (field kw "board_id" validate_str required);
      title ← attempt (field kw "title" validate_str required);
      description ←
        attempt (field kw "description" validate_optional_str (Ret (Some "")));
      priority ←
        attempt (field kw "priority" validate_priority (Ret TaskPriority.medium));
      column ← attempt (field kw "column" validate_column (Ret TaskColumn.todo));
      due_date ←
        attempt (field kw "due_date" validate_optional_datetime (Ret None));
      created_at ← attempt (field kw "created_at" validate_datetime (call Now));
      updated_at ← attempt (field kw "updated_at" validate_datetime (call Now));
      match id, board_id, title, description, priority, column, due_date,
            created_at, updated_at with
      | Some id, Some board_id, Some title, Some description, Some priority,
        Some column, Some due_date, Some created_at, Some updated_at =>
          Ret {| Task_id := id; Task_board_id := board_id; Task_title := title;
                 Task_description := description; Task_priority := priority;
                 Task_column := column; Task_due_date := due_date;
                 Task_created_at := created_at; Task_updated_at := updated_at |}
      | _, _, _, _, _, _, _, _, _ => Raise ValidationError
      end
  end.

Definition TaskCreate_init (kw : Document) : Prog TaskCreate :=
  title ← field kw "title" validate_str required;
  description ← field kw "description" validate_optional_str (Ret (Some ""));
  priority ← field kw "priority" validate_priority (Ret TaskPriority.medium);
  due_date ← field kw "due_date" validate_optional_datetime (Ret None);
  Ret {| TaskCreate_title := title; TaskCreate_description := description;
         TaskCreate_priority := priority; TaskCreate_due_date := due_date |}.

Definition TaskUpdate_init (kw : Document) : Prog TaskUpdate :=
  title ← field kw "title" validate_optional_str (Ret None);
  description ← field kw "description" validate_optional_str (Ret None);
  priority ← field kw "priority" validate_optional_priority (Ret None);
  column ← field kw "column" validate_optional_column (Ret None);
  due_date ← field kw "due_date" validate_optional_datetime (Ret None);
  Ret {| TaskUpdate_title := title; TaskUpdate_description := description;
         TaskUpdate_priority := priority; TaskUpdate_column := column;
         TaskUpdate_due_date := due_date |}.

Definition TaskMove_init (kw : Document) : Prog TaskMove :=
  column ← field kw "column" validate_column required;
  Ret {| TaskMove_column := column |}.

(** ** Routes *)

(** [not x] for what [find_one] returned: [None] and the empty dict are
    false. *)
Definition falsy (x : option Document) : bool :=
  match x with
  | None => true
  | Some doc => bool_decide (doc = ∅)
  end.

(** [{k: v for k, v in d.items() if v is not None}] *)
Definition without_none (d : Document) : Document :=
  filter (λ kv, kv.2 ≠ VNone) d.

(** *** Board routes *)

Definition get_boards : Prog (list Board) :=
  boards ← call (Find Boards ∅);
  for_each (λ board, Board_init (parse_from_mongo (Some board))) boards.

Definition create_board (board_data : BoardCreate) : Prog Board :=
  board ← Board_init (Some (BoardCreate_dict board_data));
  let board_dict := prepare_for_mongo (Board_dict board) in
  _ ← call (InsertOne Boards board_dict);
  Ret board.

Definition get_board (board_id : string) : Prog Board :=
  board ← call (FindOne Boards {[ "id" := VStr board_id ]});
  if falsy board then Raise (HTTPException 404 "Board not found") else
  Board_init (parse_from_mongo board).

Definition update_board (board_id : string) (board_update : BoardUpdate)
    : Prog Board :=
  board ← call (FindOne Boards {[ "id" := VStr board_id ]});
  if falsy board then Raise (HTTPException 404 "Board not found") else
  let update_data := without_none (BoardUpdate_dict board_update) in
  now ← call Now;
  let update_data := <[ "updated_at" := VDatetime now ]> update_data in
  let update_data := prepare_for_mongo update_data in
  _ ← call (UpdateOne Boards {[ "id" := VStr board_id ]} update_data);
  updated_board ← call (FindOne Boards {[ "id" := VStr board_id ]});
  Board_init (parse_from_mongo updated_board).

Definition delete_board (board_id : string) : Prog Document :=
  board ← call (FindOne Boards {[ "id" := VStr board_id ]});
  if falsy board then Raise (HTTPException 404 "Board not found") else
  (* Delete all tasks in this board *)
  _ ← call (DeleteMany Tasks {[ "board_id" := VStr board_id ]});
  (* Delete the board *)
  _ ← call (DeleteOne Boards {[ "id" := VStr board_id ]});
  Ret {[ "message" := VStr "Board deleted successfully" ]}.

(** *** Task routes *)

Definition get_board_tasks (board_id : string)
    (priority : option TaskPriority.t) (column : option TaskColumn.t)
    : Prog (list Task) :=
  (* Verify board exists *)
  board ← call (FindOne Boards {[ "id" := VStr board_id ]});
  if falsy board then Raise (HTTPException 404 "Board not found") else
  (* Build filter query *)
  let filter_query : Document := {[ "board_id" := VStr board_id ]} in
  let filter_query :=
    match priority with
    | Some p =>
        if str_truthy (TaskPriority.value p)
        then <[ "priority" := VStr (TaskPriority.value p) ]> filter_query
        else filter_query
    | None => filter_query
    end in
  let filter_query :=
    match column with
    | Some c =>
        if str_truthy (TaskColumn.value c)
        then <[ "column" := VStr (TaskColumn.value c) ]> filter_query
        else filter_query
    | None => filter_query
    end in
  tasks ← call (Find Tasks filter_query);
  for_each (λ task, Task_init (parse_from_mongo (Some task))) tasks.

Definition create_task (board_id : string) (task_data : TaskCreate)
    : Prog Task :=
  (* Verify board exists *)
  board ← call (FindOne Boards {[ "id" := VStr board_id ]});
  if falsy board then Raise (HTTPException 404 "Board not found") else
  task ← Task_init (Some (<[ "board_id" := VStr board_id ]>
                            (TaskCreate_dict task_data)));
  let task_dict := prepare_for_mongo (Task_dict task) in
  _ ← call (InsertOne Tasks task_dict);
  Ret task.

Definition get_task (task_id : string) : Prog Task :=
  task ← call (FindOne Tasks {[ "id" := VStr task_id ]});
  if falsy task then Raise (HTTPException 404 "Task not found") else
  Task_init (parse_from_mongo task).

Definition update_task (task_id : string) (task_update : TaskUpdate)
    : Prog Task :=
  task ← call (FindOne Tasks {[ "id" := VStr task_id ]});
  if falsy task then Raise (HTTPException 404 "Task not found") else
  let update_data := without_none (TaskUpdate_dict task_update) in
  now ← call Now;
  let update_data := <[ "updated_at" := VDatetime now ]> update_data in
  let update_data := prepare_for_mongo update_data in
  _ ← call (UpdateOne Tasks {[ "id" := VStr task_id ]} update_data);
  updated_task ← call (FindOne Tasks {[ "id" := VStr task_id ]});
  Task_init (parse_from_mongo updated_task).

Definition move_task (task_id : string) (move_data : TaskMove) : Prog Task :=
  task ← call (FindOne Tasks {[ "id" := VStr task_id ]});
  if falsy task then Raise (HTTPException 404 "Task not found") else
  now ← call Now;
  let update_data : Document :=
    {[ "column" := VStr (TaskColumn.value (TaskMove_column move_data));
       "updated_at" := VDatetime now ]} in
  let update_data := prepare_for_mongo update_data in
  _ ← call (UpdateOne Tasks {[ "id" := VStr task_id ]} update_data);
  updated_task ← call (FindOne Tasks {[ "id" := VStr task_id ]});
  Task_init (parse_from_mongo updated_task).

Definition delete_task (task_id : string) : Prog Document :=
  task ← call (FindOne Tasks {[ "id" := VStr task_id ]});
  if falsy task then Raise (HTTPException 404 "Task not found") else
  _ ← call (DeleteOne Tasks {[ "id" := VStr task_id ]});
  Ret {[ "message" := VStr "Task deleted successfully" ]}.

(** *** Request bodies

    FastAPI builds the body parameter of a route from the JSON object of
    the request (a dictionary of strings and nulls here) and answers 422
    when the model refuses it; the handler does not run then. *)
Fixpoint request_body {A} (p : Prog A) : Prog A :=
  match p with
  | Ret a => Ret a
  | Raise ValidationError => Raise RequestValidationError
  | Raise e => Raise e
  | Await r k => Await r (λ x, request_body (k x))
  end.

(** [POST /boards] *)
Definition post_boards (json : Document) : Prog Board :=
  board_data ← request_body (BoardCreate_init json);
  create_board board_data.
(** [PUT /boards/{board_id}] *)
Definition put_board (board_id : string) (json : Document) : Prog Board :=
  board_update ← request_body (BoardUpdate_init json);
  update_board board_id board_update.
(** [POST /boards/{board_id}/tasks] *)
Definition post_board_tasks (board_id : string) (json : Document) : Prog Task :=
  task_data ← request_body (TaskCreate_init json);
  create_task board_id task_data.
(** [PUT /tasks/{task_id}] *)
Definition put_task (task_id : string) (json : Document) : Prog Task :=
  task_update ← request_body (TaskUpdate_init json);
  update_task task_id task_update.
(** [PATCH /tasks/{task_id}/move] *)
Definition patch_task_move (task_id : string) (json : Document) : Prog Task :=
  move_data ← request_body (TaskMove_init json);
  move_task task_id move_data.

(** ** Running a handler

    The environment answers the clock and the UUID generator; the world
    holds the database and counts the answers given so far. *)
Record Env := {
  now_at : nat → datetime;
  uuid4_at : nat → string;
}.

Record World := {
  db : Db;
  clock_reads : nat;
  uuids_drawn : nat;
}.

Definition with_db (w : World) (d : Db) : World :=
  {| db := d; clock_reads := clock_reads w; uuids_drawn := uuids_drawn w |}.

Definition write (n : collection_name) (f : Collection → Collection)
    (w : World) : World :=
  with_db w (set_collection n (f (get_collection n (db w))) (db w)).

Definition handle (env : Env) {R} (r : Req R) (w : World) : R * World :=
  match r in Req R return R * World with
  | FindOne n query => (find_one (get_collection n (db w)) query, w)
  | Find n query => (find_all (get_collection n (db w)) query, w)
  | InsertOne n doc => (tt, write n (λ c, insert_one c doc) w)
  | UpdateOne n query fields => (tt, write n (λ c, update_one c query fields) w)
  | DeleteOne n query => (tt, write n (λ c, delete_one c query) w)
  | DeleteMany n query => (tt, write n (λ c, delete_many c query) w)
  | Now =>
      (now_at env (clock_reads w),
       {| db := db w; clock_reads := S (clock_reads w);
          uuids_drawn := uuids_drawn w |})
  | Uuid4 =>
      (uuid4_at env (uuids_drawn w),
       {| db := db w; clock_reads := clock_reads w;
          uuids_drawn := S (uuids_drawn w) |})
  end.

(** How a handler ends. *)
Inductive outcome (A : Type) :=
  | Returned (a : A)
  | Raised (e : exn).
#[global] Arguments Returned {A} a.
#[global] Arguments Raised {A} e.

#[global] Instance outcome_eq_dec `{EqDecision A} : EqDecision (outcome A).
Proof. solve_decision. Defined.

Fixpoint run (env : Env) {A} (p : Prog A) (w : World) : outcome A * World :=
  match p with
  | Ret a => (Returned a, w)
  | Raise e => (Raised e, w)
  | Await r k => let '(x, w') := handle env r w in run env (k x) w'
  end.

(** The world in which a handler is left when it is cut off after [n]
    answered requests (a failure of the process or of the store between
    two awaits). *)
Fixpoint run_prefix (env : Env) {A} (n : nat) (p : Prog A) (w : World) : World :=
  match n, p with
  | S n', Await r k => let '(x, w') := handle env r w in run_prefix env n' (k x) w'
  | _, _ => w
  end.

(** ** Vocabulary of the specification *)

(** A program that does not write to the database leaves it as it is. *)
Inductive no_write {A} : Prog A → Prop :=
  | no_write_ret a : no_write (Ret a)
  | no_write_raise e : no_write (Raise e)
  | no_write_find_one n query k :
      (∀ x, no_write (k x)) → no_write (Await (FindOne n query) k)
  | no_write_find n query k :
      (∀ x, no_write (k x)) → no_write (Await (Find n query) k)
  | no_write_now k : (∀ x, no_write (k x)) → no_write (Await Now k)
  | no_write_uuid4 k : (∀ x, no_write (k x)) → no_write (Await Uuid4 k).

(** The values that the store gives back as they were: datetimes under
    the timestamp keys, strings elsewhere. *)
Definition storable_item (k : string) (v : value) : Prop :=
  match v with
  | VDatetime _ => k ∈ timestamp_keys
  | VStr _ => k ∉ timestamp_keys
  | VNone => True
  end.

(** The document that [create_board] and [create_task] insert for a
    model. *)
Definition board_doc (b : Board) : Document := prepare_for_mongo (Board_dict b).
Definition task_doc (t : Task) : Document := prepare_for_mongo (Task_dict t).

(** The stores that the handlers build: every document of [db.boards] is
    the document of a board and every document of [db.tasks] that of a
    task. *)
Definition stored (w : World) : Prop :=
  Forall (λ doc, ∃ b, doc = board_doc b) (boards (db w))
  ∧ Forall (λ doc, ∃ t, doc = task_doc t) (tasks (db w)).

(** The boards of the store were stamped by the clock: the [updated_at]
    of every board document is the text of one of the readings that the
    clock has given so far. *)
Definition clock_stamped (env : Env) (w : World) : Prop :=
  Forall (λ doc, ∃ i, (i < clock_reads w)%nat
                      ∧ doc !! "updated_at"
                        = Some (VStr (isoformat (now_at env i))))
    (boards (db w)).

(** The clock has not been set back up to its reading [n]. *)
Definition steady_until (env : Env) (n : nat) : Prop :=
  ∀ i j, (i ≤ j)%nat → (j ≤ n)%nat → datetime_le (now_at env i) (now_at env j).

(** A board with this id is stored. *)
Definition board_present (board_id : string) (w : World) : Prop :=
  ∃ doc, doc ∈ boards (db w) ∧ doc !! "id" = Some (VStr board_id).

(** No two documents of the collection share their [id]. *)
Definition unique_ids (c : Collection) : Prop :=
  NoDup ((λ doc, doc !! "id") <$> c).

(** A program that returns or raises at once. *)
Definition immediate {A} (p : Prog A) : Prop :=
  match p with Await _ _ => False | _ => True end.

(** The tasks that a listing of [board_id] with the given filters
    selects: those of the board, with the priority when one is given and
    with the column when one is given. *)
Definition selected (board_id : string) (priority : option TaskPriority.t)
    (column : option TaskColumn.t) (t : Task) : Prop :=
  Task_board_id t = board_id
  ∧ (priority = None ∨ priority = Some (Task_priority t))
  ∧ (column = None ∨ column = Some (Task_column t)).

#[global] Instance selected_dec board_id priority column t :
  Decision (selected board_id priority column t).
Proof. unfold selected. apply _. Defined.

(** The query that [get_board_tasks] builds. *)
Definition filter_query_of (board_id : string) (priority : option TaskPriority.t)
    (column : option TaskColumn.t) : Document :=
  let filter_query : Document := {[ "board_id" := VStr board_id ]} in
  let filter_query :=
    match priority with
    | Some p => <[ "priority" := VStr (TaskPriority.value p) ]> filter_query
    | None => filter_query
    end in
  match column with
  | Some col => <[ "column" := VStr (TaskColumn.value col) ]> filter_query
  | None => filter_query
  end.

(** The task that [update_task] and [move_task] leave for [t]: the fields
    that the update carries replace those of [t], [updated_at] is the
    reading of the clock, the rest of [t] stays. *)
Definition Task_updated (u : TaskUpdate) (now : datetime) (t : Task) : Task :=
  {| Task_id := Task_id t;
     Task_board_id := Task_board_id t;
     Task_title := default (Task_title t) (TaskUpdate_title u);
     Task_description :=
       match TaskUpdate_description u with
       | Some s => Some s
       | None => Task_description t
       end;
     Task_priority := default (Task_priority t) (TaskUpdate_priority u);
     Task_column := default (Task_column t) (TaskUpdate_column u);
     Task_due_date :=
       match TaskUpdate_due_date u with
       | Some d => Some d
       | None => Task_due_date t
       end;
     Task_created_at := Task_created_at t;
     Task_updated_at := now |}.

Definition Board_updated (u : BoardUpdate) (now : datetime) (b : Board) : Board :=
  {| Board_id := Board_id b;
     Board_name := default (Board_name b) (BoardUpdate_name u);
     Board_description :=
       match BoardUpdate_description u with
       | Some s => Some s
       | None => Board_description b
       end;
     Board_created_at := Board_created_at b;
     Board_updated_at := now |}.

Definition Task_moved (col : TaskColumn.t) (now : datetime) (t : Task) : Task :=
  Task_updated {| TaskUpdate_title := None; TaskUpdate_description := None;
                  TaskUpdate_priority := None; TaskUpdate_column := Some col;
                  TaskUpdate_due_date := None |} now t.

(** The [id] and [board_id] of the documents of a collection, in order. *)
Definition identities (c : Collection) : list (option value * option value) :=
  (λ doc, (doc !! "id", doc !! "board_id")) <$> c.

(** The models that [create_board] and [create_task] build: the id is
    drawn from the UUID generator, [created_at] and [updated_at] are two
    readings of the clock. *)
Definition Board_created env w (board_data : BoardCreate) : Board :=
  {| Board_id := uuid4_at env (uuids_drawn w);
     Board_name := BoardCreate_name board_data;
     Board_description := BoardCreate_description board_data;
     Board_created_at := now_at env (clock_reads w);
     Board_updated_at := now_at env (S (clock_reads w)) |}.

Definition Task_created env w (board_id : string) (task_data : TaskCreate) : Task :=
  {| Task_id := uuid4_at env (uuids_drawn w);
     Task_board_id := board_id;
     Task_title := TaskCreate_title task_data;
     Task_description := TaskCreate_description task_data;
     Task_priority := TaskCreate_priority task_data;
     Task_column := TaskColumn.todo;
     Task_due_date := TaskCreate_due_date task_data;
     Task_created_at := now_at env (clock_reads w);
     Task_updated_at := now_at env (S (clock_reads w)) |}.

Definition after_create (w : World) (d : Db) : World :=
  {| db := d; clock_reads := S (S (clock_reads w));
     uuids_drawn := S (uuids_drawn w) |}.

(** What a request body gives for the optional [description] of a new
    board: the default when the field is left out, else the string or
    null that it holds. *)
Definition description_given (json : Document) (description : option string)
    : Prop :=
  (json !! "description" = None ∧ description = Some "")
  ∨ json !! "description" = Some (of_opt_str description).

(** The world between the two deletions of [delete_board]. *)
Definition tasks_deleted (board_id : string) (w : World) : World :=
  write Tasks (λ c, delete_many c {[ "board_id" := VStr board_id ]}) w.

End Kanban.

(** * The reference datetimes meet the interface *)
Module Iso8601_facts.
Import Iso8601.
Local Open Scope N_scope.

Lemma digit_of_digit_char d : d < 10 → digit_of_char (digit_char d) = Some d.
Proof.
  intros Hd.
  assert (d = 0 ∨ d = 1 ∨ d = 2 ∨ d = 3 ∨ d = 4 ∨ d = 5 ∨ d = 6 ∨ d = 7
          ∨ d = 8 ∨ d = 9) as Hcases by lia.
  repeat (destruct Hcases as [-> | Hcases]; [reflexivity |]).
  by subst.
Qed.

Lemma parse_digits_digits w n rest :
  parse_digits w (digits w n ++ rest) = Some (n mod 10 ^ N.of_nat w, rest).
Proof.
  induction w as [| w IH]; simpl digits; simpl parse_digits.
  - by rewrite N.mod_1_r.
  - cbn [String.append]. rewrite digit_of_digit_char by (apply N.mod_lt; lia).
    cbn. rewrite IH. cbn. do 2 f_equal.
    rewrite Nat2N.inj_succ, N.pow_succ_r', (N.mul_comm 10).
    rewrite N.Div0.mod_mul_r. lia.
Qed.

Lemma parse_digits_small w n rest :
  n < 10 ^ N.of_nat w →
  parse_digits w (digits w n ++ rest) = Some (n, rest).
Proof. intros. by rewrite parse_digits_digits, N.mod_small. Qed.

Lemma append_cons c s1 s2 : String c s1 +:+ s2 = String c (s1 +:+ s2).
Proof. reflexivity. Qed.
Lemma append_empty_l s : "" +:+ s = s.
Proof. reflexivity. Qed.
Lemma append_empty_r s : s +:+ "" = s.
Proof. induction s as [| c s IH]; [done |]. by rewrite append_cons, IH. Qed.

Lemma parse_digits_end w n :
  n < 10 ^ N.of_nat w → parse_digits w (digits w n) = Some (n, "").
Proof.
  intros. rewrite <- (append_empty_r (digits w n)). by apply parse_digits_small.
Qed.

Ltac parse_steps :=
  repeat first
    [ rewrite parse_digits_small by done
    | rewrite parse_digits_end by done
    | rewrite append_cons
    | rewrite append_empty_l
    | rewrite decide_True by done
    | progress cbn [mbind option_bind expect] ].

Lemma parse_offset_format o :
  (match o with Some z => -1440 < z < 1440 | None => True end)%Z →
  parse_offset (format_offset o) = Some o.
Proof.
  destruct o as [z|]; [| done]. intros Hz. unfold format_offset, parse_offset.
  assert (Z.to_N (Z.abs z) / 60 < 10 ^ N.of_nat 2).
  { apply N.Div0.div_lt_upper_bound. cbn. lia. }
  assert (Z.to_N (Z.abs z) `mod` 60 < 10 ^ N.of_nat 2).
  { pose proof (N.mod_lt (Z.to_N (Z.abs z)) 60). cbn. lia. }
  pose proof (N.div_mod (Z.to_N (Z.abs z)) 60).
  destruct (Z.ltb_spec z 0); rewrite append_cons, append_empty_l.
  all: repeat case_decide; try done.
  all: parse_steps; do 2 f_equal; lia.
Qed.

Lemma format_offset_not_dot o :
  parse_fraction (format_offset o) = Some (0, format_offset o).
Proof.
  destruct o as [z|]; [| done]. unfold format_offset.
  by destruct (z <? 0)%Z.
Qed.

Lemma valid_bounds f :
  valid f = true →
  year f < 10 ^ N.of_nat 4 ∧ month f < 10 ^ N.of_nat 2 ∧
  day f < 10 ^ N.of_nat 2 ∧ hour f < 10 ^ N.of_nat 2 ∧
  minute f < 10 ^ N.of_nat 2 ∧ second f < 10 ^ N.of_nat 2 ∧
  microsecond f < 10 ^ N.of_nat 6 ∧
  (match utcoffset f with Some z => -1440 < z < 1440 | None => True end)%Z.
Proof.
  unfold valid, days_in_month. intros Hv.
  repeat (apply andb_prop in Hv as [Hv ?]).
  repeat match goal with
         | H : (_ <=? _) = true |- _ => apply N.leb_le in H
         | H : (_ <? _) = true |- _ => apply N.ltb_lt in H
         end.
  assert (day f <= 31).
  { repeat case_match; lia. }
  change (10 ^ N.of_nat 4) with 10000. change (10 ^ N.of_nat 2) with 100.
  change (10 ^ N.of_nat 6) with 1000000.
  repeat split; try lia; destruct (utcoffset f); try done; lia.
Qed.

Lemma parse_format f : valid f = true → parse (format f) = Some f.
Proof.
  intros Hv. destruct (valid_bounds f Hv) as (?&?&?&?&?&?&?&?).
  unfold parse, format.
  parse_steps.
  destruct (N.eqb_spec (microsecond f) 0) as [Hus|Hus].
  - rewrite ?append_empty_l, format_offset_not_dot by done.
    cbn [mbind option_bind]. rewrite parse_offset_format by done.
    cbn. rewrite <- Hus. by destruct f.
  - rewrite ?append_cons, ?append_empty_l. cbn [parse_fraction].
    rewrite parse_digits_small by done.
    cbn [mbind option_bind]. rewrite parse_offset_format by done.
    cbn. by destruct f.
Qed.

Lemma t_eq (d1 d2 : t) : fields_of d1 = fields_of d2 → d1 = d2.
Proof.
  destruct d1 as [f1 H1], d2 as [f2 H2]; simpl. intros ->.
  f_equal. apply proof_irrel.
Qed.

#[global] Instance t_eq_dec : EqDecision t.
Proof.
  intros d1 d2. destruct (decide (fields_of d1 = fields_of d2)) as [H | H].
  - left. by apply t_eq.
  - right. by intros ->.
Defined.

Lemma fromisoformat_isoformat d : fromisoformat (isoformat d) = Some d.
Proof.
  unfold fromisoformat, isoformat. rewrite parse_format by apply valid_fields.
  cbn. unfold of_fields. destruct (decide _) as [H | H].
  - f_equal. by apply t_eq.
  - by destruct H, d.
Qed.

End Iso8601_facts.

(** [Iso8601] as the datetime library of the examples.  It is narrower
    than the libraries it stands for: CPython's [fromisoformat] and
    pydantic's parser also read texts that [isoformat] never emits (a date
    alone, a [Z] suffix, fractions of other lengths), which
    [Iso8601.fromisoformat] refuses.  The theorems are stated over every
    [DatetimeLib]; only the examples run on this one. *)
#[global] Instance Iso8601_lib : DatetimeLib := {|
  datetime := Iso8601.t;
  isoformat := Iso8601.isoformat;
  fromisoformat := Iso8601.fromisoformat;
  parse_datetime := Iso8601.fromisoformat;
  datetime_le := Iso8601.le;
  fromisoformat_isoformat := Iso8601_facts.fromisoformat_isoformat;
|}.

(** ** A store to run the handlers on

    The handlers over the reference datetimes, a clock that ticks one
    second per reading, and a store with two boards and three tasks. *)
Module Example.
Local Open Scope list_scope.

Definition epoch : Iso8601.t :=
  Iso8601.mk
    {| Iso8601.year := 2024; Iso8601.month := 1; Iso8601.day := 1;
       Iso8601.hour := 0; Iso8601.minute := 0; Iso8601.second := 0;
       Iso8601.microsecond := 0; Iso8601.utcoffset := Some 0%Z |} eq_refl.

(** 2024-01-01T00:00:ss+00:00 *)
Definition at_second (s : N) : Iso8601.t :=
  default epoch
    (Iso8601.of_fields
       {| Iso8601.year := 2024; Iso8601.month := 1; Iso8601.day := 1;
          Iso8601.hour := 0; Iso8601.minute := 0;
          Iso8601.second := (s mod 60)%N;
          Iso8601.microsecond := 0; Iso8601.utcoffset := Some 0%Z |}).

Definition env : Env :=
  {| now_at := λ n, at_second (N.of_nat n);
     uuid4_at := λ n, "uuid-" +:+ Iso8601.digits 4 (N.of_nat n) |}.

(** A clock that reads second 50 twice and then, set back by forty
    seconds, second 10. *)
Definition clock_set_back : Env :=
  {| now_at := λ n, if (n <? 2)%nat then at_second 50 else at_second 10;
     uuid4_at := uuid4_at env |}.

Definition empty : World :=
  {| db := {| boards := []; tasks := [] |}; clock_reads := 0; uuids_drawn := 0 |}.

Definition sprint : Board :=
  {| Board_id := "b1"; Board_name := "Sprint 1"; Board_description := Some "";
     Board_created_at := at_second 0; Board_updated_at := at_second 1 |}.
Definition backlog : Board :=
  {| Board_id := "b2"; Board_name := "Backlog"; Board_description := None;
     Board_created_at := at_second 2; Board_updated_at := at_second 3 |}.

Definition fix_bug : Task :=
  {| Task_id := "t1"; Task_board_id := "b1"; Task_title := "Fix bug";
     Task_description := Some ""; Task_priority := TaskPriority.high;
     Task_column := TaskColumn.done; Task_due_date := Some (at_second 30);
     Task_created_at := at_second 4; Task_updated_at := at_second 5 |}.
Definition write_docs : Task :=
  {| Task_id := "t2"; Task_board_id := "b2"; Task_title := "Write docs";
     Task_description := None; Task_priority := TaskPriority.medium;
     Task_column := TaskColumn.todo; Task_due_date := None;
     Task_created_at := at_second 6; Task_updated_at := at_second 7 |}.
Definition review : Task :=
  {| Task_id := "t3"; Task_board_id := "b1"; Task_title := "Review";
     Task_description := Some "code"; Task_priority := TaskPriority.high;
     Task_column := TaskColumn.todo; Task_due_date := None;
     Task_created_at := at_second 8; Task_updated_at := at_second 9 |}.

Definition store : World :=
  {| db := {| boards := [board_doc sprint; board_doc backlog];
              tasks := [task_doc fix_bug; task_doc write_docs; task_doc review] |};
     clock_reads := 10; uuids_drawn := 5 |}.

(** The worlds of the scenario of the specification. *)
Definition created : World :=
  (run env (post_boards {[ "name" := VStr "Sprint 1" ]}) empty).2.
Definition with_task : World :=
  (run env (post_board_tasks "uuid-0000"
              {[ "title" := VStr "Fix bug"; "priority" := VStr "high" ]})
     created).2.
Definition moved : World :=
  (run env (patch_task_move "uuid-0001" {[ "column" := VStr "done" ]})
     with_task).2.
Definition deleted : World := (run env (delete_board "uuid-0000") moved).2.

Definition fix_bug_created : Task :=
  {| Task_id := "uuid-0001"; Task_board_id := "uuid-0000";
     Task_title := "Fix bug"; Task_description := Some "";
     Task_priority := TaskPriority.high; Task_column := TaskColumn.todo;
     Task_due_date := None;
     Task_created_at := at_second 2; Task_updated_at := at_second 3 |}.

End Example.

(** * Verification of the handlers *)

Section Kanban_theory.
Context `{DL : DatetimeLib}.
Local Open Scope list_scope.
Abbreviation Document := (gmap string value).
Abbreviation Collection := (list (gmap string value)).
Implicit Types (doc query fields data : gmap string value).
Implicit Types (c : list (gmap string value)).
Implicit Types (env : Env) (w : World).

(** ** Queries and collections *)

Lemma matches_spec query doc :
  matches query doc = true ↔ ∀ k v, query !! k = Some v → doc !! k = Some v.
Proof. unfold matches. by rewrite bool_decide_eq_true. Qed.

Lemma matches_singleton k v doc :
  matches {[ k := v ]} doc = bool_decide (doc !! k = Some v).
Proof.
  apply bool_decide_ext. unfold map_Forall. split.
  - intros H. apply H. by rewrite lookup_singleton_eq.
  - intros H k' v' [-> ->]%lookup_singleton_Some. done.
Qed.

Lemma matches_insert k v query doc :
  matches (<[ k := v ]> query) doc
  = bool_decide (doc !! k = Some v) && matches (delete k query) doc.
Proof.
  apply eq_true_iff_eq. rewrite andb_true_iff, bool_decide_eq_true, !matches_spec.
  split.
  - intros H. split; [apply H, lookup_insert_eq |].
    intros k' v' [Hne Hk]%lookup_delete_Some. apply H. by rewrite lookup_insert_ne.
  - intros [Hk H] k' v'. rewrite lookup_insert_Some.
    intros [[<- <-] | [Hne Hq]]; [done |]. apply H. by rewrite lookup_delete_ne.
Qed.

Lemma matches_empty doc : matches ∅ doc = true.
Proof. apply matches_spec. intros k v. by rewrite lookup_empty. Qed.

Lemma find_one_Some c query doc :
  find_one c query = Some doc → doc ∈ c ∧ matches query doc = true.
Proof.
  induction c as [| d c IH]; simpl; [done |].
  destruct (matches query d) eqn:Hm.
  - intros [= ->]. split; [left | done].
  - intros [? ?]%IH. split; [by right | done].
Qed.

Lemma find_one_None c query :
  find_one c query = None ↔ ∀ doc, doc ∈ c → matches query doc = false.
Proof.
  induction c as [| d c IH]; simpl.
  - split; [by intros _ doc ?%elem_of_nil | done].
  - destruct (matches query d) eqn:Hm.
    + split; [done |]. intros H. specialize (H d (list_elem_of_here _ _)). congruence.
    + rewrite IH. split.
      * intros H doc [-> | ?]%elem_of_cons; auto.
      * intros H doc ?. apply H. by right.
Qed.

Lemma find_one_split c1 doc c2 query :
  (∀ d, d ∈ c1 → matches query d = false) → matches query doc = true →
  find_one (c1 ++ doc :: c2) query = Some doc.
Proof.
  intros H1 Hm. induction c1 as [| d c1 IH]; simpl.
  - by rewrite Hm.
  - rewrite (H1 d) by left. apply IH. intros d' ?. apply H1. by right.
Qed.

Lemma update_one_split c1 doc c2 query fields :
  (∀ d, d ∈ c1 → matches query d = false) → matches query doc = true →
  update_one (c1 ++ doc :: c2) query fields = c1 ++ (fields ∪ doc) :: c2.
Proof.
  intros H1 Hm. induction c1 as [| d c1 IH]; simpl.
  - by rewrite Hm.
  - rewrite (H1 d) by left. f_equal. apply IH. intros d' ?. apply H1. by right.
Qed.

Lemma elem_of_delete_many c query doc :
  doc ∈ delete_many c query ↔ doc ∈ c ∧ matches query doc = false.
Proof.
  unfold delete_many. rewrite list_elem_of_filter.
  destruct (matches query doc); intuition congruence.
Qed.

(** What [find_one] returned for a one-field query is false exactly when
    it is [None]: a match holds the field. *)
Lemma falsy_find_one c k v :
  falsy (find_one c {[ k := v ]}) = bool_decide (find_one c {[ k := v ]} = None).
Proof.
  destruct (find_one c {[ k := v ]}) as [doc |] eqn:Hf; simpl.
  - apply find_one_Some in Hf as [_ Hm].
    rewrite matches_singleton, bool_decide_eq_true in Hm.
    apply bool_decide_eq_false_2. intros ->. by rewrite lookup_empty in Hm.
  - done.
Qed.

(** ** Running programs *)

Lemma run_bind env {A B} (p : Prog A) (f : A → Prog B) w :
  run env (p ≫= f) w =
  match run env p w with
  | (Returned a, w') => run env (f a) w'
  | (Raised e, w') => (Raised e, w')
  end.
Proof.
  revert w. induction p as [a | e | R r k IH]; intros w; [done | done |].
  change (run env (Await r (λ x, k x ≫= f)) w = match run env (Await r k) w with
    | (Returned a, w') => run env (f a) w' | (Raised e, w') => (Raised e, w') end).
  simpl. destruct (handle env r w) as [x w']. apply IH.
Qed.

Lemma run_call env {R} (r : Req R) w :
  run env (call r) w = (Returned (handle env r w).1, (handle env r w).2).
Proof. unfold call. simpl. by destruct (handle env r w). Qed.

Lemma no_write_db env {A} (p : Prog A) w :
  no_write p → db (run env p w).2 = db w.
Proof.
  intros Hp. revert w.
  induction Hp as [| | ? ? ? ? IH | ? ? ? ? IH | ? ? IH | ? ? IH];
    intros w; simpl; try done; by rewrite IH.
Qed.

Lemma no_write_bind {A B} (p : Prog A) (f : A → Prog B) :
  no_write p → (∀ a, no_write (f a)) → no_write (p ≫= f).
Proof.
  intros Hp Hf.
  unfold mbind, Prog_bind.
  induction Hp; cbn [bind]; [apply Hf | constructor | ..];
    constructor; intros x; auto.
Qed.

Lemma no_write_field {A} kw key (validate : value → option A) default :
  no_write default → no_write (field kw key validate default).
Proof.
  intros. unfold field. repeat case_match; by try constructor.
Qed.

Lemma no_write_call_now : no_write (call Now).
Proof. constructor. intros. constructor. Qed.
Lemma no_write_call_uuid4 : no_write (call Uuid4).
Proof. constructor. intros. constructor. Qed.

Lemma no_write_attempt {A} (p : Prog A) : no_write p → no_write (attempt p).
Proof.
  induction 1 as [a | e | | | |]; cbn [attempt];
    [constructor | destruct e; constructor | constructor; auto ..].
Qed.

Lemma no_write_Board_init o : no_write (Board_init o).
Proof.
  destruct o as [kw |]; [| constructor]. unfold Board_init.
  repeat (apply no_write_bind;
          [apply no_write_attempt, no_write_field | intros ?]);
    try apply no_write_call_now; try apply no_write_call_uuid4;
    try constructor.
  repeat case_match; constructor.
Qed.

Lemma no_write_Task_init o : no_write (Task_init o).
Proof.
  destruct o as [kw |]; [| constructor]. unfold Task_init.
  repeat (apply no_write_bind;
          [apply no_write_attempt, no_write_field | intros ?]);
    try apply no_write_call_now; try apply no_write_call_uuid4;
    try constructor.
  repeat case_match; constructor.
Qed.

(** ** Serialization *)

Lemma lookup_prepare data k :
  prepare_for_mongo data !! k = prepare_value <$> data !! k.
Proof. apply lookup_fmap. Qed.

Lemma lookup_parse_dict item k :
  parse_dict item !! k = parse_item k <$> item !! k.
Proof. unfold parse_dict. rewrite map_lookup_imap. by destruct (item !! k). Qed.

Lemma parse_item_prepare k v :
  storable_item k v → parse_item k (prepare_value v) = v.
Proof.
  destruct v as [| s | d]; simpl; intros Hk; [done | |].
  - by rewrite bool_decide_eq_false_2.
  - by rewrite bool_decide_eq_true_2, fromisoformat_isoformat.
Qed.

Lemma parse_prepare data :
  map_Forall storable_item data → parse_dict (prepare_for_mongo data) = data.
Proof.
  intros Hs. apply map_eq. intros k.
  rewrite lookup_parse_dict, lookup_prepare.
  destruct (data !! k) as [v |] eqn:Hk; [| done]. simpl.
  by rewrite parse_item_prepare by by eapply Hs.
Qed.

Lemma prepare_union data1 data2 :
  prepare_for_mongo data1 ∪ prepare_for_mongo data2
  = prepare_for_mongo (data1 ∪ data2).
Proof. unfold prepare_for_mongo. by rewrite map_fmap_union. Qed.

(** ** Stored boards and tasks *)

Ltac split_items :=
  lazymatch goal with
  | |- map_Forall _ (<[_:=_]> _) => apply map_Forall_insert_2; [| split_items]
  | |- map_Forall _ {[_:=_]} => apply map_Forall_singleton
  end.

Ltac storable_items :=
  split_items;
  try match goal with
      | |- context [of_opt_str ?o] => destruct o
      | |- context [of_opt_datetime ?o] => destruct o
      end;
  cbn [storable_item of_opt_str of_opt_datetime];
  first [ exact I | apply (bool_decide_unpack _); vm_compute; exact I ].

Lemma storable_Board_dict b : map_Forall storable_item (Board_dict b).
Proof. unfold Board_dict. storable_items. Qed.

Lemma storable_Task_dict t : map_Forall storable_item (Task_dict t).
Proof. unfold Task_dict. storable_items. Qed.

Lemma parse_board_doc b :
  parse_from_mongo (Some (board_doc b)) = Some (Board_dict b).
Proof. simpl. f_equal. apply parse_prepare, storable_Board_dict. Qed.

Lemma parse_task_doc t :
  parse_from_mongo (Some (task_doc t)) = Some (Task_dict t).
Proof. simpl. f_equal. apply parse_prepare, storable_Task_dict. Qed.

Lemma TaskPriority_of_value p : TaskPriority.of_value (TaskPriority.value p) = Some p.
Proof. by destruct p. Qed.
Lemma TaskColumn_of_value (col : TaskColumn.t) :
  TaskColumn.of_value (TaskColumn.value col) = Some col.
Proof. by destruct col. Qed.
Lemma TaskPriority_value_inj p q : TaskPriority.value p = TaskPriority.value q → p = q.
Proof. by destruct p, q. Qed.
Lemma TaskColumn_value_inj (col col' : TaskColumn.t) :
  TaskColumn.value col = TaskColumn.value col' → col = col'.
Proof. by destruct col, col'. Qed.

Lemma validate_optional_str_of_opt o : validate_optional_str (of_opt_str o) = Some o.
Proof. by destruct o. Qed.
Lemma validate_optional_datetime_of_opt o :
  validate_optional_datetime (of_opt_datetime o) = Some o.
Proof. by destruct o. Qed.
Lemma validate_priority_value p :
  validate_priority (VStr (TaskPriority.value p)) = Some p.
Proof. apply TaskPriority_of_value. Qed.
Lemma validate_column_value (col : TaskColumn.t) :
  validate_column (VStr (TaskColumn.value col)) = Some col.
Proof. apply TaskColumn_of_value. Qed.

Lemma run_field env {A} kw key (validate : value → option A) default v a w :
  kw !! key = Some v → validate v = Some a →
  run env (field kw key validate default) w = (Returned a, w).
Proof. intros Hk Hv. unfold field. by rewrite Hk, Hv. Qed.

Lemma run_field_default env {A} kw key (validate : value → option A) default w :
  kw !! key = None →
  run env (field kw key validate default) w = run env default w.
Proof. intros Hk. unfold field. by rewrite Hk. Qed.

Lemma run_attempt_field env {A} kw key (validate : value → option A)
    default v a w :
  kw !! key = Some v → validate v = Some a →
  run env (attempt (field kw key validate default)) w = (Returned (Some a), w).
Proof. intros Hk Hv. unfold field. by rewrite Hk, Hv. Qed.

Lemma run_attempt_default env {A} kw key (validate : value → option A)
    default w :
  kw !! key = None →
  run env (attempt (field kw key validate default)) w
  = run env (attempt default) w.
Proof. intros Hk. unfold field. by rewrite Hk. Qed.

Lemma run_attempt_call env {R} (r : Req R) w :
  run env (attempt (call r)) w
  = (Returned (Some (handle env r w).1), (handle env r w).2).
Proof. unfold call. simpl. by destruct (handle env r w). Qed.

Ltac run_fields :=
  repeat (rewrite run_bind;
          erewrite run_attempt_field;
          [ | reflexivity
            | first [ reflexivity
                    | apply validate_optional_str_of_opt
                    | apply validate_optional_datetime_of_opt
                    | apply validate_priority_value
                    | apply validate_column_value ] ]).

Lemma run_Board_init_dict env b w :
  run env (Board_init (Some (Board_dict b))) w = (Returned b, w).
Proof. unfold Board_init. run_fields. by destruct b. Qed.

Lemma run_Task_init_dict env t w :
  run env (Task_init (Some (Task_dict t))) w = (Returned t, w).
Proof. unfold Task_init. run_fields. by destruct t. Qed.

Lemma run_Board_init_doc env b w :
  run env (Board_init (parse_from_mongo (Some (board_doc b)))) w = (Returned b, w).
Proof. rewrite parse_board_doc. apply run_Board_init_dict. Qed.

Lemma run_Task_init_doc env t w :
  run env (Task_init (parse_from_mongo (Some (task_doc t)))) w = (Returned t, w).
Proof. rewrite parse_task_doc. apply run_Task_init_dict. Qed.

Lemma board_doc_id b : board_doc b !! "id" = Some (VStr (Board_id b)).
Proof. unfold board_doc. rewrite lookup_prepare. reflexivity. Qed.
Lemma task_doc_id t : task_doc t !! "id" = Some (VStr (Task_id t)).
Proof. unfold task_doc. rewrite lookup_prepare. reflexivity. Qed.
Lemma task_doc_board_id t :
  task_doc t !! "board_id" = Some (VStr (Task_board_id t)).
Proof. unfold task_doc. rewrite lookup_prepare. reflexivity. Qed.
Lemma task_doc_priority t :
  task_doc t !! "priority" = Some (VStr (TaskPriority.value (Task_priority t))).
Proof. unfold task_doc. rewrite lookup_prepare. reflexivity. Qed.
Lemma task_doc_column t :
  task_doc t !! "column" = Some (VStr (TaskColumn.value (Task_column t))).
Proof. unfold task_doc. rewrite lookup_prepare. reflexivity. Qed.

Lemma matches_id_board_doc x b :
  matches {[ "id" := VStr x ]} (board_doc b) = bool_decide (Board_id b = x).
Proof.
  rewrite matches_singleton, board_doc_id. apply bool_decide_ext. naive_solver.
Qed.
Lemma matches_id_task_doc x t :
  matches {[ "id" := VStr x ]} (task_doc t) = bool_decide (Task_id t = x).
Proof.
  rewrite matches_singleton, task_doc_id. apply bool_decide_ext. naive_solver.
Qed.

(** ** Evaluating a handler step by step *)

Lemma run_find_one env {A} n query (k : option Document → Prog A) w :
  run env (call (FindOne n query) ≫= k) w
  = run env (k (find_one (get_collection n (db w)) query)) w.
Proof. by rewrite run_bind, run_call. Qed.

Lemma run_find env {A} n query (k : Collection → Prog A) w :
  run env (call (Find n query) ≫= k) w
  = run env (k (find_all (get_collection n (db w)) query)) w.
Proof. by rewrite run_bind, run_call. Qed.

Lemma run_insert_one env {A} n doc (k : unit → Prog A) w :
  run env (call (InsertOne n doc) ≫= k) w
  = run env (k tt) (write n (λ c, insert_one c doc) w).
Proof. by rewrite run_bind, run_call. Qed.

Lemma run_update_one env {A} n query fields (k : unit → Prog A) w :
  run env (call (UpdateOne n query fields) ≫= k) w
  = run env (k tt) (write n (λ c, update_one c query fields) w).
Proof. by rewrite run_bind, run_call. Qed.

Lemma run_delete_one env {A} n query (k : unit → Prog A) w :
  run env (call (DeleteOne n query) ≫= k) w
  = run env (k tt) (write n (λ c, delete_one c query) w).
Proof. by rewrite run_bind, run_call. Qed.

Lemma run_delete_many env {A} n query (k : unit → Prog A) w :
  run env (call (DeleteMany n query) ≫= k) w
  = run env (k tt) (write n (λ c, delete_many c query) w).
Proof. by rewrite run_bind, run_call. Qed.

Lemma run_now env {A} (k : datetime → Prog A) w :
  run env (call Now ≫= k) w
  = run env (k (now_at env (clock_reads w)))
      {| db := db w; clock_reads := S (clock_reads w);
         uuids_drawn := uuids_drawn w |}.
Proof. by rewrite run_bind, run_call. Qed.

Lemma run_uuid4 env {A} (k : string → Prog A) w :
  run env (call Uuid4 ≫= k) w
  = run env (k (uuid4_at env (uuids_drawn w)))
      {| db := db w; clock_reads := clock_reads w;
         uuids_drawn := S (uuids_drawn w) |}.
Proof. by rewrite run_bind, run_call. Qed.

(** ** Deleting a board *)

Lemma board_present_find_one board_id w :
  board_present board_id w
  ↔ find_one (boards (db w)) {[ "id" := VStr board_id ]} ≠ None.
Proof.
  rewrite find_one_None. unfold board_present. split.
  - intros (doc & Hin & Hid) H. specialize (H doc Hin).
    by rewrite matches_singleton, bool_decide_eq_false in H.
  - intros H. destruct (find_one (boards (db w)) {[ "id" := VStr board_id ]})
      as [doc |] eqn:Hf.
    + apply find_one_Some in Hf as [? Hm]. exists doc. split; [done |].
      by rewrite matches_singleton, bool_decide_eq_true in Hm.
    + rewrite find_one_None in Hf. by destruct H.
Qed.

Lemma delete_many_filter c k v :
  delete_many c {[ k := v ]} = filter (λ doc, doc !! k ≠ Some v) c.
Proof.
  unfold delete_many. apply list_filter_iff. intros doc.
  by rewrite matches_singleton, bool_decide_eq_true.
Qed.

Lemma filter_all {A} (P : A → Prop) `{!∀ x, Decision (P x)} (l : list A) :
  (∀ x, x ∈ l → P x) → filter P l = l.
Proof.
  induction l as [| x l IH]; [done |]. intros HP.
  rewrite filter_cons_True by (apply HP; left). f_equal. apply IH.
  intros y ?. apply HP. by right.
Qed.

Lemma delete_one_unique c v :
  unique_ids c →
  delete_one c {[ "id" := v ]} = filter (λ doc, doc !! "id" ≠ Some v) c.
Proof.
  unfold unique_ids. induction c as [| d c IH]; [done |].
  rewrite fmap_cons, NoDup_cons. intros [Hd Hc]. simpl.
  rewrite matches_singleton. destruct (decide (d !! "id" = Some v)) as [Hv | Hv].
  - rewrite bool_decide_eq_true_2 by done.
    rewrite filter_cons_False by naive_solver.
    symmetry. apply filter_all. intros d' Hd' Heq.
    apply Hd. rewrite Hv, <- Heq.
    by apply (list_elem_of_fmap_2 (λ doc : Document, doc !! "id")).
  - rewrite bool_decide_eq_false_2 by done.
    rewrite filter_cons_True by done. f_equal. by apply IH.
Qed.

(** C1. For a board id that is stored (ids being unique in the boards
    collection), [delete_board] returns its acknowledgement, removes
    exactly the tasks whose [board_id] is that id and the board itself,
    so that no task with that [board_id] remains and a following
    [get_board] raises 404; for an id that is not stored it raises 404
    and leaves the world as it was. *)
Theorem delete_board_cascade env w board_id :
  (board_present board_id w → unique_ids (boards (db w)) →
   ∃ w',
     run env (delete_board board_id) w
     = (Returned {[ "message" := VStr "Board deleted successfully" ]}, w')
     ∧ tasks (db w')
       = filter (λ doc, doc !! "board_id" ≠ Some (VStr board_id)) (tasks (db w))
     ∧ boards (db w')
       = filter (λ doc, doc !! "id" ≠ Some (VStr board_id)) (boards (db w))
     ∧ (∀ doc, doc ∈ tasks (db w') → doc !! "board_id" ≠ Some (VStr board_id))
     ∧ ¬ board_present board_id w'
     ∧ run env (get_board board_id) w'
       = (Raised (HTTPException 404 "Board not found"), w'))
  ∧ (¬ board_present board_id w →
     run env (delete_board board_id) w
     = (Raised (HTTPException 404 "Board not found"), w)).
Proof.
  unfold delete_board. rewrite run_find_one, falsy_find_one. split.
  - intros Hp%board_present_find_one Hu. cbn [get_collection].
    rewrite bool_decide_eq_false_2 by done.
    rewrite run_delete_many, run_delete_one.
    set (w' := {| db := {| boards := filter (λ doc, doc !! "id" ≠ Some (VStr board_id))
                                       (boards (db w));
                           tasks := filter (λ doc, doc !! "board_id" ≠ Some (VStr board_id))
                                      (tasks (db w)) |};
                  clock_reads := clock_reads w; uuids_drawn := uuids_drawn w |}).
    assert (write Boards (λ c, delete_one c {[ "id" := VStr board_id ]})
              (write Tasks (λ c, delete_many c {[ "board_id" := VStr board_id ]}) w)
            = w') as ->.
    { unfold write, with_db.
      cbn [get_collection set_collection db boards tasks clock_reads uuids_drawn].
      by rewrite delete_many_filter, delete_one_unique. }
    assert (¬ board_present board_id w') as Hgone.
    { intros (doc & Hin & Hid). cbn in Hin.
      by apply list_elem_of_filter in Hin as [? _]. }
    exists w'. split_and!; try done.
    + by intros doc [? _]%list_elem_of_filter.
    + unfold get_board. rewrite run_find_one, falsy_find_one.
      rewrite bool_decide_eq_true_2; [done |].
      destruct (find_one (get_collection Boards (db w')) _) eqn:Hf; [| done].
      destruct Hgone. apply board_present_find_one. cbn [get_collection] in Hf.
      congruence.
  - intros Hp. cbn [get_collection]. rewrite bool_decide_eq_true_2; [done |].
    destruct (find_one _ _) eqn:Hf; [| done].
    destruct Hp. apply board_present_find_one. congruence.
Qed.

(** ** Request bodies are validated without effect *)

Lemma immediate_bind {A B} (p : Prog A) (f : A → Prog B) :
  immediate p → (∀ a, immediate (f a)) → immediate (p ≫= f).
Proof. destruct p; [intros _ Hf; apply Hf | done | done]. Qed.

Lemma immediate_field {A} kw key (validate : value → option A) default :
  immediate default → immediate (field kw key validate default).
Proof. intros. unfold field. by repeat case_match. Qed.

Lemma immediate_request_body {A} (p : Prog A) :
  immediate p → immediate (request_body p).
Proof. destruct p as [| [] |]; done. Qed.

Ltac immediate_fields :=
  repeat (apply immediate_bind; [apply immediate_field; exact I | intros ?]);
  exact I.

Lemma immediate_BoardCreate_init kw : immediate (BoardCreate_init kw).
Proof. unfold BoardCreate_init. immediate_fields. Qed.
Lemma immediate_BoardUpdate_init kw : immediate (BoardUpdate_init kw).
Proof. unfold BoardUpdate_init. immediate_fields. Qed.
Lemma immediate_TaskCreate_init kw : immediate (TaskCreate_init kw).
Proof. unfold TaskCreate_init. immediate_fields. Qed.
Lemma immediate_TaskUpdate_init kw : immediate (TaskUpdate_init kw).
Proof. unfold TaskUpdate_init. immediate_fields. Qed.
Lemma immediate_TaskMove_init kw : immediate (TaskMove_init kw).
Proof. unfold TaskMove_init. immediate_fields. Qed.

(** A route with a body either answers 422 or runs its handler on the
    validated model, in the same world. *)
Lemma run_with_body env {A B} (init : Prog A) (handler : A → Prog B) w :
  immediate init →
  (run env (request_body init ≫= handler) w = (Raised RequestValidationError, w)
   ∧ init = Raise ValidationError)
  ∨ (∃ e, run env (request_body init ≫= handler) w = (Raised e, w)
          ∧ init = Raise e ∧ e ≠ ValidationError)
  ∨ (∃ a, run env (request_body init ≫= handler) w = run env (handler a) w
          ∧ init = Ret a).
Proof.
  destruct init as [a | e |]; [| | done]; intros _.
  - right. right. by exists a.
  - destruct (decide (e = ValidationError)) as [-> | He]; [by left |].
    right. left. exists e. by destruct e.
Qed.

(** ** Creating a task *)

(** C3. Under a [board_id] that names no stored board, [create_task]
    raises 404 and leaves the world, so the tasks collection, as it was;
    the route [POST /boards/{board_id}/tasks] raises (404, or 422 on a
    body that fails validation) and stores nothing, whatever the body. *)
Theorem create_task_board_absent env w board_id :
  ¬ board_present board_id w →
  (∀ task_data,
     run env (create_task board_id task_data) w
     = (Raised (HTTPException 404 "Board not found"), w))
  ∧ (∀ json, ∃ e, run env (post_board_tasks board_id json) w = (Raised e, w)).
Proof.
  intros Hp.
  assert (∀ task_data, run env (create_task board_id task_data) w
                       = (Raised (HTTPException 404 "Board not found"), w)) as Hc.
  { intros task_data. unfold create_task.
    rewrite run_find_one, falsy_find_one. cbn [get_collection].
    rewrite bool_decide_eq_true_2; [done |].
    destruct (find_one _ _) eqn:Hf; [| done].
    destruct Hp. apply board_present_find_one. congruence. }
  split; [done |]. intros json. unfold post_board_tasks.
  destruct (run_with_body env (TaskCreate_init json)
              (λ task_data, create_task board_id task_data) w
              (immediate_TaskCreate_init json))
    as [[-> _] | [(e & -> & _) | (a & -> & _)]]; eauto.
Qed.

(** ** Listing the tasks of a board *)

Lemma matches_insert_fresh k v query doc :
  query !! k = None →
  matches (<[ k := v ]> query) doc
  = bool_decide (doc !! k = Some v) && matches query doc.
Proof. intros Hk. by rewrite matches_insert, delete_id. Qed.

Lemma matches_filter_query board_id priority column t :
  matches (filter_query_of board_id priority column) (task_doc t) = true
  ↔ selected board_id priority column t.
Proof.
  unfold filter_query_of, selected.
  destruct priority as [p |], column as [col |];
    rewrite ?matches_insert_fresh by reflexivity;
    rewrite matches_singleton, ?andb_true_iff, !bool_decide_eq_true;
    rewrite ?task_doc_board_id, ?task_doc_priority, ?task_doc_column.
  - split.
    + intros ([= ->%TaskColumn_value_inj] & [= ->%TaskPriority_value_inj] & [= ->]).
      auto.
    + intros (-> & [[=] | [= ->]] & [[=] | [= ->]]). auto.
  - split.
    + intros ([= ->%TaskPriority_value_inj] & [= ->]). auto.
    + intros (-> & [[=] | [= ->]] & _). auto.
  - split.
    + intros ([= ->%TaskColumn_value_inj] & [= ->]). auto.
    + intros (-> & _ & [[=] | [= ->]]). auto.
  - split.
    + intros [= ->]. auto.
    + intros (-> & _). auto.
Qed.

Lemma find_all_task_docs ts board_id priority column :
  find_all (task_doc <$> ts) (filter_query_of board_id priority column)
  = task_doc <$> filter (selected board_id priority column) ts.
Proof.
  unfold find_all. induction ts as [| t ts IH]; [done |].
  rewrite fmap_cons.
  destruct (decide (selected board_id priority column t)) as [Hs | Hs].
  - rewrite !filter_cons_True by (done || by apply matches_filter_query).
    by rewrite fmap_cons, IH.
  - rewrite !filter_cons_False by (done || by rewrite matches_filter_query).
    done.
Qed.

Lemma run_read_tasks env ts w :
  run env (for_each (λ task, Task_init (parse_from_mongo (Some task)))
             (task_doc <$> ts)) w
  = (Returned ts, w).
Proof.
  induction ts as [| t ts IH]; [done |].
  rewrite fmap_cons. cbn [for_each].
  rewrite run_bind, run_Task_init_doc, run_bind, IH. done.
Qed.

Lemma run_get_boards env w bs :
  boards (db w) = board_doc <$> bs → run env get_boards w = (Returned bs, w).
Proof.
  intros Hbs. unfold get_boards. rewrite run_find. cbn [get_collection].
  unfold find_all. rewrite filter_all by (intros; apply matches_empty).
  rewrite Hbs. clear Hbs. induction bs as [| b bs IH]; [done |].
  rewrite fmap_cons. cbn [for_each].
  by rewrite run_bind, run_Board_init_doc, run_bind, IH.
Qed.

Lemma run_get_board_tasks env w board_id priority column ts :
  board_present board_id w → tasks (db w) = task_doc <$> ts →
  run env (get_board_tasks board_id priority column) w
  = (Returned (filter (selected board_id priority column) ts), w).
Proof.
  intros Hp%board_present_find_one Hts. unfold get_board_tasks.
  rewrite run_find_one, falsy_find_one. cbn [get_collection].
  rewrite bool_decide_eq_false_2 by done.
  replace (match column with
           | Some c0 => if str_truthy (TaskColumn.value c0) then _ else _
           | None => _
           end) with (filter_query_of board_id priority column).
  2:{ unfold filter_query_of. by destruct priority as [[] |], column as [[] |]. }
  rewrite run_find. cbn [get_collection]. rewrite Hts, find_all_task_docs.
  apply run_read_tasks.
Qed.

(** C2. On a store of tasks [ts] and for a stored board, [get_board_tasks]
    returns exactly the tasks of [ts] that belong to the board and have
    the priority and the column that were supplied (equality on each);
    with both filters a task is returned exactly when each filter alone
    returns it; for a board that is not stored it raises 404. *)
Theorem get_board_tasks_filters env w board_id :
  (∀ ts priority column,
     board_present board_id w → tasks (db w) = task_doc <$> ts →
     ∃ result,
       run env (get_board_tasks board_id priority column) w
       = (Returned result, w)
       ∧ result = filter (selected board_id priority column) ts
       ∧ ∀ t, t ∈ result ↔
              t ∈ ts ∧ Task_board_id t = board_id
              ∧ (∀ p, priority = Some p → Task_priority t = p)
              ∧ (∀ col, column = Some col → Task_column t = col))
  ∧ (∀ ts p col,
       board_present board_id w → tasks (db w) = task_doc <$> ts →
       ∃ both by_priority by_column,
         run env (get_board_tasks board_id (Some p) (Some col)) w
         = (Returned both, w)
         ∧ run env (get_board_tasks board_id (Some p) None) w
           = (Returned by_priority, w)
         ∧ run env (get_board_tasks board_id None (Some col)) w
           = (Returned by_column, w)
         ∧ ∀ t, t ∈ both ↔ t ∈ by_priority ∧ t ∈ by_column)
  ∧ (∀ priority column,
       ¬ board_present board_id w →
       run env (get_board_tasks board_id priority column) w
       = (Raised (HTTPException 404 "Board not found"), w)).
Proof.
  split_and!.
  - intros ts priority column Hp Hts. eexists. split_and!;
      [by apply run_get_board_tasks | done |].
    intros t. rewrite list_elem_of_filter. unfold selected. split.
    + intros [(Hb & Hpr & Hcol) Hin]. split_and!; [done | done | |].
      * intros p ->. by destruct Hpr as [[=] | [=]].
      * intros col ->. by destruct Hcol as [[=] | [=]].
    + intros (Hin & Hb & Hpr & Hcol). split_and!; [done | | | done].
      * destruct priority as [p |]; [right | by left]. by rewrite (Hpr p).
      * destruct column as [col |]; [right | by left]. by rewrite (Hcol col).
  - intros ts p col Hp Hts. do 3 eexists. split_and!;
      [by apply run_get_board_tasks .. |].
    intros t. rewrite !list_elem_of_filter. unfold selected. tauto.
  - intros priority column Hp. unfold get_board_tasks.
    rewrite run_find_one, falsy_find_one. cbn [get_collection].
    rewrite bool_decide_eq_true_2; [done |].
    destruct (find_one _ _) eqn:Hf; [| done].
    destruct Hp. apply board_present_find_one. congruence.
Qed.

(** ** Partial updates *)

Lemma set_board_update u now b :
  prepare_for_mongo (<[ "updated_at" := VDatetime now ]>
                       (without_none (BoardUpdate_dict u)))
  ∪ board_doc b
  = board_doc (Board_updated u now b).
Proof.
  unfold board_doc. rewrite prepare_union. f_equal.
  destruct u as [[name |] [description |]]; exact eq_refl.
Qed.

Lemma set_task_update u now t :
  prepare_for_mongo (<[ "updated_at" := VDatetime now ]>
                       (without_none (TaskUpdate_dict u)))
  ∪ task_doc t
  = task_doc (Task_updated u now t).
Proof.
  unfold task_doc. rewrite prepare_union. f_equal.
  destruct u as [[title |] [description |] [priority |] [column |] [due_date |]];
    exact eq_refl.
Qed.

Lemma set_task_move col now t :
  prepare_for_mongo {[ "column" := VStr (TaskColumn.value col);
                       "updated_at" := VDatetime now ]}
  ∪ task_doc t
  = task_doc (Task_moved col now t).
Proof.
  unfold task_doc. rewrite prepare_union. by f_equal.
Qed.

(** ** Updating a stored task or board *)

Implicit Types (ts : list Task) (bs : list Board).

Lemma no_task_matches ts task_id :
  (∀ t, t ∈ ts → Task_id t ≠ task_id) →
  ∀ d, d ∈ task_doc <$> ts → matches {[ "id" := VStr task_id ]} d = false.
Proof.
  intros Hts d (t & -> & Ht)%list_elem_of_fmap.
  rewrite matches_id_task_doc. apply bool_decide_eq_false_2. by apply Hts.
Qed.

Lemma no_board_matches bs board_id :
  (∀ b, b ∈ bs → Board_id b ≠ board_id) →
  ∀ d, d ∈ board_doc <$> bs → matches {[ "id" := VStr board_id ]} d = false.
Proof.
  intros Hbs d (b & -> & Hb)%list_elem_of_fmap.
  rewrite matches_id_board_doc. apply bool_decide_eq_false_2. by apply Hbs.
Qed.

Lemma find_one_task ts1 t ts2 :
  (∀ t0, t0 ∈ ts1 → Task_id t0 ≠ Task_id t) →
  find_one (task_doc <$> (ts1 ++ t :: ts2)) {[ "id" := VStr (Task_id t) ]}
  = Some (task_doc t).
Proof.
  intros H1. rewrite fmap_app, fmap_cons. apply find_one_split.
  - by apply no_task_matches.
  - rewrite matches_id_task_doc. by apply bool_decide_eq_true_2.
Qed.

Lemma find_one_board bs1 b bs2 :
  (∀ b0, b0 ∈ bs1 → Board_id b0 ≠ Board_id b) →
  find_one (board_doc <$> (bs1 ++ b :: bs2)) {[ "id" := VStr (Board_id b) ]}
  = Some (board_doc b).
Proof.
  intros H1. rewrite fmap_app, fmap_cons. apply find_one_split.
  - by apply no_board_matches.
  - rewrite matches_id_board_doc. by apply bool_decide_eq_true_2.
Qed.

Lemma find_one_no_task ts task_id :
  (∀ t, t ∈ ts → Task_id t ≠ task_id) →
  find_one (task_doc <$> ts) {[ "id" := VStr task_id ]} = None.
Proof. intros. by apply find_one_None, no_task_matches. Qed.

Lemma find_one_no_board bs board_id :
  (∀ b, b ∈ bs → Board_id b ≠ board_id) →
  find_one (board_doc <$> bs) {[ "id" := VStr board_id ]} = None.
Proof. intros. by apply find_one_None, no_board_matches. Qed.

(** The first element of a list that satisfies a decidable property. *)
Lemma first_split {A} (P : A → Prop) `{!∀ x, Decision (P x)} (l : list A) x :
  x ∈ l → P x →
  ∃ l1 y l2, l = l1 ++ y :: l2 ∧ P y ∧ ∀ z, z ∈ l1 → ¬ P z.
Proof.
  induction l as [| a l IH]; [by intros ?%elem_of_nil |].
  intros Hin HP. destruct (decide (P a)) as [Ha | Ha].
  - exists [], a, l. split_and!; [done | done |]. by intros z ?%elem_of_nil.
  - apply elem_of_cons in Hin as [-> | Hin]; [done |].
    destruct (IH Hin HP) as (l1 & y & l2 & -> & Hy & Hl1).
    exists (a :: l1), y, l2. split_and!; [done | done |].
    intros z [-> | ?]%elem_of_cons; auto.
Qed.

(** The end of [update_task] and [move_task]: the update of the first
    task with the id, and its reading back. *)
Lemma run_set_task env w ts1 t ts2 fields t' :
  tasks (db w) = task_doc <$> (ts1 ++ t :: ts2) →
  (∀ t0, t0 ∈ ts1 → Task_id t0 ≠ Task_id t) →
  fields ∪ task_doc t = task_doc t' → Task_id t' = Task_id t →
  run env
    (_ ← call (UpdateOne Tasks {[ "id" := VStr (Task_id t) ]} fields);
     updated_task ← call (FindOne Tasks {[ "id" := VStr (Task_id t) ]});
     Task_init (parse_from_mongo updated_task)) w
  = (Returned t',
     with_db w {| boards := boards (db w);
                  tasks := task_doc <$> (ts1 ++ t' :: ts2) |}).
Proof.
  intros Hts H1 Hset Hid. rewrite run_update_one.
  assert (write Tasks (λ c, update_one c {[ "id" := VStr (Task_id t) ]} fields) w
          = with_db w {| boards := boards (db w);
                         tasks := task_doc <$> (ts1 ++ t' :: ts2) |}) as ->.
  { unfold write. cbn [get_collection set_collection]. rewrite Hts.
    rewrite !fmap_app, !fmap_cons, update_one_split, Hset; [done | |].
    - by apply no_task_matches.
    - rewrite matches_id_task_doc. by apply bool_decide_eq_true_2. }
  rewrite run_find_one. cbn [with_db db get_collection tasks].
  rewrite <- Hid at 1. rewrite find_one_task by (by rewrite Hid).
  apply run_Task_init_doc.
Qed.

Lemma run_set_board env w bs1 b bs2 fields b' :
  boards (db w) = board_doc <$> (bs1 ++ b :: bs2) →
  (∀ b0, b0 ∈ bs1 → Board_id b0 ≠ Board_id b) →
  fields ∪ board_doc b = board_doc b' → Board_id b' = Board_id b →
  run env
    (_ ← call (UpdateOne Boards {[ "id" := VStr (Board_id b) ]} fields);
     updated_board ← call (FindOne Boards {[ "id" := VStr (Board_id b) ]});
     Board_init (parse_from_mongo updated_board)) w
  = (Returned b',
     with_db w {| boards := board_doc <$> (bs1 ++ b' :: bs2);
                  tasks := tasks (db w) |}).
Proof.
  intros Hbs H1 Hset Hid. rewrite run_update_one.
  assert (write Boards (λ c, update_one c {[ "id" := VStr (Board_id b) ]} fields) w
          = with_db w {| boards := board_doc <$> (bs1 ++ b' :: bs2);
                         tasks := tasks (db w) |}) as ->.
  { unfold write. cbn [get_collection set_collection]. rewrite Hbs.
    rewrite !fmap_app, !fmap_cons, update_one_split, Hset; [done | |].
    - by apply no_board_matches.
    - rewrite matches_id_board_doc. by apply bool_decide_eq_true_2. }
  rewrite run_find_one. cbn [with_db db get_collection boards].
  rewrite <- Hid at 1. rewrite find_one_board by (by rewrite Hid).
  apply run_Board_init_doc.
Qed.

Lemma run_move_task env w ts1 t ts2 col :
  tasks (db w) = task_doc <$> (ts1 ++ t :: ts2) →
  (∀ t0, t0 ∈ ts1 → Task_id t0 ≠ Task_id t) →
  run env (move_task (Task_id t) {| TaskMove_column := col |}) w
  = (Returned (Task_moved col (now_at env (clock_reads w)) t),
     {| db := {| boards := boards (db w);
                 tasks := task_doc <$>
                   (ts1 ++ Task_moved col (now_at env (clock_reads w)) t :: ts2) |};
        clock_reads := S (clock_reads w);
        uuids_drawn := uuids_drawn w |}).
Proof.
  intros Hts H1. unfold move_task.
  rewrite run_find_one, falsy_find_one. cbn [get_collection].
  rewrite Hts, find_one_task by done.
  rewrite bool_decide_eq_false_2 by done. rewrite run_now.
  cbn [TaskMove_column].
  erewrite run_set_task; [done | by cbn | done | apply set_task_move | done].
Qed.

Lemma run_get_task env w ts1 t ts2 :
  tasks (db w) = task_doc <$> (ts1 ++ t :: ts2) →
  (∀ t0, t0 ∈ ts1 → Task_id t0 ≠ Task_id t) →
  run env (get_task (Task_id t)) w = (Returned t, w).
Proof.
  intros Hts H1. unfold get_task.
  rewrite run_find_one, falsy_find_one. cbn [get_collection].
  rewrite Hts, find_one_task by done.
  rewrite bool_decide_eq_false_2 by done. apply run_Task_init_doc.
Qed.

Lemma run_task_not_found env w ts task_id {A} (k : option Document → Prog A) :
  tasks (db w) = task_doc <$> ts →
  (∀ t, t ∈ ts → Task_id t ≠ task_id) →
  run env (task ← call (FindOne Tasks {[ "id" := VStr task_id ]});
           if falsy task then Raise (HTTPException 404 "Task not found")
           else k task) w
  = (Raised (HTTPException 404 "Task not found"), w).
Proof.
  intros Hts Hno. rewrite run_find_one, falsy_find_one. cbn [get_collection].
  by rewrite Hts, find_one_no_task.
Qed.

(** C5. For a stored task (the first with the id in the collection) and
    any target column, whatever the task's current column, [move_task]
    returns the task with its column set to the target and [updated_at]
    set to the reading of the clock, every other field kept; the stored
    document is updated accordingly and a following [get_task] returns
    the same task.  On a collection of stored tasks it raises 404 exactly
    when no task has the id. *)
Theorem move_task_any_column env w task_id col :
  (∀ ts1 t ts2,
     tasks (db w) = task_doc <$> (ts1 ++ t :: ts2) →
     Task_id t = task_id → (∀ t0, t0 ∈ ts1 → Task_id t0 ≠ task_id) →
     ∃ t' w',
       run env (move_task task_id {| TaskMove_column := col |}) w
       = (Returned t', w')
       ∧ t' = Task_moved col (now_at env (clock_reads w)) t
       ∧ Task_column t' = col
       ∧ Task_updated_at t' = now_at env (clock_reads w)
       ∧ tasks (db w') = task_doc <$> (ts1 ++ t' :: ts2)
       ∧ boards (db w') = boards (db w)
       ∧ run env (get_task task_id) w' = (Returned t', w'))
  ∧ (∀ ts,
       tasks (db w) = task_doc <$> ts →
       run env (move_task task_id {| TaskMove_column := col |}) w
       = (Raised (HTTPException 404 "Task not found"), w)
       ↔ ∀ t, t ∈ ts → Task_id t ≠ task_id).
Proof.
  split.
  - intros ts1 t ts2 Hts <- H1. do 2 eexists.
    split; [by apply run_move_task |]. split_and!; try done.
    by apply (run_get_task _ _ ts1 (Task_moved _ _ t) ts2).
  - intros ts Hts. split.
    + intros Hrun t Hin Hid.
      destruct (first_split (λ t, Task_id t = task_id) ts t Hin Hid)
        as (ts1 & t1 & ts2 & -> & <- & H1).
      by rewrite (run_move_task _ _ ts1 t1 ts2) in Hrun.
    + intros Hno. unfold move_task. by eapply run_task_not_found.
Qed.

Lemma run_update_board env w bs1 b bs2 board_update :
  boards (db w) = board_doc <$> (bs1 ++ b :: bs2) →
  (∀ b0, b0 ∈ bs1 → Board_id b0 ≠ Board_id b) →
  run env (update_board (Board_id b) board_update) w
  = (Returned (Board_updated board_update (now_at env (clock_reads w)) b),
     {| db := {| boards := board_doc <$>
                   (bs1 ++ Board_updated board_update
                             (now_at env (clock_reads w)) b :: bs2);
                 tasks := tasks (db w) |};
        clock_reads := S (clock_reads w);
        uuids_drawn := uuids_drawn w |}).
Proof.
  intros Hbs H1. unfold update_board.
  rewrite run_find_one, falsy_find_one. cbn [get_collection].
  rewrite Hbs, find_one_board by done.
  rewrite bool_decide_eq_false_2 by done. rewrite run_now.
  erewrite run_set_board; [done | by cbn | done | apply set_board_update | done].
Qed.

Lemma Forall_update_one (P : Document → Prop) c query fields :
  Forall P c → (∀ doc, P doc → P (fields ∪ doc)) →
  Forall P (update_one c query fields).
Proof.
  intros Hc HP. induction Hc as [| doc c Hdoc Hc IH]; [done |]. simpl.
  destruct (matches query doc); constructor; auto.
Qed.

Lemma db_run_read_board env w board_id :
  db (run env (updated_board ← call (FindOne Boards {[ "id" := VStr board_id ]});
               Board_init (parse_from_mongo updated_board)) w).2
  = db w.
Proof.
  apply no_write_db. apply no_write_bind.
  - constructor. intros. constructor.
  - intros. apply no_write_Board_init.
Qed.

(** ** The clock in [updated_at] *)

Lemma board_doc_updated_at b :
  board_doc b !! "updated_at" = Some (VStr (isoformat (Board_updated_at b))).
Proof. unfold board_doc. rewrite lookup_prepare. reflexivity. Qed.

Lemma isoformat_inj d1 d2 : isoformat d1 = isoformat d2 → d1 = d2.
Proof.
  intros Heq. apply (f_equal fromisoformat) in Heq.
  rewrite !fromisoformat_isoformat in Heq. by injection Heq.
Qed.

(** No request sets the counters back. *)
Lemma clock_reads_run env {A} (p : Prog A) w :
  (clock_reads w ≤ clock_reads (run env p w).2)%nat.
Proof.
  revert w. induction p as [a | e | R r k IH]; intros w; [done | done |].
  simpl. destruct r; simpl; (etrans; [| apply IH]); simpl; lia.
Qed.

Lemma clock_stamped_later env w w' :
  boards (db w') = boards (db w) → (clock_reads w ≤ clock_reads w')%nat →
  clock_stamped env w → clock_stamped env w'.
Proof.
  unfold clock_stamped. intros -> Hle Hst.
  eapply Forall_impl; [exact Hst |].
  intros doc (i & Hi & Hdoc). exists i. split; [lia | done].
Qed.

Lemma clock_stamped_after env {A} (p : Prog A) w w1 :
  boards (db (run env p w1).2) = boards (db w) →
  (clock_reads w ≤ clock_reads w1)%nat →
  clock_stamped env w → clock_stamped env (run env p w1).2.
Proof.
  intros Hdb Hle. apply clock_stamped_later; [done |].
  etrans; [exact Hle | apply clock_reads_run].
Qed.

Lemma clock_stamped_update_board env w board_id board_update :
  clock_stamped env w →
  clock_stamped env (run env (update_board board_id board_update) w).2.
Proof.
  intros Hst. unfold update_board. rewrite run_find_one.
  destruct (falsy _); [done |]. rewrite run_now, run_update_one.
  eapply clock_stamped_later;
    [by rewrite db_run_read_board | apply clock_reads_run |].
  unfold clock_stamped, write.
  cbn [with_db db get_collection set_collection boards clock_reads].
  apply Forall_update_one.
  - eapply Forall_impl; [exact Hst |].
    intros doc (i & Hi & Hdoc). exists i. split; [lia | done].
  - intros doc _. exists (clock_reads w). split; [lia |].
    apply lookup_union_Some_l.
    by rewrite lookup_prepare, lookup_insert_eq.
Qed.

(** C6, as the code has it.  For a stored board (the first with the id),
    [update_board] returns and stores the board in which the fields that
    the update carries are replaced and the others are those of the
    stored board: a field that is not supplied keeps its value, so an
    update with a description only keeps the name; [id] and [created_at]
    stay; the other boards and the tasks are untouched.  [updated_at]
    becomes the reading of the clock taken by the update, whatever the
    stored [updated_at] was: the handler compares nothing.  It is at or
    after the previous [updated_at] when the boards were stamped by the
    clock, as the handlers leave them, and the clock has not been set
    back up to that reading; the store is then stamped again. *)
Theorem update_board_partial env w board_id board_update bs1 b bs2 :
  boards (db w) = board_doc <$> (bs1 ++ b :: bs2) →
  Board_id b = board_id → (∀ b0, b0 ∈ bs1 → Board_id b0 ≠ board_id) →
  ∃ b' w',
    run env (update_board board_id board_update) w = (Returned b', w')
    ∧ boards (db w') = board_doc <$> (bs1 ++ b' :: bs2)
    ∧ tasks (db w') = tasks (db w)
    ∧ Board_id b' = Board_id b
    ∧ Board_created_at b' = Board_created_at b
    ∧ (∀ name, BoardUpdate_name board_update = Some name → Board_name b' = name)
    ∧ (BoardUpdate_name board_update = None → Board_name b' = Board_name b)
    ∧ (∀ description,
         BoardUpdate_description board_update = Some description →
         Board_description b' = Some description)
    ∧ (BoardUpdate_description board_update = None →
       Board_description b' = Board_description b)
    ∧ Board_updated_at b' = now_at env (clock_reads w)
    ∧ clock_reads w' = S (clock_reads w)
    ∧ (clock_stamped env w → clock_stamped env w')
    ∧ (clock_stamped env w → steady_until env (clock_reads w) →
       datetime_le (Board_updated_at b) (Board_updated_at b')).
Proof.
  intros Hbs <- H1.
  pose proof (run_update_board env w bs1 b bs2 board_update Hbs H1) as Hrun.
  do 2 eexists. split; [exact Hrun |].
  cbn [db boards tasks clock_reads Board_updated Board_id Board_created_at
       Board_name Board_description Board_updated_at].
  split_and!; try done.
  - by intros name ->.
  - by intros ->.
  - by intros description ->.
  - by intros ->.
  - intros Hst.
    pose proof (clock_stamped_update_board env w (Board_id b) board_update Hst)
      as Hupdate.
    by rewrite Hrun in Hupdate.
  - intros Hst Hsteady. unfold clock_stamped in Hst.
    rewrite Hbs, Forall_forall in Hst.
    destruct (Hst (board_doc b)) as (i & Hi & Hdoc).
    { apply list_elem_of_fmap_2, elem_of_app. right. left. }
    rewrite board_doc_updated_at in Hdoc.
    injection Hdoc as Hdoc. apply isoformat_inj in Hdoc. rewrite Hdoc.
    apply Hsteady; lia.
Qed.

Lemma run_update_task env w ts1 t ts2 task_update :
  tasks (db w) = task_doc <$> (ts1 ++ t :: ts2) →
  (∀ t0, t0 ∈ ts1 → Task_id t0 ≠ Task_id t) →
  run env (update_task (Task_id t) task_update) w
  = (Returned (Task_updated task_update (now_at env (clock_reads w)) t),
     {| db := {| boards := boards (db w);
                 tasks := task_doc <$>
                   (ts1 ++ Task_updated task_update
                             (now_at env (clock_reads w)) t :: ts2) |};
        clock_reads := S (clock_reads w);
        uuids_drawn := uuids_drawn w |}).
Proof.
  intros Hts H1. unfold update_task.
  rewrite run_find_one, falsy_find_one. cbn [get_collection].
  rewrite Hts, find_one_task by done.
  rewrite bool_decide_eq_false_2 by done. rewrite run_now.
  erewrite run_set_task; [done | by cbn | done | apply set_task_update | done].
Qed.

(** ** What an update of a task cannot touch *)

Lemma identities_update_one c query fields :
  fields !! "id" = None → fields !! "board_id" = None →
  identities (update_one c query fields) = identities c.
Proof.
  intros Hid Hb. unfold identities.
  induction c as [| d c IH]; [done |]. simpl.
  destruct (matches query d); rewrite !fmap_cons; [| by rewrite IH].
  by rewrite !lookup_union_r.
Qed.

Lemma lookup_update_data_None (d : Document) now k :
  d !! k = None → k ≠ "updated_at" →
  prepare_for_mongo (<[ "updated_at" := VDatetime now ]> (without_none d)) !! k
  = None.
Proof.
  intros Hk Hne. rewrite lookup_prepare, lookup_insert_ne by done.
  unfold without_none. by rewrite map_lookup_filter, Hk.
Qed.

Lemma db_run_read_task env w task_id :
  db (run env (updated_task ← call (FindOne Tasks {[ "id" := VStr task_id ]});
               Task_init (parse_from_mongo updated_task)) w).2
  = db w.
Proof.
  apply no_write_db. apply no_write_bind.
  - constructor. intros. constructor.
  - intros. apply no_write_Task_init.
Qed.

Lemma identities_update_task env w task_id task_update :
  identities (tasks (db (run env (update_task task_id task_update) w).2))
  = identities (tasks (db w)).
Proof.
  unfold update_task. rewrite run_find_one.
  destruct (falsy _); [done |].
  rewrite run_now, run_update_one, db_run_read_task.
  unfold write. cbn [with_db db get_collection set_collection tasks].
  by apply identities_update_one; apply lookup_update_data_None.
Qed.

Lemma identities_move_task env w task_id move_data :
  identities (tasks (db (run env (move_task task_id move_data) w).2))
  = identities (tasks (db w)).
Proof.
  unfold move_task. rewrite run_find_one.
  destruct (falsy _); [done |].
  rewrite run_now, run_update_one, db_run_read_task.
  unfold write. cbn [with_db db get_collection set_collection tasks].
  by apply identities_update_one; rewrite lookup_prepare.
Qed.

(** C7. [update_task] and [move_task], and the routes that call them on
    any request body (one that names [id] or [board_id] included), leave
    the [id] and the [board_id] of every stored task document as they
    were; the task they return for a stored task has the [id] and the
    [board_id] of that task. *)
Theorem task_id_board_id_immutable env w task_id :
  (∀ task_update,
     identities (tasks (db (run env (update_task task_id task_update) w).2))
     = identities (tasks (db w)))
  ∧ (∀ move_data,
       identities (tasks (db (run env (move_task task_id move_data) w).2))
       = identities (tasks (db w)))
  ∧ (∀ json,
       identities (tasks (db (run env (put_task task_id json) w).2))
       = identities (tasks (db w)))
  ∧ (∀ json,
       identities (tasks (db (run env (patch_task_move task_id json) w).2))
       = identities (tasks (db w)))
  ∧ (∀ ts1 t ts2 task_update move_data,
       tasks (db w) = task_doc <$> (ts1 ++ t :: ts2) →
       Task_id t = task_id → (∀ t0, t0 ∈ ts1 → Task_id t0 ≠ task_id) →
       ∃ t1 t2,
         (run env (update_task task_id task_update) w).1 = Returned t1
         ∧ (run env (move_task task_id move_data) w).1 = Returned t2
         ∧ Task_id t1 = Task_id t ∧ Task_board_id t1 = Task_board_id t
         ∧ Task_id t2 = Task_id t ∧ Task_board_id t2 = Task_board_id t).
Proof.
  split_and!.
  - apply identities_update_task.
  - apply identities_move_task.
  - intros json. unfold put_task.
    destruct (run_with_body env (TaskUpdate_init json)
                (λ task_update, update_task task_id task_update) w
                (immediate_TaskUpdate_init json))
      as [[-> _] | [(e & -> & _) | (a & -> & _)]]; [done | done |].
    apply identities_update_task.
  - intros json. unfold patch_task_move.
    destruct (run_with_body env (TaskMove_init json)
                (λ move_data, move_task task_id move_data) w
                (immediate_TaskMove_init json))
      as [[-> _] | [(e & -> & _) | (a & -> & _)]]; [done | done |].
    apply identities_move_task.
  - intros ts1 t ts2 task_update [col] Hts <- H1.
    exists (Task_updated task_update (now_at env (clock_reads w)) t),
           (Task_moved col (now_at env (clock_reads w)) t).
    rewrite (run_move_task _ _ ts1 t ts2) by done.
    rewrite (run_update_task _ _ ts1 t ts2) by done.
    by split_and!.
Qed.

(** ** Null fields in a partial update *)








(** ** Creating boards and tasks *)

Ltac run_field_step :=
  rewrite run_bind;
  first
    [ erewrite run_attempt_field;
      [ | reflexivity
        | first [ reflexivity
                | apply validate_optional_str_of_opt
                | apply validate_optional_datetime_of_opt
                | apply validate_priority_value
                | apply validate_column_value ] ]
    | rewrite run_attempt_default by reflexivity;
      first [ rewrite run_attempt_call; cbn [handle fst snd]
            | cbn [attempt run] ] ];
  cbv beta iota.

Lemma run_Board_init_new env w board_data :
  run env (Board_init (Some (BoardCreate_dict board_data))) w
  = (Returned (Board_created env w board_data), after_create w (db w)).
Proof. unfold Board_init. do 5 run_field_step. done. Qed.

Lemma run_Task_init_new env w board_id task_data :
  run env (Task_init (Some (<[ "board_id" := VStr board_id ]>
                              (TaskCreate_dict task_data)))) w
  = (Returned (Task_created env w board_id task_data), after_create w (db w)).
Proof. unfold Task_init. do 9 run_field_step. done. Qed.

Lemma run_create_board env w board_data :
  run env (create_board board_data) w
  = (Returned (Board_created env w board_data),
     after_create w
       {| boards := boards (db w) ++ [board_doc (Board_created env w board_data)];
          tasks := tasks (db w) |}).
Proof.
  unfold create_board. rewrite run_bind, run_Board_init_new.
  by rewrite run_insert_one.
Qed.

Lemma run_create_task env w board_id task_data :
  board_present board_id w →
  run env (create_task board_id task_data) w
  = (Returned (Task_created env w board_id task_data),
     after_create w
       {| boards := boards (db w);
          tasks := tasks (db w)
                   ++ [task_doc (Task_created env w board_id task_data)] |}).
Proof.
  intros Hp%board_present_find_one. unfold create_task.
  rewrite run_find_one, falsy_find_one. cbn [get_collection].
  rewrite bool_decide_eq_false_2 by done.
  rewrite run_bind, run_Task_init_new. by rewrite run_insert_one.
Qed.

(** ** Timestamps through the store *)

(** C8. A datetime held under [created_at], [updated_at] or [due_date]
    comes back equal from [prepare_for_mongo] followed by
    [parse_from_mongo]; the dictionary of a task comes back whole; and a
    task created with a due date (under a stored board, with a fresh id)
    is read back by [get_task] as the task that [create_task] returned,
    due date included. *)
Theorem timestamps_round_trip env w :
  (∀ data key d,
     key ∈ timestamp_keys → data !! key = Some (VDatetime d) →
     ∃ item,
       parse_from_mongo (Some (prepare_for_mongo data)) = Some item
       ∧ item !! key = Some (VDatetime d))
  ∧ (∀ t, parse_from_mongo (Some (prepare_for_mongo (Task_dict t)))
          = Some (Task_dict t))
  ∧ (∀ board_id task_data,
       board_present board_id w →
       (∀ doc, doc ∈ tasks (db w) →
               doc !! "id" ≠ Some (VStr (uuid4_at env (uuids_drawn w)))) →
       ∃ t w',
         run env (create_task board_id task_data) w = (Returned t, w')
         ∧ Task_due_date t = TaskCreate_due_date task_data
         ∧ run env (get_task (Task_id t)) w' = (Returned t, w')).
Proof.
  split_and!.
  - intros data key d Hkey Hd. eexists. split; [done |].
    rewrite lookup_parse_dict, lookup_prepare, Hd. cbn.
    by rewrite bool_decide_eq_true_2, fromisoformat_isoformat.
  - apply parse_task_doc.
  - intros board_id task_data Hp Hfresh. do 2 eexists.
    split; [by apply run_create_task |]. split; [done |].
    unfold get_task. rewrite run_find_one, falsy_find_one.
    cbn [get_collection after_create db tasks].
    rewrite (find_one_split (tasks (db w)) _ []).
    + rewrite bool_decide_eq_false_2 by done. apply run_Task_init_doc.
    + intros doc Hdoc. rewrite matches_singleton.
      apply bool_decide_eq_false_2. by apply Hfresh.
    + rewrite matches_id_task_doc. by apply bool_decide_eq_true_2.
Qed.

(** ** The name of a board *)

Lemma run_post_boards env w json name description :
  json !! "name" = Some (VStr name) → description_given json description →
  run env (post_boards json) w
  = run env (create_board {| BoardCreate_name := name;
                             BoardCreate_description := description |}) w.
Proof.
  intros Hname Hdesc. unfold post_boards, BoardCreate_init, field.
  rewrite Hname. cbn [validate_str].
  destruct Hdesc as [[-> ->] | ->]; [done |].
  by rewrite validate_optional_str_of_opt.
Qed.

(** C4, as the code has it. [POST /boards] answers with a validation
    error, storing nothing, when [name] is left out or null; given a
    string as name, the empty string included, it creates and stores the
    board with that name; and [update_board] with a name, the empty
    string included, stores that name. *)
Theorem board_name_required_not_nonempty env w :
  (∀ json,
     json !! "name" = None ∨ json !! "name" = Some VNone →
     run env (post_boards json) w = (Raised RequestValidationError, w))
  ∧ (∀ json name description,
       json !! "name" = Some (VStr name) → description_given json description →
       ∃ b w',
         run env (post_boards json) w = (Returned b, w')
         ∧ Board_name b = name
         ∧ Board_description b = description
         ∧ boards (db w') = boards (db w) ++ [board_doc b])
  ∧ (∀ bs1 b bs2 name description,
       boards (db w) = board_doc <$> (bs1 ++ b :: bs2) →
       (∀ b0, b0 ∈ bs1 → Board_id b0 ≠ Board_id b) →
       ∃ b' w',
         run env (update_board (Board_id b)
                    {| BoardUpdate_name := Some name;
                       BoardUpdate_description := description |}) w
         = (Returned b', w')
         ∧ Board_name b' = name
         ∧ boards (db w') = board_doc <$> (bs1 ++ b' :: bs2)).
Proof.
  split_and!.
  - intros json Hname. unfold post_boards, BoardCreate_init, field.
    by destruct Hname as [-> | ->].
  - intros json name description Hname Hdesc.
    rewrite (run_post_boards _ _ _ name description), run_create_board by done.
    by do 2 eexists.
  - intros bs1 b bs2 name description Hbs H1.
    rewrite (run_update_board _ _ bs1 b bs2) by done. by do 2 eexists.
Qed.

(** ** The order of the two deletions *)

Lemma run_prefix_call env {R A} n (r : Req R) (k : R → Prog A) w :
  run_prefix env (S n) (call r ≫= k) w
  = run_prefix env n (k (handle env r w).1) (handle env r w).2.
Proof.
  change (call r ≫= k) with (Await r (λ x, Ret x ≫= k)).
  simpl. by destruct (handle env r w).
Qed.

Lemma run_prefix_done env {A} n (p : Prog A) w :
  immediate p → run_prefix env n p w = w.
Proof. by destruct n, p. Qed.

Lemma run_prefix_delete_board_tasks env w board_id :
  board_present board_id w →
  run_prefix env 2 (delete_board board_id) w = tasks_deleted board_id w.
Proof.
  intros Hp%board_present_find_one. unfold delete_board.
  rewrite run_prefix_call. cbn [handle fst snd get_collection].
  rewrite falsy_find_one, bool_decide_eq_false_2 by done.
  rewrite run_prefix_call. by cbn [handle fst snd].
Qed.

Lemma tasks_deleted_tasks board_id w :
  tasks (db (tasks_deleted board_id w))
  = filter (λ doc, doc !! "board_id" ≠ Some (VStr board_id)) (tasks (db w)).
Proof.
  unfold tasks_deleted, write.
  cbn [with_db db get_collection set_collection tasks].
  apply delete_many_filter.
Qed.

(** C9, as the code has it. For a stored board [delete_board] writes
    nothing before its second request, deletes the tasks of the board at
    the second and the board at the third.  Cut off between the two
    deletions it leaves the boards collection as it was, so the board is
    still stored, with none of its tasks; no task that had a stored board
    has lost it there. *)
Theorem delete_board_tasks_before_board env w board_id :
  board_present board_id w →
  run_prefix env 0 (delete_board board_id) w = w
  ∧ run_prefix env 1 (delete_board board_id) w = w
  ∧ run_prefix env 2 (delete_board board_id) w = tasks_deleted board_id w
  ∧ (∀ n : nat, (3 ≤ n)%nat →
       run_prefix env n (delete_board board_id) w
       = (run env (delete_board board_id) w).2)
  ∧ (run env (delete_board board_id) w).2
    = write Boards (λ c, delete_one c {[ "id" := VStr board_id ]})
        (tasks_deleted board_id w)
  ∧ boards (db (tasks_deleted board_id w)) = boards (db w)
  ∧ tasks (db (tasks_deleted board_id w))
    = filter (λ doc, doc !! "board_id" ≠ Some (VStr board_id)) (tasks (db w))
  ∧ board_present board_id (tasks_deleted board_id w)
  ∧ (∀ doc, doc ∈ tasks (db (tasks_deleted board_id w)) →
            doc !! "board_id" ≠ Some (VStr board_id))
  ∧ (∀ doc other,
       doc ∈ tasks (db (tasks_deleted board_id w)) →
       doc !! "board_id" = Some (VStr other) →
       board_present other w → board_present other (tasks_deleted board_id w)).
Proof.
  intros Hp. pose proof Hp as Hf%board_present_find_one.
  assert (falsy (find_one (boards (db w)) {[ "id" := VStr board_id ]}) = false)
    as Hfalsy by (by rewrite falsy_find_one, bool_decide_eq_false_2).
  pose proof (tasks_deleted_tasks board_id w) as Htasks.
  split_and!; [| | by apply run_prefix_delete_board_tasks | ..];
    unfold delete_board.
  - done.
  - rewrite run_prefix_call. by cbn [handle fst snd].
  - intros [| [| [| n]]] Hn; [lia .. |].
    rewrite run_prefix_call, run_find_one. cbn [handle fst snd get_collection].
    rewrite Hfalsy. rewrite run_prefix_call, run_delete_many.
    rewrite run_prefix_call, run_delete_one. cbn [handle fst snd].
    by rewrite run_prefix_done.
  - rewrite run_find_one. cbn [get_collection]. rewrite Hfalsy.
    by rewrite run_delete_many, run_delete_one.
  - done.
  - done.
  - done.
  - rewrite Htasks. by intros doc [? _]%list_elem_of_filter.
  - by intros doc other _ _ Hother.
Qed.

(** ** The stores that the handlers build *)

Lemma Forall_docs {A} (f : A → Document) c :
  Forall (λ doc, ∃ x, doc = f x) c ↔ ∃ l, c = f <$> l.
Proof.
  split.
  - induction 1 as [| doc c [x ->] _ [l ->]]; [by exists [] |].
    by exists (x :: l).
  - intros [l ->]. apply Forall_fmap, Forall_forall. intros x _. by exists x.
Qed.

Lemma stored_docs w :
  stored w ↔
  ∃ bs ts, boards (db w) = board_doc <$> bs ∧ tasks (db w) = task_doc <$> ts.
Proof.
  unfold stored. rewrite !Forall_docs. split.
  - intros [[bs Hbs] [ts Hts]]. by exists bs, ts.
  - intros (bs & ts & Hbs & Hts). split; eauto.
Qed.


Lemma Forall_delete_one (P : Document → Prop) c query :
  Forall P c → Forall P (delete_one c query).
Proof.
  induction 1 as [| doc c Hdoc Hc IH]; [done |]. simpl.
  destruct (matches query doc); [done | by constructor].
Qed.

Lemma Forall_delete_many (P : Document → Prop) c query :
  Forall P c → Forall P (delete_many c query).
Proof.
  rewrite !Forall_forall. intros Hc doc [? _]%elem_of_delete_many. auto.
Qed.


(** X15. Every handler that writes leaves a store of boards and tasks a
    store of boards and tasks, whatever its arguments: each document of
    [db.boards] is still the document of a [Board] and each document of
    [db.tasks] that of a [Task], also after an update with any fields and
    after a call that raises. *)
Theorem stored_preserved env w :
  stored w →
  (∀ board_data, stored (run env (create_board board_data) w).2)
  ∧ (∀ board_id board_update,
       stored (run env (update_board board_id board_update) w).2)
  ∧ (∀ board_id, stored (run env (delete_board board_id) w).2)
  ∧ (∀ board_id task_data,
       stored (run env (create_task board_id task_data) w).2)
  ∧ (∀ task_id task_update,
       stored (run env (update_task task_id task_update) w).2)
  ∧ (∀ task_id move_data, stored (run env (move_task task_id move_data) w).2)
  ∧ (∀ task_id, stored (run env (delete_task task_id) w).2).
Proof.
  intros [Hbs Hts]. split_and!.
  - intros board_data. rewrite run_create_board. split; [| done].
    cbn [after_create db boards]. apply Forall_app. split; [done |].
    apply Forall_singleton. by eexists.
  - intros board_id board_update. unfold update_board. rewrite run_find_one.
    destruct (falsy _); [done |].
    rewrite run_now, run_update_one. unfold stored.
    rewrite db_run_read_board. unfold write.
    cbn [with_db db get_collection set_collection boards tasks].
    split; [| done]. apply Forall_update_one; [done |].
    intros doc [b ->]. eexists. apply set_board_update.
  - intros board_id. unfold delete_board. rewrite run_find_one.
    destruct (falsy _); [done |].
    rewrite run_delete_many, run_delete_one. unfold write.
    cbn [run with_db db get_collection set_collection boards tasks snd].
    split; [by apply Forall_delete_one | by apply Forall_delete_many].
  - intros board_id task_data. unfold create_task. rewrite run_find_one.
    destruct (falsy _); [done |].
    rewrite run_bind, run_Task_init_new, run_insert_one. unfold write.
    cbn [run after_create with_db db get_collection set_collection boards
         tasks snd].
    split; [done |]. apply Forall_app. split; [done |].
    apply Forall_singleton. by eexists.
  - intros task_id task_update. unfold update_task. rewrite run_find_one.
    destruct (falsy _); [done |].
    rewrite run_now, run_update_one. unfold stored.
    rewrite db_run_read_task. unfold write.
    cbn [with_db db get_collection set_collection boards tasks].
    split; [done |]. apply Forall_update_one; [done |].
    intros doc [t ->]. eexists. apply set_task_update.
  - intros task_id [col]. unfold move_task. rewrite run_find_one.
    destruct (falsy _); [done |].
    rewrite run_now, run_update_one. unfold stored.
    rewrite db_run_read_task. unfold write.
    cbn [with_db db get_collection set_collection boards tasks TaskMove_column].
    split; [done |]. apply Forall_update_one; [done |].
    intros doc [t ->]. eexists. apply set_task_move.
  - intros task_id. unfold delete_task. rewrite run_find_one.
    destruct (falsy _); [done |].
    rewrite run_delete_one. unfold write.
    cbn [run with_db db get_collection set_collection boards tasks snd].
    split; [done | by apply Forall_delete_one].
Qed.

(** The handlers stamp the boards by the clock: [create_board] and
    [update_board] write a reading into [updated_at], and no handler
    writes anything else there.  The empty store is stamped. *)
Lemma clock_stamped_preserved env w :
  clock_stamped env w →
  (∀ board_data, clock_stamped env (run env (create_board board_data) w).2)
  ∧ (∀ board_id board_update,
       clock_stamped env (run env (update_board board_id board_update) w).2)
  ∧ (∀ board_id, clock_stamped env (run env (delete_board board_id) w).2)
  ∧ (∀ board_id task_data,
       clock_stamped env (run env (create_task board_id task_data) w).2)
  ∧ (∀ task_id task_update,
       clock_stamped env (run env (update_task task_id task_update) w).2)
  ∧ (∀ task_id move_data,
       clock_stamped env (run env (move_task task_id move_data) w).2)
  ∧ (∀ task_id, clock_stamped env (run env (delete_task task_id) w).2).
Proof.
  intros Hst. split_and!.
  - intros board_data. rewrite run_create_board. unfold clock_stamped.
    cbn [snd after_create db boards clock_reads]. apply Forall_app. split.
    + eapply Forall_impl; [exact Hst |].
      intros doc (i & Hi & Hdoc). exists i. split; [lia | done].
    + apply Forall_singleton. exists (S (clock_reads w)). split; [lia |].
      apply board_doc_updated_at.
  - intros board_id board_update. by apply clock_stamped_update_board.
  - intros board_id. unfold delete_board. rewrite run_find_one.
    destruct (falsy _); [done |].
    rewrite run_delete_many, run_delete_one. unfold clock_stamped, write.
    cbn [run with_db db get_collection set_collection boards tasks snd
         clock_reads].
    by apply Forall_delete_one.
  - intros board_id task_data. unfold create_task. rewrite run_find_one.
    destruct (falsy _); [done |].
    rewrite run_bind, run_Task_init_new, run_insert_one.
    eapply clock_stamped_later; [| | exact Hst]; cbn; [done | lia].
  - intros task_id task_update. unfold update_task. rewrite run_find_one.
    destruct (falsy _); [done |]. rewrite run_now, run_update_one.
    apply (clock_stamped_after env _ w);
      [by rewrite db_run_read_task | cbn; lia | done].
  - intros task_id move_data. unfold move_task. rewrite run_find_one.
    destruct (falsy _); [done |]. rewrite run_now, run_update_one.
    apply (clock_stamped_after env _ w);
      [by rewrite db_run_read_task | cbn; lia | done].
  - intros task_id. unfold delete_task. rewrite run_find_one.
    destruct (falsy _); [done |]. rewrite run_delete_one.
    eapply clock_stamped_later; [| | exact Hst]; cbn; [done | lia].
Qed.

End Kanban_theory.

(** * Further properties of the handlers *)

Section Kanban_more.
Context `{DL : DatetimeLib}.
Local Open Scope list_scope.
Abbreviation Document := (gmap string value).
Abbreviation Collection := (list (gmap string value)).
Implicit Types (doc query fields data json : gmap string value).
Implicit Types (c : list (gmap string value)).
Implicit Types (env : Env) (w : World).
Implicit Types (ts : list Task) (bs : list Board).

(** ** Reading *)

Lemma run_board_not_found env w bs board_id {A} (k : option Document → Prog A) :
  boards (db w) = board_doc <$> bs →
  (∀ b, b ∈ bs → Board_id b ≠ board_id) →
  run env (board ← call (FindOne Boards {[ "id" := VStr board_id ]});
           if falsy board then Raise (HTTPException 404 "Board not found")
           else k board) w
  = (Raised (HTTPException 404 "Board not found"), w).
Proof.
  intros Hbs Hno. rewrite run_find_one, falsy_find_one. cbn [get_collection].
  by rewrite Hbs, find_one_no_board.
Qed.

Lemma run_get_board env w bs1 b bs2 :
  boards (db w) = board_doc <$> (bs1 ++ b :: bs2) →
  (∀ b0, b0 ∈ bs1 → Board_id b0 ≠ Board_id b) →
  run env (get_board (Board_id b)) w = (Returned b, w).
Proof.
  intros Hbs H1. unfold get_board.
  rewrite run_find_one, falsy_find_one. cbn [get_collection].
  rewrite Hbs, find_one_board by done.
  rewrite bool_decide_eq_false_2 by done. apply run_Board_init_doc.
Qed.

(** X1. [get_boards] returns every stored board, in the order of the
    collection, and leaves the world as it was; on an empty collection
    it returns the empty list. *)
Theorem get_boards_lists_all env w :
  (∀ bs, boards (db w) = board_doc <$> bs →
         run env get_boards w = (Returned bs, w))
  ∧ (boards (db w) = [] → run env get_boards w = (Returned [], w)).
Proof.
  split; [apply run_get_boards |].
  intros Hempty. by apply (run_get_boards _ _ []).
Qed.

(** X2. On stored boards [get_board] returns the first board with the id
    and leaves the world as it was; it raises 404 exactly when no stored
    board has the id. *)
Theorem get_board_first_or_404 env w board_id bs :
  boards (db w) = board_doc <$> bs →
  (∀ bs1 b bs2,
     bs = bs1 ++ b :: bs2 → Board_id b = board_id →
     (∀ b0, b0 ∈ bs1 → Board_id b0 ≠ board_id) →
     run env (get_board board_id) w = (Returned b, w))
  ∧ (run env (get_board board_id) w
     = (Raised (HTTPException 404 "Board not found"), w)
     ↔ ∀ b, b ∈ bs → Board_id b ≠ board_id).
Proof.
  intros Hbs. split.
  - intros bs1 b bs2 -> <- H1. by apply (run_get_board _ _ bs1 b bs2).
  - split.
    + intros Hrun b Hin Hid.
      destruct (first_split (λ b, Board_id b = board_id) bs b Hin Hid)
        as (bs1 & b1 & bs2 & -> & <- & H1).
      by rewrite (run_get_board _ _ bs1 b1 bs2) in Hrun.
    + intros Hno. unfold get_board. by eapply run_board_not_found.
Qed.

(** X3. On stored tasks [get_task] returns the first task with the id and
    leaves the world as it was; it raises 404 exactly when no stored task
    has the id. *)
Theorem get_task_first_or_404 env w task_id ts :
  tasks (db w) = task_doc <$> ts →
  (∀ ts1 t ts2,
     ts = ts1 ++ t :: ts2 → Task_id t = task_id →
     (∀ t0, t0 ∈ ts1 → Task_id t0 ≠ task_id) →
     run env (get_task task_id) w = (Returned t, w))
  ∧ (run env (get_task task_id) w
     = (Raised (HTTPException 404 "Task not found"), w)
     ↔ ∀ t, t ∈ ts → Task_id t ≠ task_id).
Proof.
  intros Hts. split.
  - intros ts1 t ts2 -> <- H1. by apply (run_get_task _ _ ts1 t ts2).
  - split.
    + intros Hrun t Hin Hid.
      destruct (first_split (λ t, Task_id t = task_id) ts t Hin Hid)
        as (ts1 & t1 & ts2 & -> & <- & H1).
      by rewrite (run_get_task _ _ ts1 t1 ts2) in Hrun.
    + intros Hno. unfold get_task. by eapply run_task_not_found.
Qed.

Lemma no_write_for_each {A B} (f : A → Prog B) (l : list A) :
  (∀ x, no_write (f x)) → no_write (for_each f l).
Proof.
  intros Hf. induction l as [| x l IH]; [constructor |]. cbn [for_each].
  apply no_write_bind; [apply Hf |]. intros y.
  apply no_write_bind; [apply IH |]. intros ys. constructor.
Qed.

Lemma no_write_if_falsy {A} (x : option Document) e (p : Prog A) :
  no_write p → no_write (if falsy x then Raise e else p).
Proof. intros. destruct (falsy x); [constructor | done]. Qed.

(** X4. The four reading handlers write nothing: whatever the store holds
    (documents that are no board or task included) and whatever they
    return or raise, the database is the same afterwards. *)
Theorem reading_handlers_write_nothing env w :
  db (run env get_boards w).2 = db w
  ∧ (∀ board_id, db (run env (get_board board_id) w).2 = db w)
  ∧ (∀ board_id priority column,
       db (run env (get_board_tasks board_id priority column) w).2 = db w)
  ∧ (∀ task_id, db (run env (get_task task_id) w).2 = db w).
Proof.
  split_and!; intros; apply no_write_db.
  - constructor. intros boards.
    apply no_write_for_each. intros. apply no_write_Board_init.
  - constructor. intros board.
    apply no_write_if_falsy, no_write_Board_init.
  - constructor. intros board. apply no_write_if_falsy.
    constructor. intros tasks.
    apply no_write_for_each. intros. apply no_write_Task_init.
  - constructor. intros task.
    apply no_write_if_falsy, no_write_Task_init.
Qed.

(** ** Creating, then reading *)

(** X5. On stored boards none of which has the id that the generator
    draws, [create_board] returns the board with the name and description
    of the request, the drawn id and two successive clock readings as
    [created_at] and [updated_at], and appends its document to the boards,
    leaving the tasks alone; [get_board] of that id then returns the same
    board and [get_boards] returns the old boards followed by it. *)
Theorem create_board_then_read env w board_data bs :
  boards (db w) = board_doc <$> bs →
  (∀ b, b ∈ bs → Board_id b ≠ uuid4_at env (uuids_drawn w)) →
  ∃ b w',
    run env (create_board board_data) w = (Returned b, w')
    ∧ Board_id b = uuid4_at env (uuids_drawn w)
    ∧ Board_name b = BoardCreate_name board_data
    ∧ Board_description b = BoardCreate_description board_data
    ∧ Board_created_at b = now_at env (clock_reads w)
    ∧ Board_updated_at b = now_at env (S (clock_reads w))
    ∧ boards (db w') = board_doc <$> (bs ++ [b])
    ∧ tasks (db w') = tasks (db w)
    ∧ run env (get_board (Board_id b)) w' = (Returned b, w')
    ∧ run env get_boards w' = (Returned (bs ++ [b]), w').
Proof.
  intros Hbs Hfresh. do 2 eexists. split; [apply run_create_board |].
  assert (boards (db w) ++ [board_doc (Board_created env w board_data)]
          = board_doc <$> (bs ++ [Board_created env w board_data])) as Hbs'
    by (by rewrite Hbs, fmap_app).
  cbn [after_create db boards tasks]. split_and!; try done.
  - by apply (run_get_board _ _ bs _ []).
  - by apply run_get_boards.
Qed.

(** X6. Under a stored board [create_task] returns a task of that board
    in column [todo], with the title, description, priority and due date
    of the request, and appends its document to the tasks, leaving the
    boards alone.  The unfiltered listing of the board then ends with the
    new task, a filtered listing holds it exactly when it passes the
    filter, and the listings of the other boards are as before. *)
Theorem create_task_then_list env w board_id task_data ts :
  board_present board_id w → tasks (db w) = task_doc <$> ts →
  ∃ t w',
    run env (create_task board_id task_data) w = (Returned t, w')
    ∧ Task_board_id t = board_id
    ∧ Task_column t = TaskColumn.todo
    ∧ Task_title t = TaskCreate_title task_data
    ∧ Task_description t = TaskCreate_description task_data
    ∧ Task_priority t = TaskCreate_priority task_data
    ∧ Task_due_date t = TaskCreate_due_date task_data
    ∧ tasks (db w') = task_doc <$> (ts ++ [t])
    ∧ boards (db w') = boards (db w)
    ∧ run env (get_board_tasks board_id None None) w'
      = (Returned (filter (selected board_id None None) ts ++ [t]), w')
    ∧ (∀ priority column,
         run env (get_board_tasks board_id priority column) w'
         = (Returned (filter (selected board_id priority column) ts
                      ++ filter (selected board_id priority column) [t]), w'))
    ∧ (∀ other priority column,
         other ≠ board_id → board_present other w →
         run env (get_board_tasks other priority column) w'
         = (Returned (filter (selected other priority column) ts), w')).
Proof.
  intros Hp Hts. do 2 eexists. split; [by apply run_create_task |].
  set (t := Task_created env w board_id task_data).
  set (w' := after_create w {| boards := boards (db w);
                               tasks := tasks (db w) ++ [task_doc t] |}).
  assert (tasks (db w') = task_doc <$> (ts ++ [t])) as Hts'
    by (cbn; by rewrite Hts, fmap_app).
  assert (∀ other, board_present other w → board_present other w') as Hkeep
    by done.
  split_and!; try done.
  - rewrite (run_get_board_tasks _ _ _ _ _ (ts ++ [t])) by auto.
    rewrite filter_app, filter_cons_True, filter_nil; [done |].
    split_and!; [done | by left | by left].
  - intros priority column.
    rewrite (run_get_board_tasks _ _ _ _ _ (ts ++ [t])) by auto.
    by rewrite filter_app.
  - intros other priority column Hother Hpo.
    rewrite (run_get_board_tasks _ _ _ _ _ (ts ++ [t])) by auto.
    rewrite filter_app, filter_cons_False, filter_nil, app_nil_r; [done |].
    intros [Hb _]. by apply Hother.
Qed.

(** ** Request bodies *)

Lemma TaskPriority_of_value_Some s p :
  TaskPriority.of_value s = Some p ↔ s = TaskPriority.value p.
Proof.
  split; [| intros ->; apply TaskPriority_of_value].
  unfold TaskPriority.of_value. repeat case_decide; intros [= <-]; by subst.
Qed.

Lemma TaskColumn_of_value_Some s (col : TaskColumn.t) :
  TaskColumn.of_value s = Some col ↔ s = TaskColumn.value col.
Proof.
  split; [| intros ->; apply TaskColumn_of_value].
  unfold TaskColumn.of_value. repeat case_decide; intros [= <-]; by subst.
Qed.

Lemma field_delete_other {A} json key k (validate : value → option A) default :
  k ≠ key →
  field (delete key json) k validate default = field json k validate default.
Proof. intros Hne. unfold field. by rewrite lookup_delete_ne. Qed.

Lemma TaskCreate_init_ignores json key :
  key ∉ ["title"; "description"; "priority"; "due_date"] →
  TaskCreate_init (delete key json) = TaskCreate_init json.
Proof.
  rewrite !not_elem_of_cons. intros (? & ? & ? & ? & _).
  unfold TaskCreate_init. by rewrite !(field_delete_other json key).
Qed.

(** X7. [POST /boards/{board_id}/tasks] answers 422 and changes nothing
    when the title is left out or null, or when the priority is a string
    other than the three tokens.  It ignores every field of the body but
    title, description, priority and due date, so a body cannot choose the
    id, the board, the column or the timestamps of the task.  A body with
    a title only, under a stored board, creates a task of the board with
    an empty description, priority [medium], column [todo] and no due
    date. *)
Theorem post_board_tasks_body env w board_id json :
  (json !! "title" = None ∨ json !! "title" = Some VNone →
   run env (post_board_tasks board_id json) w
   = (Raised RequestValidationError, w))
  ∧ (∀ s,
       json !! "priority" = Some (VStr s) → TaskPriority.of_value s = None →
       run env (post_board_tasks board_id json) w
       = (Raised RequestValidationError, w))
  ∧ (∀ key,
       key ∉ ["title"; "description"; "priority"; "due_date"] →
       run env (post_board_tasks board_id (delete key json)) w
       = run env (post_board_tasks board_id json) w)
  ∧ (∀ title,
       json !! "title" = Some (VStr title) → json !! "description" = None →
       json !! "priority" = None → json !! "due_date" = None →
       board_present board_id w →
       ∃ t w',
         run env (post_board_tasks board_id json) w = (Returned t, w')
         ∧ Task_board_id t = board_id
         ∧ Task_title t = title
         ∧ Task_description t = Some ""
         ∧ Task_priority t = TaskPriority.medium
         ∧ Task_column t = TaskColumn.todo
         ∧ Task_due_date t = None
         ∧ tasks (db w') = tasks (db w) ++ [task_doc t]).
Proof.
  split_and!.
  - intros Htitle. unfold post_board_tasks, TaskCreate_init, field.
    by destruct Htitle as [-> | ->].
  - intros s Hs Hnone. unfold post_board_tasks, TaskCreate_init, field.
    rewrite Hs. cbn [validate_priority]. rewrite Hnone.
    destruct (json !! "title") as [[] |]; try done;
      destruct (json !! "description") as [[] |]; done.
  - intros key Hkey. unfold post_board_tasks.
    by rewrite TaskCreate_init_ignores.
  - intros title Htitle Hdesc Hprio Hdue Hp.
    unfold post_board_tasks, TaskCreate_init, field.
    rewrite Htitle, Hdesc, Hprio, Hdue.
    cbn [validate_str mbind Prog_bind bind request_body].
    rewrite run_create_task by done. by do 2 eexists.
Qed.

(** X8. [PATCH /tasks/{task_id}/move] answers 422 and changes nothing
    when the column is left out, null, or a string other than [todo],
    [in_progress] and [done]; given one of the three tokens it runs
    [move_task] with the column of that token. *)
Theorem patch_task_move_body env w task_id json :
  (json !! "column" = None ∨ json !! "column" = Some VNone →
   run env (patch_task_move task_id json) w
   = (Raised RequestValidationError, w))
  ∧ (∀ s,
       json !! "column" = Some (VStr s) →
       s ∉ ["todo"; "in_progress"; "done"] →
       run env (patch_task_move task_id json) w
       = (Raised RequestValidationError, w))
  ∧ (∀ col,
       json !! "column" = Some (VStr (TaskColumn.value col)) →
       run env (patch_task_move task_id json) w
       = run env (move_task task_id {| TaskMove_column := col |}) w).
Proof.
  split_and!.
  - intros Hcol. unfold patch_task_move, TaskMove_init, field.
    by destruct Hcol as [-> | ->].
  - intros s Hs Hnot. unfold patch_task_move, TaskMove_init, field.
    rewrite Hs. cbn [validate_column].
    destruct (TaskColumn.of_value s) as [col |] eqn:Hcol; [| done].
    apply TaskColumn_of_value_Some in Hcol as ->.
    destruct Hnot. destruct col; cbn [TaskColumn.value];
      [left | right; left | do 2 right; left].
  - intros col Hcol. unfold patch_task_move, TaskMove_init, field.
    rewrite Hcol. cbn [validate_column]. by rewrite TaskColumn_of_value.
Qed.

(** ** Updating and moving tasks *)

(** X9. For a stored task (the first with the id) [update_task] returns
    and stores the task in which each supplied field replaces the stored
    one and each field left out keeps its value (the column among them, so
    the update can move the task); [id], [board_id] and [created_at] stay
    and [updated_at] becomes the reading of the clock, also when no field
    is supplied.  The other tasks and the boards are untouched.  When no
    stored task has the id it raises 404 and leaves the world, clock
    included, as it was. *)
Theorem update_task_partial env w task_id task_update :
  (∀ ts1 t ts2,
     tasks (db w) = task_doc <$> (ts1 ++ t :: ts2) →
     Task_id t = task_id → (∀ t0, t0 ∈ ts1 → Task_id t0 ≠ task_id) →
     ∃ t' w',
       run env (update_task task_id task_update) w = (Returned t', w')
       ∧ tasks (db w') = task_doc <$> (ts1 ++ t' :: ts2)
       ∧ boards (db w') = boards (db w)
       ∧ Task_id t' = Task_id t
       ∧ Task_board_id t' = Task_board_id t
       ∧ Task_created_at t' = Task_created_at t
       ∧ Task_title t' = default (Task_title t) (TaskUpdate_title task_update)
       ∧ Task_description t'
         = from_option Some (Task_description t)
             (TaskUpdate_description task_update)
       ∧ Task_priority t'
         = default (Task_priority t) (TaskUpdate_priority task_update)
       ∧ Task_column t'
         = default (Task_column t) (TaskUpdate_column task_update)
       ∧ Task_due_date t'
         = from_option Some (Task_due_date t) (TaskUpdate_due_date task_update)
       ∧ Task_updated_at t' = now_at env (clock_reads w))
  ∧ (∀ ts,
       tasks (db w) = task_doc <$> ts →
       (∀ t, t ∈ ts → Task_id t ≠ task_id) →
       run env (update_task task_id task_update) w
       = (Raised (HTTPException 404 "Task not found"), w)).
Proof.
  split.
  - intros ts1 t ts2 Hts <- H1.
    rewrite (run_update_task _ _ ts1 t ts2) by done.
    do 2 eexists. split; [done |].
    cbn [db tasks boards Task_updated Task_id Task_board_id Task_created_at
         Task_title Task_description Task_priority Task_column Task_due_date
         Task_updated_at].
    by split_and!.
  - intros ts Hts Hno. unfold update_task. by eapply run_task_not_found.
Qed.

(** X10. [move_task] to a column is [update_task] with that column as the
    only field: the two run alike on every store. *)
Theorem move_task_is_update_task env w task_id col :
  run env (move_task task_id {| TaskMove_column := col |}) w
  = run env (update_task task_id
               {| TaskUpdate_title := None; TaskUpdate_description := None;
                  TaskUpdate_priority := None; TaskUpdate_column := Some col;
                  TaskUpdate_due_date := None |}) w.
Proof.
  unfold move_task, update_task. rewrite !run_find_one.
  destruct (falsy _); [done |]. rewrite !run_now.
  cbn [TaskMove_column].
  replace (<[ "updated_at" := VDatetime (now_at env (clock_reads w)) ]>
             (without_none
                (TaskUpdate_dict
                   {| TaskUpdate_title := None; TaskUpdate_description := None;
                      TaskUpdate_priority := None;
                      TaskUpdate_column := Some col;
                      TaskUpdate_due_date := None |})))
    with ({[ "column" := VStr (TaskColumn.value col);
             "updated_at" := VDatetime (now_at env (clock_reads w)) ]}
          : Document)
    by exact eq_refl.
  done.
Qed.

(** X11. Two moves in a row leave what the second alone would: the task
    is in the second column with the second reading of the clock as
    [updated_at], and nothing of the first move remains. *)
Theorem move_task_twice env w ts1 t ts2 col1 col2 :
  tasks (db w) = task_doc <$> (ts1 ++ t :: ts2) →
  (∀ t0, t0 ∈ ts1 → Task_id t0 ≠ Task_id t) →
  ∃ t1 w1 t2 w2,
    run env (move_task (Task_id t) {| TaskMove_column := col1 |}) w
    = (Returned t1, w1)
    ∧ run env (move_task (Task_id t) {| TaskMove_column := col2 |}) w1
      = (Returned t2, w2)
    ∧ t2 = Task_moved col2 (now_at env (S (clock_reads w))) t
    ∧ Task_column t2 = col2
    ∧ tasks (db w2) = task_doc <$> (ts1 ++ t2 :: ts2).
Proof.
  intros Hts H1.
  pose proof (run_move_task env w ts1 t ts2 col1 Hts H1) as Hfirst.
  set (t1 := Task_moved col1 (now_at env (clock_reads w)) t) in *.
  set (w1 := {| db := {| boards := boards (db w);
                         tasks := task_doc <$> (ts1 ++ t1 :: ts2) |};
                clock_reads := S (clock_reads w);
                uuids_drawn := uuids_drawn w |}) in *.
  pose proof (run_move_task env w1 ts1 t1 ts2 col2 eq_refl H1) as Hsecond.
  exists t1, w1. do 2 eexists.
  split; [exact Hfirst |]. split; [exact Hsecond |]. done.
Qed.

(** ** Deleting a task *)

Lemma delete_one_split c1 doc c2 query :
  (∀ d, d ∈ c1 → matches query d = false) → matches query doc = true →
  delete_one (c1 ++ doc :: c2) query = c1 ++ c2.
Proof.
  intros H1 Hm. induction c1 as [| d c1 IH]; simpl.
  - by rewrite Hm.
  - rewrite (H1 d) by left. f_equal. apply IH. intros d' ?. apply H1. by right.
Qed.

(** X12. [delete_task] removes the first stored task with the id and
    nothing else: the tasks before and after it stay in their order, the
    boards, the clock and the UUID generator are not touched, and the
    acknowledgment is returned.  When no later task shares the id a
    following [get_task] raises 404; when one does, it is that task which
    [get_task] now finds.  For an id that no task has, [delete_task]
    raises 404 and leaves the world as it was. *)
Theorem delete_task_removes_first env w task_id :
  (∀ ts1 t ts2,
     tasks (db w) = task_doc <$> (ts1 ++ t :: ts2) →
     Task_id t = task_id → (∀ t0, t0 ∈ ts1 → Task_id t0 ≠ task_id) →
     ∃ w',
       run env (delete_task task_id) w
       = (Returned {[ "message" := VStr "Task deleted successfully" ]}, w')
       ∧ tasks (db w') = task_doc <$> (ts1 ++ ts2)
       ∧ boards (db w') = boards (db w)
       ∧ clock_reads w' = clock_reads w
       ∧ uuids_drawn w' = uuids_drawn w
       ∧ ((∀ t0, t0 ∈ ts2 → Task_id t0 ≠ task_id) →
          run env (get_task task_id) w'
          = (Raised (HTTPException 404 "Task not found"), w'))
       ∧ (∀ ts3 t' ts4,
            ts2 = ts3 ++ t' :: ts4 → Task_id t' = task_id →
            (∀ t0, t0 ∈ ts3 → Task_id t0 ≠ task_id) →
            run env (get_task task_id) w' = (Returned t', w')))
  ∧ (∀ ts,
       tasks (db w) = task_doc <$> ts →
       (∀ t, t ∈ ts → Task_id t ≠ task_id) →
       run env (delete_task task_id) w
       = (Raised (HTTPException 404 "Task not found"), w)).
Proof.
  split.
  - intros ts1 t ts2 Hts <- H1. unfold delete_task.
    rewrite run_find_one, falsy_find_one. cbn [get_collection].
    rewrite Hts, find_one_task by done.
    rewrite bool_decide_eq_false_2 by done. rewrite run_delete_one.
    unfold write, with_db. cbn [get_collection set_collection run].
    rewrite Hts, fmap_app, fmap_cons, delete_one_split, <- fmap_app.
    2:{ by apply no_task_matches. }
    2:{ rewrite matches_id_task_doc. by apply bool_decide_eq_true_2. }
    eexists. split; [done |]. cbn [db tasks boards clock_reads uuids_drawn].
    split_and!; try done.
    + intros H2. unfold get_task. eapply run_task_not_found; [done |].
      intros t0 [? | ?]%elem_of_app; auto.
    + intros ts3 t' ts4 -> Hid H3. rewrite <- Hid in H1, H3 |- *.
      apply (run_get_task _ _ (ts1 ++ ts3) t' ts4).
      * cbn [db tasks]. by rewrite <- (assoc_L (++)).
      * intros t0 [? | ?]%elem_of_app; auto.
  - intros ts Hts Hno. unfold delete_task. by eapply run_task_not_found.
Qed.

(** ** Identifiers that are not stored *)

Lemma find_one_id_absent c x :
  (∀ doc, doc ∈ c → doc !! "id" ≠ Some (VStr x)) →
  find_one c {[ "id" := VStr x ]} = None.
Proof.
  intros Hc. apply find_one_None. intros doc Hdoc.
  rewrite matches_singleton. apply bool_decide_eq_false_2. by apply Hc.
Qed.

(** X13. On any store, of documents of whatever shape, a handler that is
    given the id of no document of its collection raises 404 before it
    reads the clock or writes: [update_board], [delete_board] and
    [get_board_tasks] (with any filters) answer "Board not found",
    [update_task], [move_task] and [delete_task] answer "Task not found",
    and the world is as it was. *)
Theorem absent_id_is_404 env w :
  (∀ board_id,
     (∀ doc, doc ∈ boards (db w) → doc !! "id" ≠ Some (VStr board_id)) →
     (∀ board_update,
        run env (update_board board_id board_update) w
        = (Raised (HTTPException 404 "Board not found"), w))
     ∧ run env (delete_board board_id) w
       = (Raised (HTTPException 404 "Board not found"), w)
     ∧ (∀ priority column,
          run env (get_board_tasks board_id priority column) w
          = (Raised (HTTPException 404 "Board not found"), w)))
  ∧ (∀ task_id,
       (∀ doc, doc ∈ tasks (db w) → doc !! "id" ≠ Some (VStr task_id)) →
       (∀ task_update,
          run env (update_task task_id task_update) w
          = (Raised (HTTPException 404 "Task not found"), w))
       ∧ (∀ move_data,
            run env (move_task task_id move_data) w
            = (Raised (HTTPException 404 "Task not found"), w))
       ∧ run env (delete_task task_id) w
         = (Raised (HTTPException 404 "Task not found"), w)).
Proof.
  split.
  - intros board_id Hno%find_one_id_absent. split_and!; intros;
      unfold update_board, delete_board, get_board_tasks;
      rewrite run_find_one; cbn [get_collection]; by rewrite Hno.
  - intros task_id Hno%find_one_id_absent. split_and!; intros;
      unfold update_task, move_task, delete_task;
      rewrite run_find_one; cbn [get_collection]; by rewrite Hno.
Qed.

(** ** Unique identifiers *)

Lemma unique_ids_identities c1 c2 :
  identities c1 = identities c2 → unique_ids c1 → unique_ids c2.
Proof.
  unfold unique_ids, identities. intros Heq.
  assert (∀ c : Collection,
            (λ doc, doc !! "id") <$> c
            = ((λ doc, (doc !! "id", doc !! "board_id")) <$> c).*1) as Hfst.
  { intros c. by rewrite <- list_fmap_compose. }
  by rewrite !Hfst, Heq.
Qed.

Lemma unique_ids_delete_one c query :
  unique_ids c → unique_ids (delete_one c query).
Proof.
  unfold unique_ids. induction c as [| d c IH]; [done |]. simpl.
  rewrite NoDup_cons. intros [Hd Hc].
  destruct (matches query d); [done |].
  rewrite fmap_cons, NoDup_cons. split; [| by apply IH].
  intros (d' & Heq & Hin)%list_elem_of_fmap. apply Hd. rewrite Heq.
  apply (list_elem_of_fmap_2 (λ doc : Document, doc !! "id")).
  clear -Hin. induction c as [| d0 c IH]; [done |]. simpl in Hin.
  destruct (matches query d0); [by right |].
  apply elem_of_cons in Hin as [-> | Hin]; [left | right; auto].
Qed.

Lemma unique_ids_delete_many c query :
  unique_ids c → unique_ids (delete_many c query).
Proof.
  unfold unique_ids, delete_many.
  intros Hc. eapply sublist_NoDup; [exact Hc | apply fmap_sublist, sublist_filter].
Qed.

Lemma unique_ids_insert_one c doc :
  unique_ids (insert_one c doc)
  ↔ unique_ids c ∧ ∀ d, d ∈ c → d !! "id" ≠ doc !! "id".
Proof.
  unfold unique_ids, insert_one. rewrite fmap_app, NoDup_app.
  change ((λ d : Document, d !! "id") <$> [doc]) with [doc !! "id"]. split.
  - intros (Hc & Hno & _). split; [done |]. intros d Hd Heq.
    apply (Hno (d !! "id")).
    + by apply (list_elem_of_fmap_2 (λ doc : Document, doc !! "id")).
    + rewrite Heq. left.
  - intros [Hc Hno]. split_and!; [done | | apply NoDup_singleton].
    intros x (d & -> & Hd)%list_elem_of_fmap Heq%list_elem_of_singleton.
    by apply (Hno d).
Qed.

(** X14. The handlers keep the ids of a collection distinct.  On a store
    in which no two boards and no two tasks share their [id],
    [update_board], [delete_board], [update_task], [move_task] and
    [delete_task] leave such a store, whatever their arguments.
    [create_board] leaves one exactly when the UUID it draws is the id of
    no stored board, and [create_task] under a stored board exactly when
    the UUID is the id of no stored task: the handlers do not look the new
    id up. *)
Theorem unique_ids_kept env w :
  unique_ids (boards (db w)) → unique_ids (tasks (db w)) →
  (∀ board_id board_update,
     unique_ids (boards (db (run env (update_board board_id board_update) w).2))
     ∧ unique_ids (tasks (db (run env (update_board board_id board_update) w).2)))
  ∧ (∀ board_id,
       unique_ids (boards (db (run env (delete_board board_id) w).2))
       ∧ unique_ids (tasks (db (run env (delete_board board_id) w).2)))
  ∧ (∀ task_id task_update,
       unique_ids (boards (db (run env (update_task task_id task_update) w).2))
       ∧ unique_ids (tasks (db (run env (update_task task_id task_update) w).2)))
  ∧ (∀ task_id move_data,
       unique_ids (boards (db (run env (move_task task_id move_data) w).2))
       ∧ unique_ids (tasks (db (run env (move_task task_id move_data) w).2)))
  ∧ (∀ task_id,
       unique_ids (boards (db (run env (delete_task task_id) w).2))
       ∧ unique_ids (tasks (db (run env (delete_task task_id) w).2)))
  ∧ (∀ board_data,
       unique_ids (tasks (db (run env (create_board board_data) w).2))
       ∧ (unique_ids (boards (db (run env (create_board board_data) w).2))
          ↔ ∀ doc, doc ∈ boards (db w) →
                   doc !! "id" ≠ Some (VStr (uuid4_at env (uuids_drawn w)))))
  ∧ (∀ board_id task_data,
       board_present board_id w →
       unique_ids (boards (db (run env (create_task board_id task_data) w).2))
       ∧ (unique_ids (tasks (db (run env (create_task board_id task_data) w).2))
          ↔ ∀ doc, doc ∈ tasks (db w) →
                   doc !! "id" ≠ Some (VStr (uuid4_at env (uuids_drawn w))))).
Proof.
  intros Hbs Hts. split_and!.
  - intros board_id board_update. unfold update_board. rewrite run_find_one.
    destruct (falsy _); [done |].
    rewrite run_now, run_update_one, db_run_read_board. unfold write.
    cbn [with_db db get_collection set_collection boards tasks].
    split; [| done]. eapply unique_ids_identities; [| exact Hbs].
    symmetry. by apply identities_update_one; apply lookup_update_data_None.
  - intros board_id. unfold delete_board. rewrite run_find_one.
    destruct (falsy _); [done |].
    rewrite run_delete_many, run_delete_one. unfold write.
    cbn [run with_db db get_collection set_collection boards tasks snd].
    split; [by apply unique_ids_delete_one | by apply unique_ids_delete_many].
  - intros task_id task_update. split.
    + unfold update_task. rewrite run_find_one.
      destruct (falsy _); [done |].
      by rewrite run_now, run_update_one, db_run_read_task.
    + eapply unique_ids_identities; [| exact Hts].
      symmetry. apply identities_update_task.
  - intros task_id move_data. split.
    + unfold move_task. rewrite run_find_one.
      destruct (falsy _); [done |].
      by rewrite run_now, run_update_one, db_run_read_task.
    + eapply unique_ids_identities; [| exact Hts].
      symmetry. apply identities_move_task.
  - intros task_id. unfold delete_task. rewrite run_find_one.
    destruct (falsy _); [done |].
    rewrite run_delete_one. unfold write.
    cbn [run with_db db get_collection set_collection boards tasks snd].
    split; [done | by apply unique_ids_delete_one].
  - intros board_data. rewrite run_create_board.
    cbn [snd after_create db boards tasks]. split; [done |].
    change (boards (db w) ++ [?d]) with (insert_one (boards (db w)) d).
    rewrite unique_ids_insert_one, board_doc_id.
    split; [by intros [_ ?] | by split].
  - intros board_id task_data Hp. rewrite run_create_task by done.
    cbn [snd after_create db boards tasks]. split; [done |].
    change (tasks (db w) ++ [?d]) with (insert_one (tasks (db w)) d).
    rewrite unique_ids_insert_one, task_doc_id.
    split; [by intros [_ ?] | by split].
Qed.

(** ** The serialization helpers *)

(** X16. [prepare_for_mongo] keeps the keys of the dictionary, replaces a
    datetime under any key, not only under the three timestamp keys, by
    its ISO string, and leaves strings and nulls as they are; so its
    result holds no datetime and a second pass changes nothing. *)
Theorem prepare_for_mongo_no_datetime data :
  (∀ k, is_Some (prepare_for_mongo data !! k) ↔ is_Some (data !! k))
  ∧ (∀ k d,
       data !! k = Some (VDatetime d) →
       prepare_for_mongo data !! k = Some (VStr (isoformat d)))
  ∧ (∀ k v,
       data !! k = Some v → (∀ d, v ≠ VDatetime d) →
       prepare_for_mongo data !! k = Some v)
  ∧ (∀ k d, prepare_for_mongo data !! k ≠ Some (VDatetime d))
  ∧ prepare_for_mongo (prepare_for_mongo data) = prepare_for_mongo data.
Proof.
  split_and!.
  - intros k. rewrite lookup_prepare. apply fmap_is_Some.
  - intros k d Hk. by rewrite lookup_prepare, Hk.
  - intros k v Hk Hv. rewrite lookup_prepare, Hk.
    destruct v as [| s | d]; [done | done | by destruct (Hv d)].
  - intros k d. rewrite lookup_prepare.
    by destruct (data !! k) as [[| s | d'] |].
  - apply map_eq. intros k. rewrite !lookup_prepare.
    by destruct (data !! k) as [[| s | d'] |].
Qed.

(** X17. [parse_from_mongo] returns [None] for [None].  In a dictionary
    it keeps the keys and touches only strings under [created_at],
    [updated_at] and [due_date]: such a string becomes the datetime it
    denotes, and stays the string when [fromisoformat] refuses it; values
    under other keys, nulls and datetimes stay.  A second pass changes
    nothing.  So a datetime stored under another key does not come back
    from the store: it is read as its ISO string. *)
Theorem parse_from_mongo_timestamp_keys item :
  parse_from_mongo None = None
  ∧ parse_from_mongo (Some item) = Some (parse_dict item)
  ∧ (∀ k, is_Some (parse_dict item !! k) ↔ is_Some (item !! k))
  ∧ (∀ k, k ∉ timestamp_keys → parse_dict item !! k = item !! k)
  ∧ (∀ k s d,
       k ∈ timestamp_keys → item !! k = Some (VStr s) →
       fromisoformat s = Some d →
       parse_dict item !! k = Some (VDatetime d))
  ∧ (∀ k s,
       item !! k = Some (VStr s) → fromisoformat s = None →
       parse_dict item !! k = Some (VStr s))
  ∧ (∀ k v,
       item !! k = Some v → (∀ s, v ≠ VStr s) → parse_dict item !! k = Some v)
  ∧ parse_dict (parse_dict item) = parse_dict item
  ∧ (∀ k d,
       k ∉ timestamp_keys → item !! k = Some (VDatetime d) →
       parse_dict (prepare_for_mongo item) !! k = Some (VStr (isoformat d))).
Proof.
  split_and!; [done | done | | | | | | |].
  - intros k. rewrite lookup_parse_dict. apply fmap_is_Some.
  - intros k Hk. rewrite lookup_parse_dict.
    destruct (item !! k) as [[| s | d] |]; [done | | done | done].
    cbn. by rewrite bool_decide_eq_false_2.
  - intros k s d Hk Hs Hd. rewrite lookup_parse_dict, Hs. cbn.
    by rewrite bool_decide_eq_true_2, Hd.
  - intros k s Hs Hd. rewrite lookup_parse_dict, Hs. cbn. rewrite Hd.
    by destruct (bool_decide _).
  - intros k v Hk Hv. rewrite lookup_parse_dict, Hk.
    destruct v as [| s | d]; [done | by destruct (Hv s) | done].
  - apply map_eq. intros k. rewrite !lookup_parse_dict.
    destruct (item !! k) as [[| s | d] |]; [done | | done | done].
    cbn. destruct (bool_decide (k ∈ timestamp_keys)) eqn:Hk; cbn.
    + destruct (fromisoformat s) as [d |] eqn:Hd; cbn; [done |].
      by rewrite Hk, Hd.
    + by rewrite Hk.
  - intros k d Hk Hd. rewrite lookup_parse_dict, lookup_prepare, Hd. cbn.
    by rewrite bool_decide_eq_false_2.
Qed.

(** ** Bodies of the update routes *)

(** X18. [PUT /tasks/{task_id}] answers 422 and changes nothing, whether
    the task is stored or not, when the priority or the column of the body
    is a string other than the tokens of the enumeration.  Both update
    routes ignore the fields of the body that their model does not
    declare, and a body that holds none of the declared fields runs the
    handler with the update that supplies nothing. *)
Theorem put_bodies env w :
  (∀ task_id json s,
     json !! "priority" = Some (VStr s) → TaskPriority.of_value s = None →
     run env (put_task task_id json) w = (Raised RequestValidationError, w))
  ∧ (∀ task_id json s,
       json !! "column" = Some (VStr s) → TaskColumn.of_value s = None →
       run env (put_task task_id json) w = (Raised RequestValidationError, w))
  ∧ (∀ task_id json key,
       key ∉ ["title"; "description"; "priority"; "column"; "due_date"] →
       run env (put_task task_id (delete key json)) w
       = run env (put_task task_id json) w)
  ∧ (∀ board_id json key,
       key ∉ ["name"; "description"] →
       run env (put_board board_id (delete key json)) w
       = run env (put_board board_id json) w)
  ∧ (∀ task_id json,
       (∀ key, key ∈ ["title"; "description"; "priority"; "column"; "due_date"] →
               json !! key = None) →
       run env (put_task task_id json) w
       = run env (update_task task_id
                    {| TaskUpdate_title := None; TaskUpdate_description := None;
                       TaskUpdate_priority := None; TaskUpdate_column := None;
                       TaskUpdate_due_date := None |}) w)
  ∧ (∀ board_id json,
       (∀ key, key ∈ ["name"; "description"] → json !! key = None) →
       run env (put_board board_id json) w
       = run env (update_board board_id
                    {| BoardUpdate_name := None;
                       BoardUpdate_description := None |}) w).
Proof.
  split_and!.
  - intros task_id json s Hs Hnone. unfold put_task, TaskUpdate_init, field.
    rewrite Hs. cbn [validate_optional_priority]. rewrite Hnone.
    destruct (json !! "title") as [[] |]; try done;
      destruct (json !! "description") as [[] |]; done.
  - intros task_id json s Hs Hnone. unfold put_task, TaskUpdate_init, field.
    rewrite Hs. cbn [validate_optional_column]. rewrite Hnone.
    destruct (json !! "title") as [[] |]; try done;
      destruct (json !! "description") as [[] |]; try done;
      destruct (json !! "priority") as [[| p |] |]; try done;
      cbn [validate_optional_priority];
      destruct (TaskPriority.of_value p); done.
  - intros task_id json key. rewrite !not_elem_of_cons.
    intros (? & ? & ? & ? & ? & _). unfold put_task, TaskUpdate_init.
    by rewrite !(field_delete_other json key).
  - intros board_id json key. rewrite !not_elem_of_cons.
    intros (? & ? & _). unfold put_board, BoardUpdate_init.
    by rewrite !(field_delete_other json key).
  - intros task_id json Hnone. unfold put_task, TaskUpdate_init, field.
    rewrite !Hnone; [done | | | | |]; rewrite !elem_of_cons; auto 10.
  - intros board_id json Hnone. unfold put_board, BoardUpdate_init, field.
    rewrite !Hnone; [done | |]; rewrite !elem_of_cons; auto.
Qed.

(** ** Documents that are not boards *)

Lemma run_Board_init_no_name env kw w :
  kw !! "name" = None →
  (run env (Board_init (Some kw)) w).1 = Raised ValidationError.
Proof.
  intros Hname. unfold Board_init, field. rewrite Hname.
  destruct (kw !! "id") as [v |]; [destruct (validate_str v) |];
  (destruct (kw !! "description") as [v1 |];
     [destruct (validate_optional_str v1) |]);
  (destruct (kw !! "created_at") as [v2 |];
     [destruct (validate_datetime v2) |]);
  (destruct (kw !! "updated_at") as [v3 |];
     [destruct (validate_datetime v3) |]);
  reflexivity.
Qed.

(** X19. The reading handlers rebuild a [Board] from each document and
    do not skip a document that is not one.  When the first document of
    [db.boards] that is not the document of a board has no [name],
    [get_boards] raises the validation error of the model and returns no
    board at all; [get_board] raises it, and not 404, when such a document
    is the first with the id.  Neither writes. *)
Theorem board_without_name env w bs doc rest :
  boards (db w) = (board_doc <$> bs) ++ doc :: rest →
  doc !! "name" = None →
  (run env get_boards w).1 = Raised ValidationError
  ∧ db (run env get_boards w).2 = db w
  ∧ (∀ board_id,
       doc !! "id" = Some (VStr board_id) →
       (∀ b, b ∈ bs → Board_id b ≠ board_id) →
       (run env (get_board board_id) w).1 = Raised ValidationError
       ∧ db (run env (get_board board_id) w).2 = db w).
Proof.
  intros Hbs Hname.
  assert (parse_dict doc !! "name" = None) as Hparsed.
  { by rewrite lookup_parse_dict, Hname. }
  split_and!.
  - unfold get_boards. rewrite run_find. cbn [get_collection].
    unfold find_all. rewrite filter_all by (intros; apply matches_empty).
    rewrite Hbs. clear Hbs. induction bs as [| b bs IH].
    + cbn [fmap list_fmap app for_each]. rewrite run_bind.
      pose proof (run_Board_init_no_name env (parse_dict doc) w Hparsed) as Hr.
      cbn [parse_from_mongo].
      by destruct (run env (Board_init (Some (parse_dict doc))) w) as [[] ?];
        cbn in Hr; simplify_eq.
    + rewrite fmap_cons. cbn [app for_each].
      rewrite run_bind, run_Board_init_doc, run_bind.
      by destruct (run env (for_each _ _) w) as [[] ?]; cbn in IH; simplify_eq.
  - apply no_write_db. unfold get_boards. apply no_write_bind.
    + constructor. intros. constructor.
    + intros. apply no_write_for_each. intros. apply no_write_Board_init.
  - intros board_id Hid Hno. split.
    + unfold get_board. rewrite run_find_one, falsy_find_one.
      cbn [get_collection]. rewrite Hbs, find_one_split.
      * rewrite bool_decide_eq_false_2 by done.
        by apply run_Board_init_no_name.
      * by apply no_board_matches.
      * rewrite matches_singleton. by apply bool_decide_eq_true_2.
    + apply no_write_db. unfold get_board. apply no_write_bind.
      * constructor. intros. constructor.
      * intros. apply no_write_if_falsy. apply no_write_Board_init.
Qed.

(** ** Creating and deleting *)

Lemma matches_id_absent c x :
  (∀ doc, doc ∈ c → doc !! "id" ≠ Some (VStr x)) →
  ∀ d, d ∈ c → matches {[ "id" := VStr x ]} d = false.
Proof.
  intros Hc d Hd. rewrite matches_singleton.
  apply bool_decide_eq_false_2. by apply Hc.
Qed.

(** X20. Deleting what was just created gives the collections back.
    After [create_task] under a stored board, with a UUID that is the id
    of no stored task, [delete_task] of the new id succeeds and both
    collections are as before the two calls.  After [create_board], with
    a UUID that is the id of no stored board, [delete_board] of the new id
    succeeds and the boards are as before; the tasks are as before up to
    those that carried the new id as their [board_id], which the cascade
    removes. *)
Theorem create_then_delete env w :
  (∀ board_id task_data,
     board_present board_id w →
     (∀ doc, doc ∈ tasks (db w) →
             doc !! "id" ≠ Some (VStr (uuid4_at env (uuids_drawn w)))) →
     ∃ t w1 w2,
       run env (create_task board_id task_data) w = (Returned t, w1)
       ∧ run env (delete_task (Task_id t)) w1
         = (Returned {[ "message" := VStr "Task deleted successfully" ]}, w2)
       ∧ tasks (db w2) = tasks (db w)
       ∧ boards (db w2) = boards (db w))
  ∧ (∀ board_data,
       (∀ doc, doc ∈ boards (db w) →
               doc !! "id" ≠ Some (VStr (uuid4_at env (uuids_drawn w)))) →
       ∃ b w1 w2,
         run env (create_board board_data) w = (Returned b, w1)
         ∧ run env (delete_board (Board_id b)) w1
           = (Returned {[ "message" := VStr "Board deleted successfully" ]}, w2)
         ∧ boards (db w2) = boards (db w)
         ∧ tasks (db w2)
           = filter (λ doc, doc !! "board_id" ≠ Some (VStr (Board_id b)))
               (tasks (db w))
         ∧ ((∀ doc, doc ∈ tasks (db w) →
                    doc !! "board_id" ≠ Some (VStr (Board_id b))) →
            tasks (db w2) = tasks (db w))).
Proof.
  split.
  - intros board_id task_data Hp Hfresh.
    pose proof (matches_id_absent _ _ Hfresh) as Hno.
    assert (matches {[ "id" := VStr (uuid4_at env (uuids_drawn w)) ]}
              (task_doc (Task_created env w board_id task_data)) = true) as Hm.
    { rewrite matches_id_task_doc. by apply bool_decide_eq_true_2. }
    do 3 eexists. split; [by apply run_create_task |].
    unfold delete_task. rewrite run_find_one, falsy_find_one.
    cbn [get_collection after_create db tasks Task_created Task_id].
    rewrite find_one_split by done.
    rewrite bool_decide_eq_false_2 by done. rewrite run_delete_one.
    unfold write, with_db.
    cbn [get_collection set_collection after_create run db tasks boards].
    rewrite delete_one_split by done. by rewrite app_nil_r.
  - intros board_data Hfresh.
    pose proof (matches_id_absent _ _ Hfresh) as Hno.
    assert (matches {[ "id" := VStr (uuid4_at env (uuids_drawn w)) ]}
              (board_doc (Board_created env w board_data)) = true) as Hm.
    { rewrite matches_id_board_doc. by apply bool_decide_eq_true_2. }
    do 3 eexists. split; [by apply run_create_board |].
    unfold delete_board. rewrite run_find_one, falsy_find_one.
    cbn [get_collection after_create db boards Board_created Board_id].
    rewrite find_one_split by done.
    rewrite bool_decide_eq_false_2 by done.
    rewrite run_delete_many, run_delete_one. unfold write, with_db.
    cbn [get_collection set_collection after_create run db tasks boards].
    rewrite delete_one_split by done. rewrite app_nil_r, delete_many_filter.
    split_and!; [done | done | done |].
    intros Hnone. by apply filter_all.
Qed.

End Kanban_more.

Local Open Scope list_scope.

(** * The properties at the example store *)

(** The text of some datetimes, and some texts that are not read. *)
Example isoformat_epoch :
  isoformat Example.epoch = "2024-01-01T00:00:00+00:00".
Proof. reflexivity. Qed.

Example isoformat_micros_offset :
  Iso8601.format
    {| Iso8601.year := 1999; Iso8601.month := 12; Iso8601.day := 31;
       Iso8601.hour := 23; Iso8601.minute := 59; Iso8601.second := 7;
       Iso8601.microsecond := 120; Iso8601.utcoffset := Some (-330)%Z |}
  = "1999-12-31T23:59:07.000120-05:30".
Proof. reflexivity. Qed.

Example fromisoformat_naive :
  Iso8601.fields_of <$> fromisoformat "2025-02-28T04:05:06"
  = Some {| Iso8601.year := 2025; Iso8601.month := 2; Iso8601.day := 28;
            Iso8601.hour := 4; Iso8601.minute := 5; Iso8601.second := 6;
            Iso8601.microsecond := 0; Iso8601.utcoffset := None |}.
Proof. reflexivity. Qed.

Example fromisoformat_no_such_day :
  fromisoformat "2025-02-29T04:05:06" = None.
Proof. reflexivity. Qed.

Example fromisoformat_not_a_date : fromisoformat "tomorrow" = None.
Proof. reflexivity. Qed.

(** The scenario of the specification, run from the empty store: a board
    is created, a high-priority task is created under it and lands in
    [todo], the listing by priority returns exactly that task, the task
    moves to [done], the board is deleted, and neither the board nor the
    task is found afterwards. *)
Example scenario_create_board :
  (run Example.env (post_boards {[ "name" := VStr "Sprint 1" ]}) Example.empty).1
  = Returned {| Board_id := "uuid-0000"; Board_name := "Sprint 1";
                Board_description := Some "";
                Board_created_at := Example.at_second 0;
                Board_updated_at := Example.at_second 1 |}.
Proof. apply (bool_decide_unpack _). vm_compute. exact I. Qed.

Example scenario_create_task :
  (run Example.env
     (post_board_tasks "uuid-0000"
        {[ "title" := VStr "Fix bug"; "priority" := VStr "high" ]})
     Example.created).1
  = Returned Example.fix_bug_created.
Proof. apply (bool_decide_unpack _). vm_compute. exact I. Qed.

Example scenario_list_high :
  (run Example.env (get_board_tasks "uuid-0000" (Some TaskPriority.high) None)
     Example.with_task).1
  = Returned [Example.fix_bug_created].
Proof. apply (bool_decide_unpack _). vm_compute. exact I. Qed.

Example scenario_list_low :
  (run Example.env (get_board_tasks "uuid-0000" (Some TaskPriority.low) None)
     Example.with_task).1
  = Returned [].
Proof. apply (bool_decide_unpack _). vm_compute. exact I. Qed.

Example scenario_move_done :
  Task_column <$>
  match (run Example.env
           (patch_task_move "uuid-0001" {[ "column" := VStr "done" ]})
           Example.with_task).1 with
  | Returned t => Some t
  | Raised _ => None
  end
  = Some TaskColumn.done.
Proof. apply (bool_decide_unpack _). vm_compute. exact I. Qed.

Example scenario_delete_board :
  (run Example.env (delete_board "uuid-0000") Example.moved).1
  = Returned {[ "message" := VStr "Board deleted successfully" ]}.
Proof. apply (bool_decide_unpack _). vm_compute. exact I. Qed.

Example scenario_board_gone :
  (run Example.env (get_board "uuid-0000") Example.deleted).1
  = Raised (HTTPException 404 "Board not found").
Proof. apply (bool_decide_unpack _). vm_compute. exact I. Qed.

Example scenario_task_gone :
  (run Example.env (get_task "uuid-0001") Example.deleted).1
  = Raised (HTTPException 404 "Task not found").
Proof. apply (bool_decide_unpack _). vm_compute. exact I. Qed.

(** Timestamps in the documents of the example store. *)
Example sprint_updated_at :
  board_doc Example.sprint !! "updated_at"
  = Some (VStr "2024-01-01T00:00:01+00:00").
Proof. apply (bool_decide_unpack _). vm_compute. exact I. Qed.

Example fix_bug_due_date :
  task_doc Example.fix_bug !! "due_date"
  = Some (VStr "2024-01-01T00:00:30+00:00").
Proof. apply (bool_decide_unpack _). vm_compute. exact I. Qed.

Example write_docs_due_date :
  task_doc Example.write_docs !! "due_date" = Some VNone.
Proof. apply (bool_decide_unpack _). vm_compute. exact I. Qed.

Lemma example_board_present : board_present "b1" Example.store.
Proof.
  exists (board_doc Example.sprint). split; [left |].
  exact (board_doc_id Example.sprint).
Qed.

Lemma example_unique_ids : unique_ids (boards (db Example.store)).
Proof.
  unfold unique_ids. cbn [Example.store db boards fmap list_fmap].
  rewrite !board_doc_id. cbn [Example.sprint Example.backlog Board_id].
  apply NoDup_cons. split; [| apply NoDup_singleton].
  apply not_elem_of_cons. split; [discriminate | apply not_elem_of_nil].
Qed.

Lemma example_no_board : ¬ board_present "b3" Example.store.
Proof.
  intros Hp%board_present_find_one. apply Hp.
  apply (find_one_no_board [Example.sprint; Example.backlog]).
  intros b Hb. repeat (apply elem_of_cons in Hb as [-> | Hb]; [done |]).
  by apply elem_of_nil in Hb.
Qed.

(** C1 at the example store: the board [b1] with its two tasks. *)
Lemma delete_board_cascade_witness :
  board_present "b1" Example.store
  ∧ unique_ids (boards (db Example.store))
  ∧ ∃ w',
      run Example.env (delete_board "b1") Example.store
      = (Returned {[ "message" := VStr "Board deleted successfully" ]}, w')
      ∧ (∀ doc, doc ∈ tasks (db w') → doc !! "board_id" ≠ Some (VStr "b1"))
      ∧ run Example.env (get_board "b1") w'
        = (Raised (HTTPException 404 "Board not found"), w').
Proof.
  split; [exact example_board_present |].
  split; [exact example_unique_ids |].
  destruct (delete_board_cascade Example.env Example.store "b1") as [Hdel _].
  destruct (Hdel example_board_present example_unique_ids)
    as (w' & Hrun & _ & _ & Hnone & _ & Hget).
  exists w'. exact (conj Hrun (conj Hnone Hget)).
Defined.

Lemma example_tasks :
  tasks (db Example.store)
  = task_doc <$> ([] ++ Example.fix_bug :: [Example.write_docs; Example.review]).
Proof. reflexivity. Qed.

Lemma example_boards :
  boards (db Example.store)
  = board_doc <$> ([] ++ Example.sprint :: [Example.backlog]).
Proof. reflexivity. Qed.

Lemma example_first_task t0 : t0 ∈ @nil Task → Task_id t0 ≠ "t1".
Proof. by intros ?%elem_of_nil. Qed.

Lemma example_first_board b0 : b0 ∈ @nil Board → Board_id b0 ≠ "b1".
Proof. by intros ?%elem_of_nil. Qed.

(** C2 at the example store: the high-priority tasks of [b1] in [todo]. *)
Lemma get_board_tasks_filters_witness :
  board_present "b1" Example.store
  ∧ tasks (db Example.store)
    = task_doc <$> [Example.fix_bug; Example.write_docs; Example.review]
  ∧ ∃ result,
      run Example.env
        (get_board_tasks "b1" (Some TaskPriority.high) (Some TaskColumn.todo))
        Example.store
      = (Returned result, Example.store)
      ∧ Example.review ∈ result
      ∧ (Example.fix_bug ∉ result)
      ∧ (Example.write_docs ∉ result).
Proof.
  split; [exact example_board_present |]. split; [reflexivity |].
  destruct (get_board_tasks_filters Example.env Example.store "b1") as [Hlist _].
  destruct (Hlist [Example.fix_bug; Example.write_docs; Example.review]
              (Some TaskPriority.high) (Some TaskColumn.todo)
              example_board_present eq_refl) as (result & Hrun & _ & Hin).
  exists result. split; [exact Hrun |]. split_and!.
  - apply Hin. split_and!; [| done | by intros p [= <-] | by intros c [= <-]].
    do 2 right. left.
  - intros Hfix. apply Hin in Hfix as (_ & _ & _ & Hcol).
    by specialize (Hcol _ eq_refl).
  - intros Hdocs. by apply Hin in Hdocs as (_ & Hb & _).
Defined.

(** C3 at the example store: no board [b3]. *)
Lemma create_task_board_absent_witness :
  ¬ board_present "b3" Example.store
  ∧ ∀ task_data,
      run Example.env (create_task "b3" task_data) Example.store
      = (Raised (HTTPException 404 "Board not found"), Example.store).
Proof.
  split; [exact example_no_board |].
  exact (proj1 (create_task_board_absent Example.env Example.store "b3"
                  example_no_board)).
Defined.

(** C5 at the example store: the task [t1] goes from [done] back to
    [todo]. *)
Lemma move_task_any_column_witness :
  tasks (db Example.store)
  = task_doc <$> ([] ++ Example.fix_bug :: [Example.write_docs; Example.review])
  ∧ Task_id Example.fix_bug = "t1"
  ∧ Task_column Example.fix_bug = TaskColumn.done
  ∧ ∃ t' w',
      run Example.env (move_task "t1" {| TaskMove_column := TaskColumn.todo |})
        Example.store
      = (Returned t', w')
      ∧ Task_column t' = TaskColumn.todo
      ∧ run Example.env (get_task "t1") w' = (Returned t', w').
Proof.
  split; [exact example_tasks |]. split; [reflexivity |]. split; [reflexivity |].
  destruct (move_task_any_column Example.env Example.store "t1" TaskColumn.todo)
    as [Hmove _].
  destruct (Hmove [] Example.fix_bug [Example.write_docs; Example.review]
              example_tasks eq_refl example_first_task)
    as (t' & w' & Hrun & _ & Hcol & _ & _ & _ & Hget).
  exists t', w'. exact (conj Hrun (conj Hcol Hget)).
Defined.

Lemma example_clock_stamped : clock_stamped Example.env Example.store.
Proof.
  unfold clock_stamped. cbn [Example.store db boards clock_reads].
  apply Forall_cons. split.
  { exists 1%nat. split; [lia |]. exact (board_doc_updated_at Example.sprint). }
  apply Forall_cons. split; [| apply Forall_nil_2].
  exists 3%nat. split; [lia |]. exact (board_doc_updated_at Example.backlog).
Qed.

Lemma example_clock_steady :
  steady_until Example.env (clock_reads Example.store).
Proof.
  intros i j Hij Hj. cbn [Example.store clock_reads] in Hj.
  do 11 (destruct j as [| j];
         [do 11 (destruct i as [| i];
                 [first [exfalso; lia | vm_compute; discriminate] |]);
          exfalso; lia |]).
  exfalso. lia.
Qed.

(** C6 as amended, at the example store: a new description for [b1],
    whose [updated_at] was the second reading of a clock that has not been
    set back. *)
Lemma update_board_partial_witness :
  boards (db Example.store)
  = board_doc <$> ([] ++ Example.sprint :: [Example.backlog])
  ∧ Board_id Example.sprint = "b1"
  ∧ clock_stamped Example.env Example.store
  ∧ steady_until Example.env (clock_reads Example.store)
  ∧ ∃ b' w',
      run Example.env
        (update_board "b1" {| BoardUpdate_name := None;
                              BoardUpdate_description := Some "week 1" |})
        Example.store
      = (Returned b', w')
      ∧ Board_name b' = "Sprint 1"
      ∧ Board_description b' = Some "week 1"
      ∧ Board_updated_at b' = Example.at_second 10
      ∧ clock_stamped Example.env w'
      ∧ datetime_le (Board_updated_at Example.sprint) (Board_updated_at b').
Proof.
  split; [exact example_boards |]. split; [reflexivity |].
  split; [exact example_clock_stamped |].
  split; [exact example_clock_steady |].
  destruct (update_board_partial Example.env Example.store "b1"
              {| BoardUpdate_name := None;
                 BoardUpdate_description := Some "week 1" |}
              [] Example.sprint [Example.backlog]
              example_boards eq_refl example_first_board)
    as (b' & w' & Hrun & _ & _ & _ & _ & _ & Hname & Hdesc & _ & Hnow & _
        & Hstamped & Hle).
  exists b', w'.
  exact (conj Hrun
           (conj (Hname eq_refl)
              (conj (Hdesc _ eq_refl)
                 (conj Hnow
                    (conj (Hstamped example_clock_stamped)
                       (Hle example_clock_stamped example_clock_steady)))))).
Defined.

(** C6 fails as stated: under a clock that is set back between the
    creation of a board and its update, [PUT /boards/{board_id}] with a
    description only keeps the name and moves [updated_at] from second 50
    back to second 10. *)
Lemma updated_at_goes_back :
  ∃ b w1 b' w2,
    run Example.clock_set_back (post_boards {[ "name" := VStr "Sprint 1" ]})
      Example.empty
    = (Returned b, w1)
    ∧ run Example.clock_set_back
        (put_board (Board_id b) {[ "description" := VStr "week 1" ]}) w1
      = (Returned b', w2)
    ∧ Board_name b' = Board_name b
    ∧ Board_updated_at b = Example.at_second 50
    ∧ Board_updated_at b' = Example.at_second 10
    ∧ ¬ datetime_le (Board_updated_at b) (Board_updated_at b').
Proof.
  set (board_data := {| BoardCreate_name := "Sprint 1";
                        BoardCreate_description := Some "" |}).
  set (board_update := {| BoardUpdate_name := None;
                          BoardUpdate_description := Some "week 1" |}).
  set (b := Board_created Example.clock_set_back Example.empty board_data).
  set (w1 := after_create Example.empty
               {| boards := boards (db Example.empty) ++ [board_doc b];
                  tasks := tasks (db Example.empty) |}).
  assert (run Example.clock_set_back
            (post_boards {[ "name" := VStr "Sprint 1" ]}) Example.empty
          = (Returned b, w1)) as Hcreate.
  { rewrite (run_post_boards _ _ _ "Sprint 1" (Some ""));
      [apply run_create_board | reflexivity | left; by split]. }
  assert (run Example.clock_set_back
            (put_board (Board_id b) {[ "description" := VStr "week 1" ]}) w1
          = run Example.clock_set_back (update_board (Board_id b) board_update)
              w1) as Hbody by reflexivity.
  assert (boards (db w1) = board_doc <$> ([] ++ b :: [])) as Hbs
    by reflexivity.
  assert (∀ b0, b0 ∈ @nil Board → Board_id b0 ≠ Board_id b) as Hfirst.
  { intros b0 Hb0. destruct (not_elem_of_nil _ Hb0). }
  pose proof (run_update_board Example.clock_set_back w1 [] b [] board_update
                Hbs Hfirst) as Hupdate.
  exists b, w1. do 2 eexists.
  split; [exact Hcreate |].
  split; [rewrite Hbody; exact Hupdate |].
  split; [reflexivity |]. split; [reflexivity |]. split; [reflexivity |].
  intros Hle. vm_compute in Hle. exact (Hle eq_refl).
Qed.

(** C4 fails as stated: [POST /boards] with the empty string as name
    creates and stores a board whose name is empty. *)
Lemma empty_board_name_accepted :
  ∃ b w',
    run Example.env (post_boards {[ "name" := VStr "" ]}) Example.empty
    = (Returned b, w')
    ∧ Board_name b = ""
    ∧ boards (db w') = [board_doc b]
    ∧ board_doc b !! "name" = Some (VStr "").
Proof.
  do 2 eexists. split.
  - rewrite (run_post_boards _ _ _ "" (Some "")); [apply run_create_board | |].
    + reflexivity.
    + left. by split.
  - split; [reflexivity |]. split; [reflexivity |].
    unfold board_doc. rewrite lookup_prepare. reflexivity.
Qed.

(** C4 as amended, at the example: a body without name is refused, a body
    with a name and a null description is stored, and an update to the
    empty name is stored. *)
Lemma board_name_required_not_nonempty_witness :
  run Example.env (post_boards ∅) Example.store
  = (Raised RequestValidationError, Example.store)
  ∧ (∃ b w',
       run Example.env
         (post_boards {[ "name" := VStr "Sprint 2"; "description" := VNone ]})
         Example.store
       = (Returned b, w')
       ∧ Board_name b = "Sprint 2" ∧ Board_description b = None)
  ∧ (∃ b' w',
       run Example.env
         (update_board "b1" {| BoardUpdate_name := Some "";
                               BoardUpdate_description := None |})
         Example.store
       = (Returned b', w')
       ∧ Board_name b' = "").
Proof.
  destruct (board_name_required_not_nonempty Example.env Example.store)
    as (Hmissing & Hgiven & Hupdate).
  split; [apply Hmissing; by left |]. split.
  - assert (({[ "name" := VStr "Sprint 2"; "description" := VNone ]}
               : gmap string value) !! "name" = Some (VStr "Sprint 2"))
      as Hname' by reflexivity.
    assert (description_given
              {[ "name" := VStr "Sprint 2"; "description" := VNone ]} None)
      as Hdesc' by (right; reflexivity).
    destruct (Hgiven _ "Sprint 2" None Hname' Hdesc')
      as (b & w' & Hrun & Hname & Hdesc & _).
    exists b, w'. exact (conj Hrun (conj Hname Hdesc)).
  - destruct (Hupdate [] Example.sprint [Example.backlog] "" None
                example_boards example_first_board)
      as (b' & w' & Hrun & Hname & _).
    exists b', w'. exact (conj Hrun Hname).
Defined.

(** C7 at the example store: the task [t1] keeps its id and its board
    through an update of every field and a move. *)
Lemma task_id_board_id_immutable_witness :
  tasks (db Example.store)
  = task_doc <$> ([] ++ Example.fix_bug :: [Example.write_docs; Example.review])
  ∧ ∃ t1 t2,
      (run Example.env
         (update_task "t1"
            {| TaskUpdate_title := Some "Fix it";
               TaskUpdate_description := Some "now";
               TaskUpdate_priority := Some TaskPriority.low;
               TaskUpdate_column := Some TaskColumn.in_progress;
               TaskUpdate_due_date := Some (Example.at_second 59) |})
         Example.store).1 = Returned t1
      ∧ (run Example.env
           (move_task "t1" {| TaskMove_column := TaskColumn.in_progress |})
           Example.store).1 = Returned t2
      ∧ Task_id t1 = "t1" ∧ Task_board_id t1 = "b1"
      ∧ Task_id t2 = "t1" ∧ Task_board_id t2 = "b1".
Proof.
  split; [exact example_tasks |].
  destruct (task_id_board_id_immutable Example.env Example.store "t1")
    as (_ & _ & _ & _ & Hkept).
  exact (Hkept [] Example.fix_bug [Example.write_docs; Example.review] _ _
           example_tasks eq_refl example_first_task).
Defined.

Lemma example_fresh_uuid doc :
  doc ∈ tasks (db Example.store) →
  doc !! "id"
  ≠ Some (VStr (uuid4_at Example.env (uuids_drawn Example.store))).
Proof.
  intros Hdoc.
  repeat (apply elem_of_cons in Hdoc as [-> | Hdoc];
          [rewrite task_doc_id; intros [= Hid]; vm_compute in Hid; discriminate |]).
  by apply elem_of_nil in Hdoc.
Qed.

(** C8 at the example store: a task created with a due date is read back
    with it. *)
Lemma timestamps_round_trip_witness :
  board_present "b1" Example.store
  ∧ ∃ t w',
      run Example.env
        (create_task "b1"
           {| TaskCreate_title := "Deploy"; TaskCreate_description := Some "";
              TaskCreate_priority := TaskPriority.medium;
              TaskCreate_due_date := Some (Example.at_second 45) |})
        Example.store
      = (Returned t, w')
      ∧ Task_due_date t = Some (Example.at_second 45)
      ∧ run Example.env (get_task (Task_id t)) w' = (Returned t, w').
Proof.
  split; [exact example_board_present |].
  destruct (timestamps_round_trip Example.env Example.store) as (_ & _ & Hread).
  exact (Hread "b1" _ example_board_present example_fresh_uuid).
Defined.

Lemma example_backlog_present w :
  boards (db w) = boards (db Example.store) → board_present "b2" w.
Proof.
  intros Hb. exists (board_doc Example.backlog). rewrite Hb. split.
  - right. left.
  - exact (board_doc_id Example.backlog).
Qed.

(** C9 fails as stated: cut off between its two deletions, [delete_board]
    leaves the board [b1] stored with none of the tasks it had, and no
    task without its board. *)
Lemma board_left_without_its_tasks :
  (∃ doc, doc ∈ tasks (db Example.store)
          ∧ doc !! "board_id" = Some (VStr "b1"))
  ∧ board_present "b1"
      (run_prefix Example.env 2 (delete_board "b1") Example.store)
  ∧ (∀ doc,
       doc ∈ tasks (db (run_prefix Example.env 2 (delete_board "b1")
                          Example.store)) →
       doc !! "board_id" ≠ Some (VStr "b1"))
  ∧ (∀ doc,
       doc ∈ tasks (db (run_prefix Example.env 2 (delete_board "b1")
                          Example.store)) →
       ∃ other,
         doc !! "board_id" = Some (VStr other)
         ∧ board_present other
             (run_prefix Example.env 2 (delete_board "b1") Example.store)).
Proof.
  rewrite run_prefix_delete_board_tasks by exact example_board_present.
  split_and!.
  - exists (task_doc Example.fix_bug). split; [left |].
    exact (task_doc_board_id Example.fix_bug).
  - exists (board_doc Example.sprint). split; [left |].
    exact (board_doc_id Example.sprint).
  - intros doc. rewrite tasks_deleted_tasks.
    by intros [? _]%list_elem_of_filter.
  - intros doc. rewrite tasks_deleted_tasks.
    intros [Hnot Hdoc]%list_elem_of_filter.
    apply elem_of_cons in Hdoc as [-> | Hdoc];
      [by rewrite task_doc_board_id in Hnot |].
    apply elem_of_cons in Hdoc as [-> | Hdoc].
    { exists "b2". split; [exact (task_doc_board_id Example.write_docs) |].
      by apply example_backlog_present. }
    apply elem_of_cons in Hdoc as [-> | Hdoc];
      [by rewrite task_doc_board_id in Hnot |].
    by apply elem_of_nil in Hdoc.
Qed.

(** C9 as amended, at the example store. *)
Lemma delete_board_tasks_before_board_witness :
  board_present "b1" Example.store
  ∧ run_prefix Example.env 1 (delete_board "b1") Example.store = Example.store
  ∧ boards (db (run_prefix Example.env 2 (delete_board "b1") Example.store))
    = boards (db Example.store)
  ∧ board_present "b1"
      (run_prefix Example.env 2 (delete_board "b1") Example.store).
Proof.
  split; [exact example_board_present |].
  destruct (delete_board_tasks_before_board Example.env Example.store "b1"
              example_board_present)
    as (_ & Hfirst & -> & _ & _ & Hboards & _ & Hpresent & _).
  exact (conj Hfirst (conj Hboards Hpresent)).
Defined.



(** ** Further properties at the example store *)

Lemma example_all_boards :
  boards (db Example.store) = board_doc <$> [Example.sprint; Example.backlog].
Proof. reflexivity. Qed.

Lemma example_all_tasks :
  tasks (db Example.store)
  = task_doc <$> [Example.fix_bug; Example.write_docs; Example.review].
Proof. reflexivity. Qed.

Ltac example_elements H :=
  repeat (apply elem_of_cons in H as [-> | H];
          [let Hid := fresh in intros Hid; vm_compute in Hid; discriminate |]);
  by apply elem_of_nil in H.

Lemma example_no_board_b3 b :
  b ∈ [Example.sprint; Example.backlog] → Board_id b ≠ "b3".
Proof. intros Hb. example_elements Hb. Qed.

Lemma example_no_task_t9 t :
  t ∈ [Example.fix_bug; Example.write_docs; Example.review] → Task_id t ≠ "t9".
Proof. intros Ht. example_elements Ht. Qed.

Lemma example_fresh_board_uuid b :
  b ∈ [Example.sprint; Example.backlog] →
  Board_id b ≠ uuid4_at Example.env (uuids_drawn Example.store).
Proof. intros Hb. example_elements Hb. Qed.

Lemma example_unique_task_ids : unique_ids (tasks (db Example.store)).
Proof.
  unfold unique_ids. cbn [Example.store db tasks fmap list_fmap].
  rewrite !task_doc_id.
  cbn [Example.fix_bug Example.write_docs Example.review Task_id].
  repeat (apply NoDup_cons; split;
          [rewrite ?not_elem_of_cons;
           repeat (split; [discriminate |]); apply not_elem_of_nil |]).
  apply NoDup_nil_2.
Qed.

Lemma example_stored : stored Example.store.
Proof.
  split; cbn [Example.store db boards tasks];
    repeat (apply Forall_cons; split; [by eexists |]); apply Forall_nil_2.
Qed.

(** X1 at the example store. *)
Lemma get_boards_lists_all_witness :
  boards (db Example.store) = board_doc <$> [Example.sprint; Example.backlog]
  ∧ run Example.env get_boards Example.store
    = (Returned [Example.sprint; Example.backlog], Example.store).
Proof.
  split; [exact example_all_boards |].
  exact (proj1 (get_boards_lists_all Example.env Example.store)
           _ example_all_boards).
Defined.

(** X2 at the example store: the board [b2] is found behind [b1], and
    there is no board [b3]. *)
Lemma get_board_first_or_404_witness :
  boards (db Example.store) = board_doc <$> [Example.sprint; Example.backlog]
  ∧ run Example.env (get_board "b2") Example.store
    = (Returned Example.backlog, Example.store)
  ∧ run Example.env (get_board "b3") Example.store
    = (Raised (HTTPException 404 "Board not found"), Example.store).
Proof.
  split; [exact example_all_boards |].
  destruct (get_board_first_or_404 Example.env Example.store "b2" _
              example_all_boards) as [Hfound _].
  destruct (get_board_first_or_404 Example.env Example.store "b3" _
              example_all_boards) as [_ [_ Habsent]].
  split.
  - apply (Hfound [Example.sprint] Example.backlog [] eq_refl eq_refl).
    intros b0 Hb0. example_elements Hb0.
  - exact (Habsent example_no_board_b3).
Defined.

(** X3 at the example store: the task [t3] is found behind the two others,
    and there is no task [t9]. *)
Lemma get_task_first_or_404_witness :
  tasks (db Example.store)
  = task_doc <$> [Example.fix_bug; Example.write_docs; Example.review]
  ∧ run Example.env (get_task "t3") Example.store
    = (Returned Example.review, Example.store)
  ∧ run Example.env (get_task "t9") Example.store
    = (Raised (HTTPException 404 "Task not found"), Example.store).
Proof.
  split; [exact example_all_tasks |].
  destruct (get_task_first_or_404 Example.env Example.store "t3" _
              example_all_tasks) as [Hfound _].
  destruct (get_task_first_or_404 Example.env Example.store "t9" _
              example_all_tasks) as [_ [_ Habsent]].
  split.
  - apply (Hfound [Example.fix_bug; Example.write_docs] Example.review []
             eq_refl eq_refl).
    intros t0 Ht0. example_elements Ht0.
  - exact (Habsent example_no_task_t9).
Defined.

(** X5 at the example store: a third board. *)
Lemma create_board_then_read_witness :
  boards (db Example.store) = board_doc <$> [Example.sprint; Example.backlog]
  ∧ ∃ b w',
      run Example.env
        (create_board {| BoardCreate_name := "Sprint 2";
                         BoardCreate_description := None |})
        Example.store
      = (Returned b, w')
      ∧ Board_name b = "Sprint 2"
      ∧ run Example.env (get_board (Board_id b)) w' = (Returned b, w')
      ∧ run Example.env get_boards w'
        = (Returned ([Example.sprint; Example.backlog] ++ [b]), w').
Proof.
  split; [exact example_all_boards |].
  destruct (create_board_then_read Example.env Example.store
              {| BoardCreate_name := "Sprint 2";
                 BoardCreate_description := None |}
              _ example_all_boards example_fresh_board_uuid)
    as (b & w' & Hrun & _ & Hname & _ & _ & _ & _ & _ & Hget & Hall).
  exists b, w'. exact (conj Hrun (conj Hname (conj Hget Hall))).
Defined.

(** X6 at the example store: a new task of [b1] lands in [todo] and ends
    the listing of the board. *)
Lemma create_task_then_list_witness :
  board_present "b1" Example.store
  ∧ ∃ t w',
      run Example.env
        (create_task "b1"
           {| TaskCreate_title := "Deploy"; TaskCreate_description := Some "";
              TaskCreate_priority := TaskPriority.low;
              TaskCreate_due_date := None |})
        Example.store
      = (Returned t, w')
      ∧ Task_column t = TaskColumn.todo
      ∧ run Example.env (get_board_tasks "b1" None None) w'
        = (Returned
             (filter (selected "b1" None None)
                [Example.fix_bug; Example.write_docs; Example.review] ++ [t]),
           w').
Proof.
  split; [exact example_board_present |].
  destruct (create_task_then_list Example.env Example.store "b1"
              {| TaskCreate_title := "Deploy"; TaskCreate_description := Some "";
                 TaskCreate_priority := TaskPriority.low;
                 TaskCreate_due_date := None |}
              _ example_board_present example_all_tasks)
    as (t & w' & Hrun & _ & Hcol & _ & _ & _ & _ & _ & _ & Hlist & _).
  exists t, w'. exact (conj Hrun (conj Hcol Hlist)).
Defined.

(** X7 at the example store: a body without title, and a priority that is
    no token. *)
Lemma post_board_tasks_body_witness :
  run Example.env (post_board_tasks "b1" {[ "description" := VStr "soon" ]})
    Example.store
  = (Raised RequestValidationError, Example.store)
  ∧ run Example.env
      (post_board_tasks "b1"
         {[ "title" := VStr "Deploy"; "priority" := VStr "urgent" ]})
      Example.store
    = (Raised RequestValidationError, Example.store).
Proof.
  split.
  - apply (proj1 (post_board_tasks_body Example.env Example.store "b1" _)).
    left. reflexivity.
  - destruct (post_board_tasks_body Example.env Example.store "b1"
                {[ "title" := VStr "Deploy"; "priority" := VStr "urgent" ]})
      as (_ & Hpriority & _).
    apply (Hpriority "urgent"); reflexivity.
Defined.

(** X8 at the example store: a column that is no token. *)
Lemma patch_task_move_body_witness :
  ("archived" ∉ ["todo"; "in_progress"; "done"])
  ∧ run Example.env (patch_task_move "t1" {[ "column" := VStr "archived" ]})
      Example.store
    = (Raised RequestValidationError, Example.store).
Proof.
  assert ("archived" ∉ ["todo"; "in_progress"; "done"]) as Hnot.
  { rewrite !not_elem_of_cons.
    repeat (split; [discriminate |]). apply not_elem_of_nil. }
  split; [exact Hnot |].
  destruct (patch_task_move_body Example.env Example.store "t1"
              {[ "column" := VStr "archived" ]}) as (_ & Hcolumn & _).
  exact (Hcolumn "archived" eq_refl Hnot).
Defined.

(** X9 at the example store: a new title for [t1] keeps its column and
    its due date, and there is no task [t9] to update. *)
Lemma update_task_partial_witness :
  (∃ t' w',
     run Example.env
       (update_task "t1"
          {| TaskUpdate_title := Some "Fix it"; TaskUpdate_description := None;
             TaskUpdate_priority := None; TaskUpdate_column := None;
             TaskUpdate_due_date := None |})
       Example.store
     = (Returned t', w')
     ∧ Task_title t' = "Fix it"
     ∧ Task_column t' = TaskColumn.done
     ∧ Task_due_date t' = Some (Example.at_second 30))
  ∧ ∀ task_update,
      run Example.env (update_task "t9" task_update) Example.store
      = (Raised (HTTPException 404 "Task not found"), Example.store).
Proof.
  split.
  - destruct (update_task_partial Example.env Example.store "t1"
                {| TaskUpdate_title := Some "Fix it";
                   TaskUpdate_description := None;
                   TaskUpdate_priority := None; TaskUpdate_column := None;
                   TaskUpdate_due_date := None |}) as [Hfound _].
    destruct (Hfound [] Example.fix_bug [Example.write_docs; Example.review]
                example_tasks eq_refl example_first_task)
      as (t' & w' & Hrun & _ & _ & _ & _ & _ & Htitle & _ & _ & Hcol & Hdue & _).
    exists t', w'. exact (conj Hrun (conj Htitle (conj Hcol Hdue))).
  - intros task_update.
    exact (proj2 (update_task_partial Example.env Example.store "t9" task_update)
             _ example_all_tasks example_no_task_t9).
Defined.

(** X11 at the example store: [t1] moves to [todo], then to
    [in_progress]. *)
Lemma move_task_twice_witness :
  tasks (db Example.store)
  = task_doc <$> ([] ++ Example.fix_bug :: [Example.write_docs; Example.review])
  ∧ ∃ t1 w1 t2 w2,
      run Example.env (move_task "t1" {| TaskMove_column := TaskColumn.todo |})
        Example.store
      = (Returned t1, w1)
      ∧ run Example.env
          (move_task "t1" {| TaskMove_column := TaskColumn.in_progress |}) w1
        = (Returned t2, w2)
      ∧ Task_column t2 = TaskColumn.in_progress.
Proof.
  split; [exact example_tasks |].
  destruct (move_task_twice Example.env Example.store
              [] Example.fix_bug [Example.write_docs; Example.review]
              TaskColumn.todo TaskColumn.in_progress
              example_tasks example_first_task)
    as (t1 & w1 & t2 & w2 & Hfirst & Hsecond & _ & Hcol & _).
  exists t1, w1, t2, w2. exact (conj Hfirst (conj Hsecond Hcol)).
Defined.

(** X12 at the example store: [t1] goes, [t2] and [t3] stay. *)
Lemma delete_task_removes_first_witness :
  ∃ w',
    run Example.env (delete_task "t1") Example.store
    = (Returned {[ "message" := VStr "Task deleted successfully" ]}, w')
    ∧ tasks (db w') = task_doc <$> ([] ++ [Example.write_docs; Example.review])
    ∧ run Example.env (get_task "t1") w'
      = (Raised (HTTPException 404 "Task not found"), w').
Proof.
  destruct (delete_task_removes_first Example.env Example.store "t1")
    as [Hfound _].
  destruct (Hfound [] Example.fix_bug [Example.write_docs; Example.review]
              example_tasks eq_refl example_first_task)
    as (w' & Hrun & Htasks & _ & _ & _ & Hgone & _).
  exists w'. split; [exact Hrun |]. split; [exact Htasks |].
  apply Hgone. intros t0 Ht0. example_elements Ht0.
Defined.

Lemma example_no_doc_b3 doc :
  doc ∈ boards (db Example.store) → doc !! "id" ≠ Some (VStr "b3").
Proof.
  intros Hdoc.
  repeat (apply elem_of_cons in Hdoc as [-> | Hdoc];
          [rewrite board_doc_id; intros [= Hid]; vm_compute in Hid; discriminate |]).
  by apply elem_of_nil in Hdoc.
Qed.

(** X13 at the example store: no board [b3] to update, delete or list. *)
Lemma absent_id_is_404_witness :
  (∀ board_update,
     run Example.env (update_board "b3" board_update) Example.store
     = (Raised (HTTPException 404 "Board not found"), Example.store))
  ∧ run Example.env (delete_board "b3") Example.store
    = (Raised (HTTPException 404 "Board not found"), Example.store)
  ∧ (∀ priority column,
       run Example.env (get_board_tasks "b3" priority column) Example.store
       = (Raised (HTTPException 404 "Board not found"), Example.store)).
Proof.
  exact (proj1 (absent_id_is_404 Example.env Example.store) "b3"
           example_no_doc_b3).
Defined.

Lemma example_fresh_board_doc doc :
  doc ∈ boards (db Example.store) →
  doc !! "id"
  ≠ Some (VStr (uuid4_at Example.env (uuids_drawn Example.store))).
Proof.
  intros Hdoc.
  repeat (apply elem_of_cons in Hdoc as [-> | Hdoc];
          [rewrite board_doc_id; intros [= Hid]; vm_compute in Hid; discriminate |]).
  by apply elem_of_nil in Hdoc.
Qed.

(** X14 at the example store: ids stay distinct through a deletion, a
    move and the creation of a board. *)
Lemma unique_ids_kept_witness :
  unique_ids (boards (db Example.store))
  ∧ unique_ids (tasks (db Example.store))
  ∧ unique_ids (tasks (db (run Example.env (delete_task "t2") Example.store).2))
  ∧ unique_ids
      (tasks (db (run Example.env
                    (move_task "t1" {| TaskMove_column := TaskColumn.todo |})
                    Example.store).2))
  ∧ unique_ids
      (boards (db (run Example.env
                     (create_board {| BoardCreate_name := "Sprint 2";
                                      BoardCreate_description := None |})
                     Example.store).2)).
Proof.
  split; [exact example_unique_ids |]. split; [exact example_unique_task_ids |].
  destruct (unique_ids_kept Example.env Example.store
              example_unique_ids example_unique_task_ids)
    as (_ & _ & _ & Hmove & Hdelete & Hcreate & _).
  split; [exact (proj2 (Hdelete "t2")) |].
  split; [exact (proj2 (Hmove "t1" _)) |].
  exact (proj2 (proj2 (Hcreate _)) example_fresh_board_doc).
Defined.

(** X15 at the example store. *)
Lemma stored_preserved_witness :
  stored Example.store
  ∧ stored (run Example.env (delete_board "b1") Example.store).2
  ∧ stored
      (run Example.env
         (update_task "t1"
            {| TaskUpdate_title := Some "Fix it"; TaskUpdate_description := None;
               TaskUpdate_priority := None; TaskUpdate_column := None;
               TaskUpdate_due_date := None |})
         Example.store).2.
Proof.
  split; [exact example_stored |].
  destruct (stored_preserved Example.env Example.store example_stored)
    as (_ & _ & Hdelete & _ & Hupdate & _).
  exact (conj (Hdelete "b1") (Hupdate "t1" _)).
Defined.

(** X17 with the datetimes of the example: the text of a date is read
    under [due_date], kept under [title], and kept under [due_date] when
    it denotes no date. *)
Lemma parse_from_mongo_timestamp_keys_witness :
  parse_dict {[ "due_date" := VStr "2024-01-01T00:00:30+00:00";
                "title" := VStr "2024-01-01T00:00:30+00:00" ]}
  !! "due_date" = Some (VDatetime (Example.at_second 30))
  ∧ parse_dict {[ "due_date" := VStr "2024-01-01T00:00:30+00:00";
                  "title" := VStr "2024-01-01T00:00:30+00:00" ]}
    !! "title" = Some (VStr "2024-01-01T00:00:30+00:00")
  ∧ parse_dict {[ "due_date" := VStr "tomorrow" ]} !! "due_date"
    = Some (VStr "tomorrow").
Proof.
  destruct (parse_from_mongo_timestamp_keys
              {[ "due_date" := VStr "2024-01-01T00:00:30+00:00";
                 "title" := VStr "2024-01-01T00:00:30+00:00" ]})
    as (_ & _ & _ & Hother & Hread & _).
  destruct (parse_from_mongo_timestamp_keys {[ "due_date" := VStr "tomorrow" ]})
    as (_ & _ & _ & _ & _ & Hrefused & _).
  assert ("due_date" ∈ timestamp_keys) as Hkey by (do 2 right; left).
  assert ("title" ∉ timestamp_keys) as Hnot.
  { unfold timestamp_keys. rewrite !not_elem_of_cons.
    repeat (split; [discriminate |]). apply not_elem_of_nil. }
  assert (fromisoformat "2024-01-01T00:00:30+00:00"
          = Some (Example.at_second 30)) as Hdate.
  { exact (@fromisoformat_isoformat Iso8601_lib (Example.at_second 30)). }
  split; [exact (Hread "due_date" _ _ Hkey eq_refl Hdate) |].
  split; [rewrite (Hother "title" Hnot); reflexivity |].
  exact (Hrefused "due_date" "tomorrow" eq_refl eq_refl).
Defined.

(** X18 at the example store: a column that is no token, in an update. *)
Lemma put_bodies_witness :
  run Example.env (put_task "t1" {[ "column" := VStr "archived" ]})
    Example.store
  = (Raised RequestValidationError, Example.store).
Proof.
  destruct (put_bodies Example.env Example.store) as (_ & Hcolumn & _).
  exact (Hcolumn "t1" {[ "column" := VStr "archived" ]} "archived"
           eq_refl eq_refl).
Defined.

Lemma example_no_board_b9 b :
  b ∈ [Example.sprint; Example.backlog] → Board_id b ≠ "b9".
Proof. intros Hb. example_elements Hb. Qed.

(** X19 at the example store with a third document that has an id and no
    name. *)
Lemma board_without_name_witness :
  (run Example.env get_boards
     (with_db Example.store
        {| boards := boards (db Example.store) ++ [{[ "id" := VStr "b9" ]}];
           tasks := tasks (db Example.store) |})).1
  = Raised ValidationError
  ∧ (run Example.env (get_board "b9")
       (with_db Example.store
          {| boards := boards (db Example.store) ++ [{[ "id" := VStr "b9" ]}];
             tasks := tasks (db Example.store) |})).1
    = Raised ValidationError.
Proof.
  assert (({[ "id" := VStr "b9" ]} : gmap string value) !! "name" = None)
    as Hname by reflexivity.
  assert (({[ "id" := VStr "b9" ]} : gmap string value) !! "id"
          = Some (VStr "b9")) as Hid by reflexivity.
  destruct (board_without_name Example.env
              (with_db Example.store
                 {| boards := boards (db Example.store)
                              ++ [{[ "id" := VStr "b9" ]}];
                    tasks := tasks (db Example.store) |})
              [Example.sprint; Example.backlog] {[ "id" := VStr "b9" ]} []
              eq_refl Hname)
    as (Hall & _ & Hone).
  split; [exact Hall |].
  exact (proj1 (Hone "b9" Hid example_no_board_b9)).
Defined.

(** X20 at the example store: a task of [b1] is created and deleted. *)
Lemma create_then_delete_witness :
  board_present "b1" Example.store
  ∧ ∃ t w1 w2,
      run Example.env
        (create_task "b1"
           {| TaskCreate_title := "Deploy"; TaskCreate_description := Some "";
              TaskCreate_priority := TaskPriority.low;
              TaskCreate_due_date := None |})
        Example.store
      = (Returned t, w1)
      ∧ run Example.env (delete_task (Task_id t)) w1
        = (Returned {[ "message" := VStr "Task deleted successfully" ]}, w2)
      ∧ tasks (db w2) = tasks (db Example.store)
      ∧ boards (db w2) = boards (db Example.store).
Proof.
  split; [exact example_board_present |].
  exact (proj1 (create_then_delete Example.env Example.store) "b1" _
           example_board_present example_fresh_uuid).
Defined.
